(** * Allocation optimizer and strategy simulator of [arbitrage_analyzer.py]

    A shallow embedding of the decision logic of [ArbitrageAnalyzer]:
    [find_optimal_allocation], [_mining_only_strategy],
    [_inference_only_strategy] and the replay loop of [simulate_strategy].

    Numbers.  Power draws and the site power limit are Python integers and
    are modelled in [Z]; [//] is floor division, which is [Z.div].  Prices,
    capabilities and money amounts are Python numbers modelled as exact
    rationals ([Q]): rounding of binary floating point is not modelled, nor
    is the [OverflowError] Python raises when an integer too large for a
    float meets one.
    Both [/] and [//] raise [ZeroDivisionError] on a zero divisor, which the
    model keeps as a result in the error monad [Exc].

    Outside world.  The SQLite store, the HTTP service and the wall clock are
    inputs of the model: [World] carries what [get_latest_prices] and
    [datetime.now().isoformat()] answer during a call, and [QueryOutcome]
    what the pricing query of [simulate_strategy] yields.  The model takes
    [get_latest_prices] to answer with a price dictionary.

    Dictionaries.  [inventory['miners']], [inventory['inference']] and the
    [allocation] of a plan are Python dictionaries, iterated in insertion
    order: association lists here, with the uniqueness of keys stated where
    a property depends on it ([unique_subtypes]). *)

From Stdlib Require Import ZArith QArith Qminmax List String Ascii Bool.
From Stdlib Require Import Permutation Sorted Lia Lqa.
Import ListNotations.

Local Open Scope Z_scope.
Local Open Scope Q_scope.
Local Open Scope string_scope.

(** ** Exceptions *)

Inductive Exception : Set :=
| ZeroDivisionError
| UnboundLocalError.

Inductive Exc (A : Type) : Type :=
| Return (a : A)
| Raise (e : Exception).

Arguments Return {A} a.
Arguments Raise {A} e.

Definition bind {A B : Type} (c : Exc A) (k : A -> Exc B) : Exc B :=
  match c with
  | Return a => k a
  | Raise e => Raise e
  end.

Notation "x <- c ;; k" := (bind c (fun x => k))
  (at level 61, c at next level, right associativity).

(** A [for] loop whose body may raise, collecting one value per item. *)
Fixpoint for_each {A B : Type} (body : A -> Exc B) (items : list A)
  : Exc (list B) :=
  match items with
  | [] => Return []
  | x :: rest =>
      y <- body x ;;
      ys <- for_each body rest ;;
      Return (y :: ys)
  end.

(** A [for] loop whose body may raise, threading the loop variables. *)
Fixpoint for_loop {A S : Type} (body : S -> A -> Exc S) (items : list A)
  (st : S) : Exc S :=
  match items with
  | [] => Return st
  | x :: rest =>
      st' <- body st x ;;
      for_loop body rest st'
  end.

(** ** Python arithmetic *)

(** [x / d] with an integer divisor. *)
Definition py_truediv (x : Q) (d : Z) : Exc Q :=
  if (d =? 0)%Z then Raise ZeroDivisionError else Return (x / inject_Z d).

(** [x / y] on two numbers. *)
Definition py_truediv_num (x y : Q) : Exc Q :=
  if Qeq_bool y 0 then Raise ZeroDivisionError else Return (x / y).

(** [a // d] on integers. *)
Definition py_floordiv (a d : Z) : Exc Z :=
  if (d =? 0)%Z then Raise ZeroDivisionError else Return (a / d)%Z.

(** [x > y] on numbers. *)
Definition Qgt_bool (x y : Q) : bool := negb (Qle_bool x y).

(** ** Data *)

Inductive MachineType : Set := miner | inference.

Definition type_name (t : MachineType) : string :=
  match t with
  | miner => "miner"
  | inference => "inference"
  end.

Inductive PriceType : Set := hash_price_key | token_price_key.

(** One value of [inventory['miners']] or [inventory['inference']]:
    [capability] is the entry's ['hashrate'] for a miner and its ['tokens']
    for an inference device (the inventory table stores both under that
    name). *)
Module Specs.
Record t : Set := make { power : Z; capability : Q }.
End Specs.

(** A Python [dict] with string keys, in insertion order. *)
Definition dict (V : Type) : Type := list (string * V).

Definition keys {V : Type} (d : dict V) : list string := map fst d.
Definition values {V : Type} (d : dict V) : list V := map snd d.

(** [d[k] = v]: an existing key keeps its position. *)
Fixpoint dict_set {V : Type} (k : string) (v : V) (d : dict V) : dict V :=
  match d with
  | [] => [(k, v)]
  | (k', v') :: rest =>
      if String.eqb k k' then (k, v) :: rest
      else (k', v') :: dict_set k v rest
  end.

Module Inventory.
Record t : Type := make { miners : dict Specs.t; inference : dict Specs.t }.
End Inventory.

Module Prices.
Record t : Set := make { energy_price : Q; hash_price : Q; token_price : Q }.
End Prices.

Module Analyzer.
Record t : Type := make { inventory : Inventory.t; site_power_limit : Z }.
End Analyzer.

(** An element of [machine_efficiency]. *)
Module Machine.
Record t : Set := make {
  type : MachineType;
  subtype : string;
  power : Z;
  profit_per_watt : Q;
  revenue_per_watt : Q;
  capability : Q;
  price_type : PriceType
}.
End Machine.

(** A value of the [allocation] dictionary. *)
Module Entry.
Record t : Set := make {
  units : Z;
  type : MachineType;
  subtype : string;
  power_used : Z;
  profit : Q;
  revenue : Q;
  cost : Q
}.
End Entry.

(** The dictionary returned by [find_optimal_allocation]. *)
Module Plan.
Record t : Type := make {
  allocation : dict Entry.t;
  total_power_used : Z;
  total_profit : Q;
  total_revenue : Q;
  total_cost : Q;
  roi_percentage : Q;
  prices : Prices.t;
  timestamp : string
}.
End Plan.

(** The dictionary returned by the two single-category strategies. *)
Module Summary.
Record t : Set := make {
  total_profit : Q;
  total_revenue : Q;
  total_cost : Q;
  roi_percentage : Q
}.
End Summary.

(** What the outside world answers during one call.  [get_latest_prices]
    is the price dictionary [self.get_latest_prices()] hands to a call made
    without prices; the calls in which it returns [None] or raises are
    described by the function [get_latest_prices] below and are no values
    of this record. *)
Module World.
Record t : Type := make { get_latest_prices : Prices.t; now : string }.
End World.

(** ** [find_optimal_allocation] *)

Definition analyze_miner (current_prices : Prices.t)
  (item : string * Specs.t) : Exc Machine.t :=
  let '(miner_type, specs) := item in
  revenue_per_watt <-
    py_truediv (Specs.capability specs * Prices.hash_price current_prices)
               (Specs.power specs) ;;
  let cost_per_watt := Prices.energy_price current_prices in
  let profit_per_watt := revenue_per_watt - cost_per_watt in
  Return (Machine.make miner miner_type (Specs.power specs) profit_per_watt
            revenue_per_watt (Specs.capability specs) hash_price_key).

Definition analyze_inference (current_prices : Prices.t)
  (item : string * Specs.t) : Exc Machine.t :=
  let '(compute_type, specs) := item in
  revenue_per_watt <-
    py_truediv (Specs.capability specs * Prices.token_price current_prices)
               (Specs.power specs) ;;
  let cost_per_watt := Prices.energy_price current_prices in
  let profit_per_watt := revenue_per_watt - cost_per_watt in
  Return (Machine.make inference compute_type (Specs.power specs)
            profit_per_watt revenue_per_watt (Specs.capability specs)
            token_price_key).

(** The two loops that fill [machine_efficiency]: miners, then inference. *)
Definition machine_efficiency (inv : Inventory.t) (current_prices : Prices.t)
  : Exc (list Machine.t) :=
  ms <- for_each (analyze_miner current_prices) (Inventory.miners inv) ;;
  cs <- for_each (analyze_inference current_prices) (Inventory.inference inv) ;;
  Return (ms ++ cs)%list.

(** [list.sort(key=profit_per_watt, reverse=True)]: the sort is stable, also
    when reversed, so machines with equal keys keep their order.  Any stable
    sort returns the same list; this one inserts from the right. *)
Fixpoint insert_desc (x : Machine.t) (l : list Machine.t) : list Machine.t :=
  match l with
  | [] => [x]
  | y :: rest =>
      if Qgt_bool (Machine.profit_per_watt y) (Machine.profit_per_watt x)
      then y :: insert_desc x rest
      else x :: y :: rest
  end.

Fixpoint sort_desc (l : list Machine.t) : list Machine.t :=
  match l with
  | [] => []
  | x :: rest => insert_desc x (sort_desc rest)
  end.

(** The variables of the greedy loop. *)
Module Greedy.
Record t : Type := make {
  allocation : dict Entry.t;
  remaining_power : Z;
  total_profit : Q;
  total_revenue : Q;
  total_cost : Q
}.
End Greedy.

Definition allocation_key (machine : Machine.t) : string :=
  Machine.subtype machine ++ "_" ++ type_name (Machine.type machine).

Definition greedy_step (current_prices : Prices.t) (st : Greedy.t)
  (machine : Machine.t) : Exc Greedy.t :=
  if Qle_bool (Machine.profit_per_watt machine) 0 then Return st
  else
    max_units <- py_floordiv (Greedy.remaining_power st) (Machine.power machine) ;;
    if (max_units >? 0)%Z then
      let watts := (max_units * Machine.power machine)%Z in
      let entry :=
        Entry.make max_units (Machine.type machine) (Machine.subtype machine)
          watts
          (inject_Z watts * Machine.profit_per_watt machine)
          (inject_Z watts * Machine.revenue_per_watt machine)
          (inject_Z watts * Prices.energy_price current_prices) in
      Return (Greedy.make
                (dict_set (allocation_key machine) entry (Greedy.allocation st))
                (Greedy.remaining_power st - watts)%Z
                (Greedy.total_profit st + Entry.profit entry)
                (Greedy.total_revenue st + Entry.revenue entry)
                (Greedy.total_cost st + Entry.cost entry))
    else Return st.

(** [(total_profit / total_cost * 100) if total_cost > 0 else 0] *)
Definition roi (total_profit total_cost : Q) : Exc Q :=
  if Qgt_bool total_cost 0 then
    q <- py_truediv_num total_profit total_cost ;;
    Return (q * 100)
  else Return 0.

Definition find_optimal_allocation (self : Analyzer.t) (w : World.t)
  (current_prices : option Prices.t) : Exc Plan.t :=
  let current_prices :=
    match current_prices with
    | None => World.get_latest_prices w
    | Some p => p
    end in
  eff <- machine_efficiency (Analyzer.inventory self) current_prices ;;
  let eff := sort_desc eff in
  st <- for_loop (greedy_step current_prices) eff
          (Greedy.make [] (Analyzer.site_power_limit self) 0 0 0) ;;
  r <- roi (Greedy.total_profit st) (Greedy.total_cost st) ;;
  Return (Plan.make (Greedy.allocation st)
            (Analyzer.site_power_limit self - Greedy.remaining_power st)%Z
            (Greedy.total_profit st) (Greedy.total_revenue st)
            (Greedy.total_cost st) r current_prices (World.now w)).

(** ** The single-category strategies *)

(** The loop variables [best_miner] / [best_compute] and
    [best_profit_per_watt]; [None] for the latter is [-float('inf')]. *)
Definition Best : Type := (option (string * Specs.t) * option Q)%type.

Definition gt_best (profit_per_watt : Q) (best : option Q) : bool :=
  match best with
  | None => true
  | Some b => Qgt_bool profit_per_watt b
  end.

Definition best_step (price : Q) (prices : Prices.t) (st : Best)
  (item : string * Specs.t) : Exc Best :=
  let '(name, specs) := item in
  revenue_per_watt <-
    py_truediv (Specs.capability specs * price) (Specs.power specs) ;;
  let profit_per_watt := revenue_per_watt - Prices.energy_price prices in
  if gt_best profit_per_watt (snd st)
  then Return (Some (name, specs), Some profit_per_watt)
  else Return st.

Definition zero_summary : Summary.t := Summary.make 0 0 0 0.

Definition single_strategy (limit : Z) (price : Q) (prices : Prices.t)
  (category : dict Specs.t) : Exc Summary.t :=
  st <- for_loop (best_step price prices) category (None, None) ;;
  match fst st with
  | Some best =>
      units <- py_floordiv limit (Specs.power (snd best)) ;;
      let total_power := (units * Specs.power (snd best))%Z in
      let total_revenue :=
        inject_Z units * Specs.capability (snd best) * price in
      let total_cost := inject_Z total_power * Prices.energy_price prices in
      r <- roi (total_revenue - total_cost) total_cost ;;
      Return (Summary.make (total_revenue - total_cost) total_revenue
                total_cost r)
  | None => Return zero_summary
  end.

Definition _mining_only_strategy (self : Analyzer.t) (prices : Prices.t)
  : Exc Summary.t :=
  single_strategy (Analyzer.site_power_limit self) (Prices.hash_price prices)
    prices (Inventory.miners (Analyzer.inventory self)).

Definition _inference_only_strategy (self : Analyzer.t) (prices : Prices.t)
  : Exc Summary.t :=
  single_strategy (Analyzer.site_power_limit self) (Prices.token_price prices)
    prices (Inventory.inference (Analyzer.inventory self)).

(** ** [simulate_strategy] *)

(** A row of the pricing table. *)
Module Row.
Record t : Set := make {
  timestamp : string;
  energy_price : Q;
  hash_price : Q;
  token_price : Q
}.
End Row.

(** What the [try] block of [simulate_strategy] ends with; [hours] only
    selects the rows of the query. *)
Inductive QueryOutcome : Type :=
| NoPricingTable
| QueryFailed
| Rows (df : list Row.t).

(** A row of the returned data frame. *)
Module RunRecord.
Record t : Set := make {
  timestamp : string;
  profit : Q;
  revenue : Q;
  cost : Q;
  roi : Q
}.
End RunRecord.

Definition summary_of_plan (p : Plan.t) : Summary.t :=
  Summary.make (Plan.total_profit p) (Plan.total_revenue p)
    (Plan.total_cost p) (Plan.roi_percentage p).

(** The [if]/[elif] chain; with no branch taken [result] is unbound when
    the loop body reads it. *)
Definition run_strategy (self : Analyzer.t) (w : World.t) (strategy : string)
  (prices : Prices.t) : Exc Summary.t :=
  if String.eqb strategy "optimal" then
    p <- find_optimal_allocation self w (Some prices) ;;
    Return (summary_of_plan p)
  else if String.eqb strategy "mining_only" then
    _mining_only_strategy self prices
  else if String.eqb strategy "inference_only" then
    _inference_only_strategy self prices
  else Raise UnboundLocalError.

Definition prices_of_row (row : Row.t) : Prices.t :=
  Prices.make (Row.energy_price row) (Row.hash_price row)
    (Row.token_price row).

(** The dictionary appended to [results] for [row]. *)
Definition record_of (row : Row.t) (result : Summary.t) : RunRecord.t :=
  RunRecord.make (Row.timestamp row) (Summary.total_profit result)
    (Summary.total_revenue result) (Summary.total_cost result)
    (Summary.roi_percentage result).

(** The loop over the rows; [worlds i] is the outside world during the
    [i]-th iteration, and the list returned is [results]. *)
Fixpoint simulate_rows (self : Analyzer.t) (worlds : nat -> World.t)
  (strategy : string) (i : nat) (rows : list Row.t)
  : Exc (list RunRecord.t) :=
  match rows with
  | [] => Return []
  | row :: rest =>
      let prices := prices_of_row row in
      result <- run_strategy self (worlds i) strategy prices ;;
      results <- simulate_rows self worlds strategy (S i) rest ;;
      Return (record_of row result :: results)
  end.

(** The result is [None] where the source returns [None]: no pricing
    table, a failed query, or no row in the window. *)
Definition simulate_strategy (self : Analyzer.t) (worlds : nat -> World.t)
  (strategy : string) (q : QueryOutcome) : Exc (option (list RunRecord.t)) :=
  match q with
  | NoPricingTable => Return None
  | QueryFailed => Return None
  | Rows df =>
      match df with
      | [] => Return None
      | _ =>
          results <- simulate_rows self worlds strategy 0 df ;;
          Return (Some results)
      end
  end.

(** ** The default inventory and prices of the source *)

Definition default_inventory : Inventory.t :=
  Inventory.make
    [ ("air", Specs.make 3500 1000);
      ("hydro", Specs.make 5000 5000);
      ("immersion", Specs.make 10000 10000) ]
    [ ("gpu", Specs.make 5000 1000);
      ("asic", Specs.make 15000 50000) ].

Definition default_prices : Prices.t := Prices.make 0.65 8.5 3.

Definition default_analyzer : Analyzer.t :=
  Analyzer.make default_inventory 1000000.

Definition sample_world : World.t :=
  World.make default_prices "2025-06-21T12:00:00.000000".

(** * Vocabulary of the properties *)

(** ** Values of the source expressions *)

(** The value of the ROI expression. *)
Definition roi_value (total_profit total_cost : Q) : Q :=
  if Qgt_bool total_cost 0 then total_profit / total_cost * 100 else 0.

(** [current_prices[machine['price_type']]] *)
Definition price_for (t : MachineType) (prices : Prices.t) : Q :=
  match t with
  | miner => Prices.hash_price prices
  | inference => Prices.token_price prices
  end.

(** The ['price_type'] of a category. *)
Definition price_key (t : MachineType) : PriceType :=
  match t with
  | miner => hash_price_key
  | inference => token_price_key
  end.

(** [capability * price / power], the value of [revenue_per_watt]. *)
Definition revenue_per_watt (t : MachineType) (prices : Prices.t)
  (specs : Specs.t) : Q :=
  Specs.capability specs * price_for t prices / inject_Z (Specs.power specs).

(** The value of [profit_per_watt] for a device at given prices. *)
Definition profit_per_watt (t : MachineType) (prices : Prices.t)
  (specs : Specs.t) : Q :=
  revenue_per_watt t prices specs - Prices.energy_price prices.

(** The dictionary appended to [machine_efficiency] for an inventory entry. *)
Definition machine_of (t : MachineType) (prices : Prices.t)
  (item : string * Specs.t) : Machine.t :=
  Machine.make t (fst item) (Specs.power (snd item))
    (profit_per_watt t prices (snd item))
    (revenue_per_watt t prices (snd item))
    (Specs.capability (snd item)) (price_key t).

(** The loop body of a category. *)
Definition analyze (t : MachineType) :=
  match t with
  | miner => analyze_miner
  | inference => analyze_inference
  end.

(** Some entry of the dictionary has ['power'] equal to zero. *)
Definition has_zero_power (d : dict Specs.t) : bool :=
  existsb (fun item => (Specs.power (snd item) =? 0)%Z) d.

(** Some entry of either category has. *)
Definition inventory_has_zero_power (inv : Inventory.t) : bool :=
  has_zero_power (Inventory.miners inv)
  || has_zero_power (Inventory.inference inv).

(** The table before sorting, when no division fails. *)
Definition efficiency_table (inv : Inventory.t) (prices : Prices.t)
  : list Machine.t :=
  (map (machine_of miner prices) (Inventory.miners inv)
   ++ map (machine_of inference prices) (Inventory.inference inv))%list.

(** The entry written for [machine] when [max_units] units fit. *)
Definition entry_for (current_prices : Prices.t) (machine : Machine.t)
  (max_units : Z) : Entry.t :=
  let watts := (max_units * Machine.power machine)%Z in
  Entry.make max_units (Machine.type machine) (Machine.subtype machine) watts
    (inject_Z watts * Machine.profit_per_watt machine)
    (inject_Z watts * Machine.revenue_per_watt machine)
    (inject_Z watts * Prices.energy_price current_prices).

(** The three ways one iteration of the greedy loop ends. *)
Inductive greedy_step_spec (current_prices : Prices.t) (st : Greedy.t)
  (machine : Machine.t) : Greedy.t -> Prop :=
| step_unprofitable :
    Machine.profit_per_watt machine <= 0 ->
    greedy_step_spec current_prices st machine st
| step_no_room :
    0 < Machine.profit_per_watt machine ->
    (Greedy.remaining_power st / Machine.power machine <= 0)%Z ->
    greedy_step_spec current_prices st machine st
| step_allocate :
    forall max_units entry,
    0 < Machine.profit_per_watt machine ->
    max_units = (Greedy.remaining_power st / Machine.power machine)%Z ->
    (0 < max_units)%Z ->
    entry = entry_for current_prices machine max_units ->
    greedy_step_spec current_prices st machine
      (Greedy.make
         (dict_set (allocation_key machine) entry (Greedy.allocation st))
         (Greedy.remaining_power st - Entry.power_used entry)%Z
         (Greedy.total_profit st + Entry.profit entry)
         (Greedy.total_revenue st + Entry.revenue entry)
         (Greedy.total_cost st + Entry.cost entry)).

(** The prices a call works with. *)
Definition resolve_prices (w : World.t) (current_prices : option Prices.t)
  : Prices.t :=
  match current_prices with
  | None => World.get_latest_prices w
  | Some p => p
  end.

(** The sorted table the greedy loop walks. *)
Definition ranked (self : Analyzer.t) (prices : Prices.t) : list Machine.t :=
  sort_desc (efficiency_table (Analyzer.inventory self) prices).

(** The loop variables before the first iteration. *)
Definition greedy_init (self : Analyzer.t) : Greedy.t :=
  Greedy.make [] (Analyzer.site_power_limit self) 0 0 0.

(** The plan built from the final loop variables. *)
Definition plan_of (self : Analyzer.t) (w : World.t) (prices : Prices.t)
  (st : Greedy.t) : Plan.t :=
  Plan.make (Greedy.allocation st)
    (Analyzer.site_power_limit self - Greedy.remaining_power st)%Z
    (Greedy.total_profit st) (Greedy.total_revenue st) (Greedy.total_cost st)
    (roi_value (Greedy.total_profit st) (Greedy.total_cost st))
    prices (World.now w).

(** ** Well-formed catalogs *)

(** Every entry of the inventory draws a positive power. *)
Definition positive_powers (inv : Inventory.t) : Prop :=
  Forall (fun item => (0 < Specs.power (snd item))%Z) (Inventory.miners inv)
  /\ Forall (fun item => (0 < Specs.power (snd item))%Z)
       (Inventory.inference inv).

(** The keys of a Python dictionary are pairwise different. *)
Definition unique_subtypes (inv : Inventory.t) : Prop :=
  NoDup (keys (Inventory.miners inv))
  /\ NoDup (keys (Inventory.inference inv)).

(** The dictionary of a category. *)
Definition category (t : MachineType) (inv : Inventory.t) : dict Specs.t :=
  match t with
  | miner => Inventory.miners inv
  | inference => Inventory.inference inv
  end.

(** ** Plans and allocations *)

(** [plan] with its [timestamp] replaced. *)
Definition with_timestamp (plan : Plan.t) (stamp : string) : Plan.t :=
  Plan.make (Plan.allocation plan) (Plan.total_power_used plan)
    (Plan.total_profit plan) (Plan.total_revenue plan) (Plan.total_cost plan)
    (Plan.roi_percentage plan) (Plan.prices plan) stamp.

(** The sum of [power_used] over the entries of an allocation. *)
Definition sum_power_used (allocation : dict Entry.t) : Z :=
  fold_right (fun entry acc => (Entry.power_used entry + acc)%Z) 0%Z
    (values allocation).

(** ** Ranking *)

(** The first element whose key no other element exceeds: what a loop
    keeping the first strictly greater key finds, and what a stable
    descending sort puts in front. *)
Fixpoint first_max {A : Type} (key : A -> Q) (l : list A) : option A :=
  match l with
  | [] => None
  | x :: rest =>
      match first_max key rest with
      | Some m => if Qgt_bool (key m) (key x) then Some m else Some x
      | None => Some x
      end
  end.

(** [profit_per_watt] as the strategies compute it, for the category price
    [price]. *)
Definition strategy_key (price : Q) (prices : Prices.t)
  (item : string * Specs.t) : Q :=
  Specs.capability (snd item) * price / inject_Z (Specs.power (snd item))
  - Prices.energy_price prices.

(** The summary returned when [specs] is the best entry. *)
Definition summary_for (limit : Z) (price : Q) (prices : Prices.t)
  (specs : Specs.t) : Summary.t :=
  let units := (limit / Specs.power specs)%Z in
  let total_power := (units * Specs.power specs)%Z in
  let total_revenue := inject_Z units * Specs.capability specs * price in
  let total_cost := inject_Z total_power * Prices.energy_price prices in
  Summary.make (total_revenue - total_cost) total_revenue total_cost
    (roi_value (total_revenue - total_cost) total_cost).

(** The strategy restricted to a category. *)
Definition strategy_for (t : MachineType)
  : Analyzer.t -> Prices.t -> Exc Summary.t :=
  match t with
  | miner => _mining_only_strategy
  | inference => _inference_only_strategy
  end.

(** The strategy names the [if]/[elif] chain knows. *)
Definition strategies : list string :=
  ["optimal"; "mining_only"; "inference_only"].

(** No inference entry earns more per watt than every miner. *)
Definition miners_lead (inv : Inventory.t) (prices : Prices.t) : Prop :=
  forall c, In c (Inventory.inference inv) ->
            exists x, In x (Inventory.miners inv)
                      /\ profit_per_watt inference prices (snd c)
                         <= profit_per_watt miner prices (snd x).

(** Every miner earns less per watt than some inference entry. *)
Definition inference_leads (inv : Inventory.t) (prices : Prices.t) : Prop :=
  forall x, In x (Inventory.miners inv) ->
            exists c, In c (Inventory.inference inv)
                      /\ profit_per_watt miner prices (snd x)
                         < profit_per_watt inference prices (snd c).

(** The summary a strategy returns on a category without zero power. *)
Definition strategy_summary (t : MachineType) (self : Analyzer.t)
  (prices : Prices.t) : Summary.t :=
  match first_max (strategy_key (price_for t prices) prices)
          (category t (Analyzer.inventory self)) with
  | Some best =>
      summary_for (Analyzer.site_power_limit self) (price_for t prices)
        prices (snd best)
  | None => zero_summary
  end.

(** ** Sample inputs *)

(** An inventory with a negative power draw. *)
Definition negative_power_analyzer : Analyzer.t :=
  Analyzer.make
    (Inventory.make [("air", Specs.make (-3500) 1000)] []) 1000000.

(** The default inventory under a negative site power limit. *)
Definition negative_budget_analyzer : Analyzer.t :=
  Analyzer.make default_inventory (-1).

(** An inventory with a power draw of zero. *)
Definition zero_power_analyzer : Analyzer.t :=
  Analyzer.make
    (Inventory.make [("air", Specs.make 0 1000)] []) 1000000.

(** The same prices, five seconds after [sample_world]. *)
Definition later_world : World.t :=
  World.make default_prices "2025-06-21T12:00:05.000000".

(** The default prices with a hash price of zero. *)
Definition worthless_hash_prices : Prices.t := Prices.make 0.65 0 3.

(** Two rows of the pricing table. *)
Definition sample_history : list Row.t :=
  [ Row.make "2025-06-21T10:00:00" 0.65 8.5 3;
    Row.make "2025-06-21T10:05:00" 0.7 8 2.5 ].

(** A 10 W site with a 5 W miner and a 6 W inference device. *)
Definition stranded_analyzer : Analyzer.t :=
  Analyzer.make
    (Inventory.make [("small", Specs.make 5 50)] [("large", Specs.make 6 66)])
    10.

(** Every price equal to one. *)
Definition unit_prices : Prices.t := Prices.make 1 1 1.

(** Two miners earning the same per watt, the 4 W one first, on a 9 W
    site. *)
Definition tied_analyzer : Analyzer.t :=
  Analyzer.make
    (Inventory.make [("a", Specs.make 4 8); ("b", Specs.make 3 6)] []) 9.

(** A miner with a negative power draw that earns 9 per watt at
    [unit_prices], on a 10 W site. *)
Definition reversed_analyzer : Analyzer.t :=
  Analyzer.make (Inventory.make [("x", Specs.make (-3) (-30))] []) 10.

(** A miner whose power draw is 2 ^ 63. *)
Definition oversized_inventory : Inventory.t :=
  Inventory.make [("big", Specs.make (2 ^ 63) 1000)] [].

(** The default inventory on a site of 1003000 W. *)
Definition roomy_analyzer : Analyzer.t :=
  Analyzer.make default_inventory 1003000.

(** * Further functions of the repository *)

(** ** Exceptions beyond the optimizer's *)

(** A missing dictionary key, a request that cannot be sent or answered, a
    response body that is not JSON, an integer too large for a table
    column, or one of the exceptions above. *)
Inductive Failure : Set :=
| KeyError (key : string)
| ConnectionError
| JSONDecodeError
| OverflowError
| Builtin (e : Exception).

Inductive Try (A : Type) : Type :=
| Done (a : A)
| Fail (f : Failure).

Arguments Done {A} a.
Arguments Fail {A} f.

Definition try_bind {A B : Type} (c : Try A) (k : A -> Try B) : Try B :=
  match c with
  | Done a => k a
  | Fail f => Fail f
  end.

Notation "x <~ c ;; k" := (try_bind c (fun x => k))
  (at level 61, c at next level, right associativity).

Definition lift {A : Type} (c : Exc A) : Try A :=
  match c with
  | Return a => Done a
  | Raise e => Fail (Builtin e)
  end.

(** [d.get(k)]: the value under [k], if any. *)
Fixpoint dict_get {V : Type} (k : string) (d : dict V) : option V :=
  match d with
  | [] => None
  | (k', v) :: rest => if String.eqb k k' then Some v else dict_get k rest
  end.

(** [d[k]] *)
Definition dict_getitem {V : Type} (k : string) (d : dict V) : Try V :=
  match dict_get k d with
  | Some v => Done v
  | None => Fail (KeyError k)
  end.

(** ** [calculate_roi] *)

(** The dictionary returned by [calculate_roi]. *)
Module Roi.
Record t : Set := make {
  revenue : Q;
  cost : Q;
  profit : Q;
  roi_percentage : Q;
  power_used : Z
}.
End Roi.

Definition calculate_roi (self : Analyzer.t) (machine_type : string)
  (machine_subtype : string) (quantity : Z) (current_prices : Prices.t)
  : Try Roi.t :=
  found <~
    (if String.eqb machine_type "miner" then
       specs <~ dict_getitem machine_subtype
                  (Inventory.miners (Analyzer.inventory self)) ;;
       Done (specs,
             Specs.capability specs * Prices.hash_price current_prices)
     else
       specs <~ dict_getitem machine_subtype
                  (Inventory.inference (Analyzer.inventory self)) ;;
       Done (specs,
             Specs.capability specs * Prices.token_price current_prices)) ;;
  let '(specs, revenue_per_unit) := found in
  let power_per_unit := Specs.power specs in
  let cost_per_unit :=
    inject_Z power_per_unit * Prices.energy_price current_prices in
  let profit_per_unit := revenue_per_unit - cost_per_unit in
  r <~ lift (roi profit_per_unit cost_per_unit) ;;
  Done (Roi.make (revenue_per_unit * inject_Z quantity)
          (cost_per_unit * inject_Z quantity)
          (profit_per_unit * inject_Z quantity)
          r
          (power_per_unit * quantity)%Z).

(** ** [apply_allocation] of the dashboard *)

(** [needle in hay] on strings: [needle] occurs somewhere in [hay]. *)
Fixpoint contains (needle hay : string) : bool :=
  String.prefix needle hay
  || match hay with
     | EmptyString => false
     | String _ rest => contains needle rest
     end.

(** The dictionary [api_allocation], whose five keys are fixed. *)
Module ApiAllocation.
Record t : Set := make {
  air_miners : Z;
  hydro_miners : Z;
  immersion_miners : Z;
  gpu_compute : Z;
  asic_compute : Z
}.
End ApiAllocation.

(** One iteration of the loop over [allocation.items()]. *)
Definition api_allocation_step (api_allocation : ApiAllocation.t)
  (item : string * Entry.t) : ApiAllocation.t :=
  let '(name, details) := item in
  let units := Entry.units details in
  if contains "air_miner" name then
    ApiAllocation.make units
      (ApiAllocation.hydro_miners api_allocation)
      (ApiAllocation.immersion_miners api_allocation)
      (ApiAllocation.gpu_compute api_allocation)
      (ApiAllocation.asic_compute api_allocation)
  else if contains "hydro_miner" name then
    ApiAllocation.make (ApiAllocation.air_miners api_allocation)
      units
      (ApiAllocation.immersion_miners api_allocation)
      (ApiAllocation.gpu_compute api_allocation)
      (ApiAllocation.asic_compute api_allocation)
  else if contains "immersion_miner" name then
    ApiAllocation.make (ApiAllocation.air_miners api_allocation)
      (ApiAllocation.hydro_miners api_allocation)
      units
      (ApiAllocation.gpu_compute api_allocation)
      (ApiAllocation.asic_compute api_allocation)
  else if contains "gpu_inference" name then
    ApiAllocation.make (ApiAllocation.air_miners api_allocation)
      (ApiAllocation.hydro_miners api_allocation)
      (ApiAllocation.immersion_miners api_allocation)
      units
      (ApiAllocation.asic_compute api_allocation)
  else if contains "asic_inference" name then
    ApiAllocation.make (ApiAllocation.air_miners api_allocation)
      (ApiAllocation.hydro_miners api_allocation)
      (ApiAllocation.immersion_miners api_allocation)
      (ApiAllocation.gpu_compute api_allocation)
      units
  else api_allocation.

(** The request body built from [allocation]. *)
Definition api_allocation (allocation : dict Entry.t) : ApiAllocation.t :=
  fold_left api_allocation_step allocation (ApiAllocation.make 0 0 0 0 0).

(** [put] is the machines endpoint: what it answers to a request body.
    The source's first argument, [analyzer], is not used by it. *)
Definition apply_allocation {Response : Type}
  (put : ApiAllocation.t -> Response) (allocation : dict Entry.t)
  : Response :=
  put (api_allocation allocation).

(** ** The inventory table: [store_inventory] and [load_inventory] *)

(** What a [requests.get] ends with: no response at all, or a status code
    and a body, [None] when the body is not JSON. *)
Inductive Response (A : Type) : Type :=
| Unreachable
| Answered (status_code : Z) (json : option A).

Arguments Unreachable {A}.
Arguments Answered {A} status_code json.

(** What connecting, looking for the table and reading it end with; the
    rows of a table come back in the order they were inserted. *)
Inductive TableQuery (R : Type) : Type :=
| DbError
| NoTable
| Table (rows : list R).

Arguments DbError {R}.
Arguments NoTable {R}.
Arguments Table {R} rows.

(** A row of the inventory table; [id] and [collected_at] are not read. *)
Module InventoryRow.
Record t : Set := make {
  type : string;
  subtype : string;
  power : Z;
  capability : Q
}.
End InventoryRow.

Definition miner_row (item : string * Specs.t) : InventoryRow.t :=
  InventoryRow.make "miner" (fst item) (Specs.power (snd item))
    (Specs.capability (snd item)).

Definition inference_row (item : string * Specs.t) : InventoryRow.t :=
  InventoryRow.make "inference" (fst item) (Specs.power (snd item))
    (Specs.capability (snd item)).

(** The integers an SQLite INTEGER holds: 64 bits, signed. *)
Definition sqlite_integer (z : Z) : bool :=
  (- 2 ^ 63 <=? z)%Z && (z <? 2 ^ 63)%Z.

(** The capabilities an [INSERT] takes.  One with a fractional part is a
    float and is stored as it is; a whole one is taken to be a Python
    integer, as the service sends it, and has to be in range.  (The model's
    numbers do not tell a whole float from an integer; a whole float out of
    range, which SQLite stores as it is, counts as out of range here.) *)
Definition sqlite_number (q : Q) : bool :=
  negb (Pos.eqb (Qden (Qred q)) 1) || sqlite_integer (Qnum (Qred q)).

(** The [INSERT] of this entry does not raise. *)
Definition row_fits (item : string * Specs.t) : bool :=
  sqlite_integer (Specs.power (snd item))
  && sqlite_number (Specs.capability (snd item)).

(** [store_inventory]: the committed table after the call, and how the call
    ended.  With nothing to store the table is untouched.  Otherwise the
    table is emptied and filled with the miners, then the inference
    devices, and committed; an [INSERT] of an integer beyond 64 bits raises
    [OverflowError] before the commit, and the table keeps its old rows. *)
Definition store_inventory (inventory : option Inventory.t)
  (table : list InventoryRow.t) : list InventoryRow.t * Try unit :=
  match inventory with
  | None => (table, Done tt)
  | Some inv =>
      if forallb row_fits
           (Inventory.miners inv ++ Inventory.inference inv)%list
      then
        ((map miner_row (Inventory.miners inv)
          ++ map inference_row (Inventory.inference inv))%list,
         Done tt)
      else (table, Fail OverflowError)
  end.

(** One iteration of the loop over [df.iterrows()]. *)
Definition inventory_add_row (inventory : Inventory.t)
  (row : InventoryRow.t) : Inventory.t :=
  let specs :=
    Specs.make (InventoryRow.power row) (InventoryRow.capability row) in
  if String.eqb (InventoryRow.type row) "miner" then
    Inventory.make
      (dict_set (InventoryRow.subtype row) specs (Inventory.miners inventory))
      (Inventory.inference inventory)
  else
    Inventory.make (Inventory.miners inventory)
      (dict_set (InventoryRow.subtype row) specs
         (Inventory.inference inventory)).

(** "Convert database format to API format". *)
Definition inventory_of_rows (rows : list InventoryRow.t) : Inventory.t :=
  fold_left inventory_add_row rows (Inventory.make [] []).

(** The [except] branch of [load_inventory]: one more request, whose failure
    is not caught. *)
Definition inventory_fallback (response : Response Inventory.t)
  : Try Inventory.t :=
  match response with
  | Unreachable => Fail ConnectionError
  | Answered status_code json =>
      if (status_code =? 200)%Z then
        match json with
        | Some inventory => Done inventory
        | None => Fail JSONDecodeError
        end
      else Done default_inventory
  end.

(** The request inside the [try] block: anything but a 200 with a JSON body
    ends in the [except] branch, which sends the next request. *)
Definition inventory_fetch (api : nat -> Response Inventory.t)
  : Try Inventory.t :=
  match api 0%nat with
  | Answered status_code (Some inventory) =>
      if (status_code =? 200)%Z then Done inventory
      else inventory_fallback (api 1%nat)
  | _ => inventory_fallback (api 1%nat)
  end.

(** [api n] is the answer to the [n]-th request of the call. *)
Definition load_inventory (db : TableQuery InventoryRow.t)
  (api : nat -> Response Inventory.t) : Try Inventory.t :=
  match db with
  | DbError => inventory_fallback (api 0%nat)
  | NoTable => inventory_fetch api
  | Table [] => inventory_fetch api
  | Table rows => Done (inventory_of_rows rows)
  end.

(** ** [get_latest_prices] *)

(** The hard-coded prices, stamped with the clock. *)
Definition default_price_row (now : string) : Row.t :=
  Row.make now 0.65 8.5 3.

(** The [except] branch of [get_latest_prices]. *)
Definition prices_fallback (response : Response (list Row.t)) (now : string)
  : Try (option Row.t) :=
  match response with
  | Unreachable => Fail ConnectionError
  | Answered status_code json =>
      if (status_code =? 200)%Z then
        match json with
        | Some (first :: _) => Done (Some first)
        | Some [] => Done (Some (default_price_row now))
        | None => Fail JSONDecodeError
        end
      else Done (Some (default_price_row now))
  end.

(** [db] is the outcome of the table check and of the query for the newest
    row; the result is [None] where the function ends without a [return].
    With no table the connection is closed before the request, so an empty
    answer runs into the query on the closed connection and from there into
    the [except] branch. *)
Definition get_latest_prices (db : TableQuery Row.t)
  (api : nat -> Response (list Row.t)) (now : string) : Try (option Row.t) :=
  match db with
  | DbError => prices_fallback (api 0%nat) now
  | NoTable =>
      match api 0%nat with
      | Answered status_code (Some (first :: rest)) =>
          if (status_code =? 200)%Z then Done (Some first)
          else prices_fallback (api 1%nat) now
      | _ => prices_fallback (api 1%nat) now
      end
  | Table [] =>
      match api 0%nat with
      | Unreachable => prices_fallback (api 1%nat) now
      | Answered status_code json =>
          if (status_code =? 200)%Z then
            match json with
            | Some (first :: _) => Done (Some first)
            | Some [] => Done None
            | None => prices_fallback (api 1%nat) now
            end
          else Done None
      end
  | Table (row :: _) => Done (Some row)
  end.

(** ** Vocabulary for the further properties *)

(** The allocation keys [apply_allocation] is written for. *)
Definition known_names : list string :=
  ["air_miner"; "hydro_miner"; "immersion_miner"; "gpu_inference";
   "asic_inference"].

(** The units stored under [name], zero when there is no such entry. *)
Definition units_of (name : string) (allocation : dict Entry.t) : Z :=
  match dict_get name allocation with
  | Some details => Entry.units details
  | None => 0%Z
  end.

(** The sum of a money field over the entries of an allocation. *)
Definition sum_entries (field : Entry.t -> Q) (allocation : dict Entry.t)
  : Q :=
  fold_right (fun entry acc => field entry + acc) 0 (values allocation).

(** [l1] is [l2] with some elements left out. *)
Inductive subsequence {A : Type} : list A -> list A -> Prop :=
| subsequence_nil : subsequence [] []
| subsequence_skip : forall x l1 l2,
    subsequence l1 l2 -> subsequence l1 (x :: l2)
| subsequence_take : forall x l1 l2,
    subsequence l1 l2 -> subsequence (x :: l1) (x :: l2).

(** The allocation item written for [units] units of [machine]. *)
Definition allocation_item (prices : Prices.t) (chosen : Machine.t * Z)
  : string * Entry.t :=
  (allocation_key (fst chosen), entry_for prices (fst chosen) (snd chosen)).

(** The subtypes whose allocation keys are the [known_names]. *)
Definition known_miners : list string := ["air"; "hydro"; "immersion"].
Definition known_inference : list string := ["gpu"; "asic"].

(** Every subtype of the inventory is one [apply_allocation] is written
    for. *)
Definition known_subtypes (inv : Inventory.t) : Prop :=
  Forall (fun name => In name known_miners) (keys (Inventory.miners inv))
  /\ Forall (fun name => In name known_inference)
       (keys (Inventory.inference inv)).

(** * Properties *)

(** ** Loops *)

Lemma for_each_pure {A B : Type} (body : A -> Exc B) (f : A -> B)
  (items : list A) :
  (forall x, In x items -> body x = Return (f x)) ->
  for_each body items = Return (map f items).
Proof.
  induction items as [|x rest IH]; intros Hbody; simpl.
  - reflexivity.
  - rewrite (Hbody x (or_introl eq_refl)); simpl.
    rewrite IH by (intros y Hy; apply Hbody; now right).
    reflexivity.
Qed.

(** A body that can only raise [e] makes the loop raise [e] as soon as one
    item does. *)
Lemma for_each_raise {A B : Type} (body : A -> Exc B) (e : Exception)
  (items : list A) :
  (forall x e', In x items -> body x = Raise e' -> e' = e) ->
  (exists x, In x items /\ body x = Raise e) ->
  for_each body items = Raise e.
Proof.
  induction items as [|x rest IH]; intros Honly [y [Hy Hraise]].
  - contradiction.
  - simpl. destruct (body x) as [b|e'] eqn:Hx; simpl.
    + destruct Hy as [->|Hy]; [congruence|].
      rewrite IH; [reflexivity| |exists y; auto].
      intros z e' Hz. apply Honly. now right.
    + f_equal. apply (Honly x e'); [now left|assumption].
Qed.

(** Invariant rule for a loop whose body returns on every item: [P] speaks
    of the items already visited and of the loop variables. *)
Lemma for_loop_invariant {A S : Type} (body : S -> A -> Exc S)
  (R : S -> A -> S -> Prop) (P : list A -> S -> Prop) (items : list A)
  (st0 : S) :
  (forall st x, In x items -> exists st', body st x = Return st' /\ R st x st') ->
  P [] st0 ->
  (forall pre x post st st',
      items = (pre ++ x :: post)%list -> P pre st -> R st x st' ->
      P (pre ++ [x])%list st') ->
  exists st, for_loop body items st0 = Return st /\ P items st.
Proof.
  intros Hbody Hinit Hstep.
  assert (G : forall todo pre st,
             items = (pre ++ todo)%list -> P pre st ->
             exists st', for_loop body todo st = Return st' /\ P items st').
  { induction todo as [|x rest IH]; intros pre st Heq HP; simpl.
    - exists st. split; [reflexivity|]. rewrite Heq, app_nil_r. assumption.
    - destruct (Hbody st x) as [st' [Hrun HR]].
      { rewrite Heq. apply in_or_app. right. now left. }
      rewrite Hrun. simpl.
      apply (IH (pre ++ [x])%list).
      + rewrite <- app_assoc. assumption.
      + eapply Hstep; eauto. }
  apply (G items [] st0); auto.
Qed.

(** ** Division and comparison *)

Lemma Qgt_bool_true (x y : Q) : Qgt_bool x y = true <-> y < x.
Proof.
  unfold Qgt_bool. rewrite negb_true_iff.
  split; intros H.
  - apply Qnot_le_lt. intros Hle. apply Qle_bool_iff in Hle. congruence.
  - destruct (Qle_bool x y) eqn:E; [|reflexivity].
    apply Qle_bool_iff in E. exfalso. apply (Qlt_not_le _ _ H E).
Qed.

Lemma Qgt_bool_false (x y : Q) : Qgt_bool x y = false <-> x <= y.
Proof.
  unfold Qgt_bool. rewrite negb_false_iff. apply Qle_bool_iff.
Qed.

Lemma Qle_bool_false (x y : Q) : Qle_bool x y = false <-> y < x.
Proof.
  rewrite <- Qgt_bool_true. unfold Qgt_bool.
  destruct (Qle_bool x y); simpl; intuition congruence.
Qed.

Ltac qbool :=
  repeat match goal with
         | H : Qgt_bool _ _ = true |- _ => apply Qgt_bool_true in H
         | H : Qgt_bool _ _ = false |- _ => apply Qgt_bool_false in H
         end.

(** The guard [total_cost > 0] keeps the division away from zero. *)
Lemma roi_returns (total_profit total_cost : Q) :
  roi total_profit total_cost = Return (roi_value total_profit total_cost).
Proof.
  unfold roi, roi_value, py_truediv_num.
  destruct (Qgt_bool total_cost 0) eqn:G; [|reflexivity].
  apply Qgt_bool_true in G.
  destruct (Qeq_bool total_cost 0) eqn:E; [|reflexivity].
  apply Qeq_bool_iff in E. rewrite E in G. exfalso. apply (Qlt_irrefl _ G).
Qed.

(** ** The efficiency table *)

Lemma analyze_cases (t : MachineType) (prices : Prices.t)
  (item : string * Specs.t) :
  analyze t prices item =
  if (Specs.power (snd item) =? 0)%Z then Raise ZeroDivisionError
  else Return (machine_of t prices item).
Proof.
  destruct item as [name specs], t; simpl;
    unfold analyze_miner, analyze_inference, py_truediv;
    destruct (Specs.power specs =? 0)%Z; reflexivity.
Qed.

Lemma analyze_all (t : MachineType) (prices : Prices.t) (d : dict Specs.t) :
  for_each (analyze t prices) d =
  if has_zero_power d then Raise ZeroDivisionError
  else Return (map (machine_of t prices) d).
Proof.
  destruct (has_zero_power d) eqn:Z.
  - apply for_each_raise.
    + intros x e' _. rewrite analyze_cases.
      destruct (Specs.power (snd x) =? 0)%Z; congruence.
    + apply existsb_exists in Z. destruct Z as [x [Hx Hz]].
      exists x. split; [assumption|]. rewrite analyze_cases, Hz. reflexivity.
  - apply for_each_pure. intros x Hx. rewrite analyze_cases.
    destruct (Specs.power (snd x) =? 0)%Z eqn:Hz; [|reflexivity].
    assert (has_zero_power d = true) by (apply existsb_exists; eauto).
    congruence.
Qed.

Lemma machine_efficiency_cases (inv : Inventory.t) (prices : Prices.t) :
  machine_efficiency inv prices =
  if inventory_has_zero_power inv then Raise ZeroDivisionError
  else Return (efficiency_table inv prices).
Proof.
  unfold machine_efficiency, inventory_has_zero_power, efficiency_table.
  change (analyze_miner prices) with (analyze miner prices).
  change (analyze_inference prices) with (analyze inference prices).
  rewrite !analyze_all.
  destruct (has_zero_power (Inventory.miners inv)); simpl; [reflexivity|].
  destruct (has_zero_power (Inventory.inference inv)); reflexivity.
Qed.

(** ** Sorting *)

Lemma insert_desc_perm (x : Machine.t) (l : list Machine.t) :
  Permutation (insert_desc x l) (x :: l).
Proof.
  induction l as [|y rest IH]; simpl.
  - apply Permutation_refl.
  - destruct (Qgt_bool _ _).
    + eapply perm_trans; [apply perm_skip, IH|apply perm_swap].
    + apply Permutation_refl.
Qed.

Lemma sort_desc_perm (l : list Machine.t) : Permutation (sort_desc l) l.
Proof.
  induction l as [|x rest IH]; simpl.
  - apply perm_nil.
  - eapply perm_trans; [apply insert_desc_perm|apply perm_skip, IH].
Qed.

(** [a] may stand before [b] in the sorted table. *)
Lemma insert_desc_sorted (x : Machine.t) (l : list Machine.t) :
  StronglySorted
    (fun a b => Machine.profit_per_watt b <= Machine.profit_per_watt a) l ->
  StronglySorted
    (fun a b => Machine.profit_per_watt b <= Machine.profit_per_watt a)
    (insert_desc x l).
Proof.
  induction 1 as [|y rest Hrest IH Hy]; simpl.
  - constructor; constructor.
  - destruct (Qgt_bool _ _) eqn:G; qbool.
    + constructor; [assumption|].
      rewrite Forall_forall in *. intros z Hz.
      apply (Permutation_in _ (insert_desc_perm x rest)) in Hz.
      destruct Hz as [<-|Hz]; [lra|now apply Hy].
    + constructor; [now constructor|].
      constructor; [assumption|].
      rewrite Forall_forall in *. intros z Hz.
      specialize (Hy z Hz). lra.
Qed.

Lemma sort_desc_sorted (l : list Machine.t) :
  StronglySorted
    (fun a b => Machine.profit_per_watt b <= Machine.profit_per_watt a)
    (sort_desc l).
Proof.
  induction l as [|x rest IH]; simpl.
  - constructor.
  - now apply insert_desc_sorted.
Qed.

Lemma sort_desc_In (l : list Machine.t) (m : Machine.t) :
  In m (sort_desc l) <-> In m l.
Proof.
  split; apply Permutation_in;
    [apply sort_desc_perm|apply Permutation_sym, sort_desc_perm].
Qed.

(** ** The greedy loop *)

Lemma greedy_step_returns (current_prices : Prices.t) (st : Greedy.t)
  (machine : Machine.t) :
  Machine.power machine <> 0%Z ->
  exists st', greedy_step current_prices st machine = Return st'
              /\ greedy_step_spec current_prices st machine st'.
Proof.
  intros Hpower. unfold greedy_step.
  destruct (Qle_bool (Machine.profit_per_watt machine) 0) eqn:Hle.
  - exists st. split; [reflexivity|].
    apply step_unprofitable. now apply Qle_bool_iff.
  - apply Qle_bool_false in Hle.
    unfold py_floordiv. apply Z.eqb_neq in Hpower. rewrite Hpower. simpl.
    destruct (Greedy.remaining_power st / Machine.power machine >? 0)%Z eqn:Hu.
    + eexists. split; [reflexivity|].
      eapply step_allocate; eauto. apply Z.gtb_lt in Hu. lia.
    + exists st. split; [reflexivity|].
      apply step_no_room; [assumption|].
      rewrite Z.gtb_ltb in Hu. apply Z.ltb_ge in Hu. assumption.
Qed.

Lemma In_efficiency_table (inv : Inventory.t) (prices : Prices.t)
  (m : Machine.t) :
  In m (efficiency_table inv prices) <->
  (exists item, In item (Inventory.miners inv)
                /\ m = machine_of miner prices item)
  \/ (exists item, In item (Inventory.inference inv)
                   /\ m = machine_of inference prices item).
Proof.
  unfold efficiency_table. rewrite in_app_iff, !in_map_iff.
  split; (intros [[item [H1 H2]]|[item [H1 H2]]];
          [left|right]; exists item; auto).
Qed.

Lemma In_ranked (self : Analyzer.t) (prices : Prices.t) (m : Machine.t) :
  In m (ranked self prices) <->
  (exists item, In item (Inventory.miners (Analyzer.inventory self))
                /\ m = machine_of miner prices item)
  \/ (exists item, In item (Inventory.inference (Analyzer.inventory self))
                   /\ m = machine_of inference prices item).
Proof.
  unfold ranked. rewrite sort_desc_In. apply In_efficiency_table.
Qed.

Lemma has_zero_power_false (d : dict Specs.t) (item : string * Specs.t) :
  has_zero_power d = false -> In item d -> Specs.power (snd item) <> 0%Z.
Proof.
  intros Hz Hin Heq.
  assert (has_zero_power d = true); [|congruence].
  apply existsb_exists. exists item. split; [assumption|].
  now apply Z.eqb_eq.
Qed.

Lemma ranked_power_nonzero (self : Analyzer.t) (prices : Prices.t)
  (m : Machine.t) :
  inventory_has_zero_power (Analyzer.inventory self) = false ->
  In m (ranked self prices) -> Machine.power m <> 0%Z.
Proof.
  unfold inventory_has_zero_power. intros Hz Hin.
  apply orb_false_iff in Hz. destruct Hz as [Hm Hc].
  apply In_ranked in Hin.
  destruct Hin as [[item [Hin ->]]|[item [Hin ->]]]; simpl;
    [apply (has_zero_power_false _ item Hm Hin)
    |apply (has_zero_power_false _ item Hc Hin)].
Qed.

(** With no zero power draw the call returns a plan, and any invariant of
    the greedy loop holds of the variables the plan is built from. *)
Lemma find_optimal_allocation_invariant (self : Analyzer.t) (w : World.t)
  (current_prices : option Prices.t)
  (P : list Machine.t -> Greedy.t -> Prop) :
  let prices := resolve_prices w current_prices in
  inventory_has_zero_power (Analyzer.inventory self) = false ->
  P [] (greedy_init self) ->
  (forall pre m post st st',
      ranked self prices = (pre ++ m :: post)%list ->
      P pre st -> greedy_step_spec prices st m st' ->
      P (pre ++ [m])%list st') ->
  exists st,
    find_optimal_allocation self w current_prices
    = Return (plan_of self w prices st)
    /\ P (ranked self prices) st.
Proof.
  intros prices Hz Hinit Hstep.
  destruct (for_loop_invariant (greedy_step prices)
              (greedy_step_spec prices) P (ranked self prices)
              (greedy_init self)) as [st [Hrun HP]]; auto.
  { intros st m Hin. apply greedy_step_returns.
    eapply ranked_power_nonzero; eauto. }
  exists st. split; [|assumption].
  unfold find_optimal_allocation.
  fold (resolve_prices w current_prices). fold prices.
  rewrite machine_efficiency_cases, Hz. simpl.
  fold (ranked self prices). fold (greedy_init self).
  rewrite Hrun. simpl. rewrite roi_returns. reflexivity.
Qed.

Lemma find_optimal_allocation_returns (self : Analyzer.t) (w : World.t)
  (current_prices : option Prices.t) :
  inventory_has_zero_power (Analyzer.inventory self) = false ->
  exists st,
    find_optimal_allocation self w current_prices
    = Return (plan_of self w (resolve_prices w current_prices) st).
Proof.
  intros Hz.
  destruct (find_optimal_allocation_invariant self w current_prices
              (fun _ _ => True) Hz I) as [st [Hrun _]]; eauto.
Qed.

Lemma find_optimal_allocation_raises (self : Analyzer.t) (w : World.t)
  (current_prices : option Prices.t) :
  inventory_has_zero_power (Analyzer.inventory self) = true ->
  find_optimal_allocation self w current_prices = Raise ZeroDivisionError.
Proof.
  intros Hz. unfold find_optimal_allocation.
  rewrite machine_efficiency_cases, Hz. reflexivity.
Qed.

(** ** Well-formed catalogs *)

Lemma positive_no_zero_dict (d : dict Specs.t) :
  Forall (fun item => (0 < Specs.power (snd item))%Z) d ->
  has_zero_power d = false.
Proof.
  induction 1 as [|x l Hx _ IH]; simpl; [reflexivity|].
  rewrite IH, orb_false_r. apply Z.eqb_neq. lia.
Qed.

Lemma positive_no_zero (inv : Inventory.t) :
  positive_powers inv -> inventory_has_zero_power inv = false.
Proof.
  intros [Hm Hc]. unfold inventory_has_zero_power.
  now rewrite !positive_no_zero_dict.
Qed.

Lemma ranked_power_positive (self : Analyzer.t) (prices : Prices.t)
  (m : Machine.t) :
  positive_powers (Analyzer.inventory self) ->
  In m (ranked self prices) -> (0 < Machine.power m)%Z.
Proof.
  intros [Hm Hc] Hin. apply In_ranked in Hin.
  rewrite Forall_forall in Hm, Hc.
  destruct Hin as [[item [Hin ->]]|[item [Hin ->]]]; simpl; auto.
Qed.

Lemma In_ranked_category (self : Analyzer.t) (prices : Prices.t)
  (m : Machine.t) :
  In m (ranked self prices) <->
  exists t item, In item (category t (Analyzer.inventory self))
                 /\ m = machine_of t prices item.
Proof.
  rewrite In_ranked. split.
  - intros [[item H]|[item H]]; [exists miner|exists inference];
      exists item; exact H.
  - intros [[|] [item H]]; [left|right]; exists item; exact H.
Qed.

Lemma has_zero_power_true (d : dict Specs.t) :
  has_zero_power d = true <->
  exists item, In item d /\ Specs.power (snd item) = 0%Z.
Proof.
  unfold has_zero_power. rewrite existsb_exists.
  split; intros [item [Hin Hz]]; exists item; split; auto;
    now apply Z.eqb_eq.
Qed.

Lemma inventory_has_zero_power_true (inv : Inventory.t) :
  inventory_has_zero_power inv = true <->
  exists t item, In item (category t inv) /\ Specs.power (snd item) = 0%Z.
Proof.
  unfold inventory_has_zero_power.
  rewrite orb_true_iff, !has_zero_power_true. split.
  - intros [[item H]|[item H]]; [exists miner|exists inference];
      exists item; exact H.
  - intros [[|] [item H]]; [left|right]; exists item; exact H.
Qed.

Lemma inventory_has_zero_power_false (inv : Inventory.t) :
  inventory_has_zero_power inv = false <->
  forall t item, In item (category t inv) -> Specs.power (snd item) <> 0%Z.
Proof.
  split.
  - intros Hz t item Hin Heq.
    assert (inventory_has_zero_power inv = true); [|congruence].
    apply inventory_has_zero_power_true. eauto.
  - intros Hall. destruct (inventory_has_zero_power inv) eqn:Hz; [|reflexivity].
    apply inventory_has_zero_power_true in Hz.
    destruct Hz as [t [item [Hin Heq]]]. exfalso. eapply Hall; eauto.
Qed.

(** A call that returned had no zero power draw in its inventory. *)
Lemma returned_no_zero_power (self : Analyzer.t) (w : World.t)
  (current_prices : option Prices.t) (plan : Plan.t) :
  find_optimal_allocation self w current_prices = Return plan ->
  inventory_has_zero_power (Analyzer.inventory self) = false.
Proof.
  intros Hrun.
  destruct (inventory_has_zero_power (Analyzer.inventory self)) eqn:Hz;
    [|reflexivity].
  rewrite find_optimal_allocation_raises in Hrun by assumption.
  discriminate.
Qed.

(** ** Arithmetic of one allocation *)

Lemma floordiv_no_room (a d : Z) :
  (0 < d)%Z -> (a / d <= 0)%Z -> (a < d)%Z.
Proof.
  intros Hd Hq.
  pose proof (Z.div_mod a d ltac:(lia)).
  pose proof (Z.mod_pos_bound a d Hd). nia.
Qed.

Lemma floordiv_rest (a d : Z) :
  (0 < d)%Z -> (0 <= a - a / d * d < d)%Z.
Proof.
  intros Hd.
  pose proof (Z.div_mod a d ltac:(lia)).
  pose proof (Z.mod_pos_bound a d Hd). nia.
Qed.

Lemma inject_Z_nonneg (z : Z) : (0 <= z)%Z -> 0 <= inject_Z z.
Proof.
  intros H. change 0 with (inject_Z 0). now rewrite <- Zle_Qle.
Qed.

(** ** Errors of the optimizer *)

(** C3, as stated, fails: an inventory with a negative power draw and a
    negative site power limit are both computed with, and each call returns
    a plan instead of raising; a zero power draw raises the division error
    of the efficiency table, the only exception there is. *)
Lemma invalid_inputs_not_rejected :
  (exists plan,
      find_optimal_allocation negative_power_analyzer sample_world
        (Some default_prices) = Return plan)
  /\ (exists plan,
         find_optimal_allocation negative_budget_analyzer sample_world
           (Some default_prices) = Return plan)
  /\ find_optimal_allocation zero_power_analyzer sample_world
       (Some default_prices) = Raise ZeroDivisionError.
Proof.
  split; [|split].
  - eexists. vm_compute. reflexivity.
  - eexists. vm_compute. reflexivity.
  - vm_compute. reflexivity.
Qed.

(** C3, amended: the optimizer validates nothing.  Called with a price
    snapshot, so that no prices are fetched, and with amounts taken as exact
    numbers, so that no integer is too large for a float, it raises exactly
    when some inventory entry has a power draw of zero, the exception is
    [ZeroDivisionError], and it is raised while the efficiency table is
    built, before the greedy loop starts; every other such call, negative
    power draws and negative limits included, returns a plan. *)
Theorem find_optimal_allocation_error_cases (self : Analyzer.t) (w : World.t)
  (prices : Prices.t) :
  let inv := Analyzer.inventory self in
  ((exists t item, In item (category t inv) /\ Specs.power (snd item) = 0%Z)
   /\ machine_efficiency inv prices = Raise ZeroDivisionError
   /\ find_optimal_allocation self w (Some prices) = Raise ZeroDivisionError)
  \/
  ((forall t item, In item (category t inv) -> Specs.power (snd item) <> 0%Z)
   /\ exists plan,
       find_optimal_allocation self w (Some prices) = Return plan).
Proof.
  intros inv.
  destruct (inventory_has_zero_power inv) eqn:Hz.
  - left. split; [|split].
    + now apply inventory_has_zero_power_true.
    + rewrite machine_efficiency_cases. fold inv. now rewrite Hz.
    + now apply find_optimal_allocation_raises.
  - right. split.
    + now apply inventory_has_zero_power_false.
    + destruct (find_optimal_allocation_returns self w (Some prices) Hz)
        as [st Hrun].
      eauto.
Qed.

(** ** Determinism *)

(** C2, as stated, fails: the same analyzer and prices give plans with
    different timestamps when the clock has moved between the calls. *)
Lemma timestamp_not_reproducible :
  find_optimal_allocation default_analyzer sample_world (Some default_prices)
  <> find_optimal_allocation default_analyzer later_world
       (Some default_prices).
Proof.
  intros H.
  apply (f_equal (fun r => match r with
                           | Return p => Plan.timestamp p
                           | Raise _ => ""
                           end)) in H.
  vm_compute in H. discriminate H.
Qed.

(** C2, amended: two calls with the same inventory, limit and prices end
    the same way, and when they return, the plans agree on every field but
    the timestamp, which is the clock reading of each call. *)
Theorem find_optimal_allocation_deterministic (self : Analyzer.t)
  (w1 w2 : World.t) (prices : Prices.t) :
  match find_optimal_allocation self w1 (Some prices),
        find_optimal_allocation self w2 (Some prices) with
  | Return p1, Return p2 =>
      Plan.allocation p1 = Plan.allocation p2
      /\ Plan.total_power_used p1 = Plan.total_power_used p2
      /\ Plan.total_profit p1 = Plan.total_profit p2
      /\ Plan.total_revenue p1 = Plan.total_revenue p2
      /\ Plan.total_cost p1 = Plan.total_cost p2
      /\ Plan.roi_percentage p1 = Plan.roi_percentage p2
      /\ Plan.prices p1 = Plan.prices p2
      /\ Plan.timestamp p1 = World.now w1
      /\ Plan.timestamp p2 = World.now w2
      /\ p2 = with_timestamp p1 (World.now w2)
  | Raise e1, Raise e2 => e1 = e2
  | _, _ => False
  end.
Proof.
  unfold find_optimal_allocation.
  destruct (machine_efficiency (Analyzer.inventory self) prices) as [eff|e];
    simpl; [|reflexivity].
  destruct (for_loop _ _ _) as [st|e]; simpl; [|reflexivity].
  destruct (roi _ _) as [r|e]; simpl; [|reflexivity].
  repeat split; reflexivity.
Qed.

(** ** Return on investment *)

Lemma roi_value_cases (total_profit total_cost : Q) :
  (0 < total_cost ->
   roi_value total_profit total_cost = total_profit / total_cost * 100)
  /\ (total_cost <= 0 -> roi_value total_profit total_cost = 0).
Proof.
  unfold roi_value. split; intros H.
  - apply Qgt_bool_true in H. now rewrite H.
  - apply Qgt_bool_false in H. now rewrite H.
Qed.




(** ** Profit of the plan *)

Lemma entry_profit_nonneg (prices : Prices.t) (m : Machine.t) (units : Z) :
  (0 < Machine.power m)%Z -> (0 < units)%Z ->
  0 < Machine.profit_per_watt m ->
  0 <= Entry.profit (entry_for prices m units).
Proof.
  intros Hp Hu Hppw. simpl.
  apply Qmult_le_0_compat; [|now apply Qlt_le_weak].
  apply inject_Z_nonneg. nia.
Qed.

(** C9: with positive power draws the optimizer returns a plan whose
    [total_profit] is at least zero, whatever the prices and the limit. *)
Theorem total_profit_nonneg (self : Analyzer.t) (w : World.t)
  (current_prices : option Prices.t) :
  positive_powers (Analyzer.inventory self) ->
  exists plan,
    find_optimal_allocation self w current_prices = Return plan
    /\ 0 <= Plan.total_profit plan.
Proof.
  intros Hpos.
  destruct (find_optimal_allocation_invariant self w current_prices
              (fun _ st => 0 <= Greedy.total_profit st))
    as [st [Hrun Hinv]].
  - now apply positive_no_zero.
  - simpl. apply Qle_refl.
  - intros pre m post st st' Heq Hst Hstep.
    assert (Hin : In m (ranked self (resolve_prices w current_prices))).
    { rewrite Heq. apply in_or_app. right. now left. }
    pose proof (ranked_power_positive self _ m Hpos Hin) as Hp.
    destruct Hstep as [Hle|Hppw Hroom|max_units entry Hppw Hmax Hunits Hentry];
      simpl; try assumption.
    pose proof (entry_profit_nonneg (resolve_prices w current_prices) m _
                  Hp Hunits Hppw) as He.
    rewrite <- Hentry in He.
    rewrite <- (Qplus_0_r 0). apply Qplus_le_compat; assumption.
  - exists (plan_of self w (resolve_prices w current_prices) st).
    split; assumption.
Qed.

Lemma total_profit_nonneg_witness :
  exists plan,
    find_optimal_allocation default_analyzer sample_world None = Return plan
    /\ 0 <= Plan.total_profit plan.
Proof.
  apply (total_profit_nonneg default_analyzer sample_world None).
  split; simpl; repeat constructor.
Defined.


(** ** The allocation dictionary *)

Lemma In_dict_set {V : Type} (k : string) (v : V) (d : dict V)
  (k' : string) (v' : V) :
  In (k', v') (dict_set k v d) -> (k', v') = (k, v) \/ In (k', v') d.
Proof.
  induction d as [|[k0 v0] rest IH]; simpl.
  - intros [H|[]]. now left.
  - destruct (String.eqb k k0).
    + intros [H|H]; [now left|right; now right].
    + intros [H|H]; [right; now left|].
      destruct (IH H); [now left|right; now right].
Qed.

Lemma dict_set_fresh {V : Type} (k : string) (v : V) (d : dict V) :
  ~ In k (keys d) -> dict_set k v d = (d ++ [(k, v)])%list.
Proof.
  induction d as [|[k0 v0] rest IH]; simpl; intros Hfresh.
  - reflexivity.
  - destruct (String.eqb k k0) eqn:E.
    + apply String.eqb_eq in E. exfalso. apply Hfresh. left. now symmetry.
    + rewrite IH; [reflexivity|]. intros H. apply Hfresh. now right.
Qed.

Lemma unique_key_value {V : Type} (d : dict V) (k : string) (v v' : V) :
  NoDup (keys d) -> In (k, v) d -> In (k, v') d -> v = v'.
Proof.
  induction d as [|[k0 v0] rest IH]; simpl; [contradiction|].
  intros Hnd H1 H2. inversion Hnd as [|? ? Hnotin Hrest]; subst.
  assert (Hkey : forall u, In (k0, u) rest -> False).
  { intros u Hu. apply Hnotin. unfold keys.
    change k0 with (fst (k0, u)). now apply in_map. }
  destruct H1 as [E1|H1], H2 as [E2|H2].
  - congruence.
  - injection E1 as -> _. exfalso. eapply Hkey; eauto.
  - injection E2 as -> _. exfalso. eapply Hkey; eauto.
  - now apply IH.
Qed.

(** ** Profitability of the entries *)

(** C7: every entry of a returned plan carries the type and subtype of an
    inventory entry whose profit per watt at the call's prices is positive;
    and, the subtypes of a category being the keys of a dictionary, an
    inventory entry with profit per watt at most zero has no entry in the
    plan. *)
Theorem entries_are_profitable (self : Analyzer.t) (w : World.t)
  (current_prices : option Prices.t) (plan : Plan.t) :
  find_optimal_allocation self w current_prices = Return plan ->
  let inv := Analyzer.inventory self in
  let prices := resolve_prices w current_prices in
  (forall key entry,
      In (key, entry) (Plan.allocation plan) ->
      exists item,
        In item (category (Entry.type entry) inv)
        /\ fst item = Entry.subtype entry
        /\ 0 < profit_per_watt (Entry.type entry) prices (snd item))
  /\ (unique_subtypes inv ->
      forall t item,
        In item (category t inv) ->
        profit_per_watt t prices (snd item) <= 0 ->
        forall key entry,
          In (key, entry) (Plan.allocation plan) ->
          ~ (Entry.type entry = t /\ Entry.subtype entry = fst item)).
Proof.
  intros Hrun inv prices.
  assert (Hentries :
            forall key entry,
              In (key, entry) (Plan.allocation plan) ->
              exists item,
                In item (category (Entry.type entry) inv)
                /\ fst item = Entry.subtype entry
                /\ 0 < profit_per_watt (Entry.type entry) prices (snd item)).
  { pose proof (returned_no_zero_power _ _ _ _ Hrun) as Hz.
    destruct (find_optimal_allocation_invariant self w current_prices
                (fun pre st =>
                   forall key entry,
                     In (key, entry) (Greedy.allocation st) ->
                     exists m,
                       In m pre /\ 0 < Machine.profit_per_watt m
                       /\ Entry.type entry = Machine.type m
                       /\ Entry.subtype entry = Machine.subtype m))
      as [st [Hst Hinv]]; [assumption| | |].
    - intros key entry [].
    - intros pre m post st st' Heq Hold Hstep key entry Hin.
      assert (Hkeep : forall m0, In m0 pre -> In m0 (pre ++ [m])%list)
        by (intros; apply in_or_app; now left).
      destruct Hstep
        as [Hle|Hppw Hroom|max_units entry' Hppw Hmax Hunits Hentry].
      + destruct (Hold key entry Hin) as [m0 [H0 H1]]. exists m0. auto.
      + destruct (Hold key entry Hin) as [m0 [H0 H1]]. exists m0. auto.
      + simpl in Hin. apply In_dict_set in Hin.
        destruct Hin as [[= -> ->]|Hin].
        * exists m. rewrite Hentry. simpl.
          repeat split; auto. apply in_or_app. right. now left.
        * destruct (Hold key entry Hin) as [m0 [H0 H1]]. exists m0. auto.
    - rewrite Hst in Hrun. injection Hrun as <-. simpl.
      intros key entry Hin.
      destruct (Hinv key entry Hin) as [m [Hm [Hppw [Htype Hsub]]]].
      apply In_ranked_category in Hm.
      destruct Hm as [t [item [Hitem ->]]]. simpl in *.
      exists item. rewrite Htype. auto. }
  split; [exact Hentries|].
  intros [Hum Huc] t item Hin Hle key entry Hentry [Htype Hsub].
  destruct (Hentries key entry Hentry) as [item' [Hin' [Hfst Hppw]]].
  rewrite Htype in Hin', Hppw.
  assert (Hu : NoDup (keys (category t inv))) by (destruct t; assumption).
  assert (Heq : snd item' = snd item).
  { apply (unique_key_value (category t inv) (fst item)); [assumption| |].
    - rewrite <- Hsub, <- Hfst. now destruct item'.
    - now destruct item. }
  rewrite Heq in Hppw. apply (Qlt_not_le _ _ Hppw Hle).
Qed.

Lemma entries_are_profitable_witness :
  exists plan,
    find_optimal_allocation default_analyzer sample_world None = Return plan
    /\ (forall key entry,
           In (key, entry) (Plan.allocation plan) ->
           exists item,
             In item (category (Entry.type entry) default_inventory)
             /\ fst item = Entry.subtype entry
             /\ 0 < profit_per_watt (Entry.type entry) default_prices
                      (snd item))
    /\ (forall key entry,
           In (key, entry) (Plan.allocation plan) ->
           ~ (Entry.type entry = inference /\ Entry.subtype entry = "gpu")).
Proof.
  eexists. split; [vm_compute; reflexivity|].
  destruct (entries_are_profitable default_analyzer sample_world None _
              ltac:(vm_compute; reflexivity)) as [Hin Hout].
  split; [exact Hin|].
  apply (Hout ltac:(split; simpl; repeat constructor; simpl;
                    intuition discriminate)
           inference ("gpu", Specs.make 5000 1000)).
  - simpl. left. reflexivity.
  - vm_compute. discriminate.
Defined.

(** ** Keys of the allocation dictionary *)

Lemma list_ascii_of_append (s t : string) :
  list_ascii_of_string (s ++ t)
  = (list_ascii_of_string s ++ list_ascii_of_string t)%list.
Proof.
  induction s as [|c s IH]; simpl; [reflexivity|]. now rewrite IH.
Qed.

Lemma list_ascii_of_string_inj (s t : string) :
  list_ascii_of_string s = list_ascii_of_string t -> s = t.
Proof.
  intros H. rewrite <- (string_of_list_ascii_of_string s).
  rewrite <- (string_of_list_ascii_of_string t). now rewrite H.
Qed.

Lemma append_suffix_inj (s1 s2 suffix : string) :
  s1 ++ suffix = s2 ++ suffix -> s1 = s2.
Proof.
  intros H. apply (f_equal list_ascii_of_string) in H.
  rewrite !list_ascii_of_append in H.
  apply app_inv_tail in H. now apply list_ascii_of_string_inj.
Qed.

(** A miner's key ends in [r], an inference key in [e]. *)
Lemma miner_key_not_inference_key (s1 s2 : string) :
  s1 ++ "_" ++ type_name miner <> s2 ++ "_" ++ type_name inference.
Proof.
  intros H. apply (f_equal list_ascii_of_string) in H.
  rewrite !list_ascii_of_append in H.
  apply (f_equal (@rev ascii)) in H. rewrite !rev_app_distr in H.
  simpl in H. discriminate H.
Qed.

Lemma allocation_key_of (t : MachineType) (prices : Prices.t)
  (item : string * Specs.t) :
  allocation_key (machine_of t prices item) = fst item ++ "_" ++ type_name t.
Proof. reflexivity. Qed.

Lemma category_keys_unique (t : MachineType) (prices : Prices.t)
  (d : dict Specs.t) :
  NoDup (keys d) ->
  NoDup (map allocation_key (map (machine_of t prices) d)).
Proof.
  unfold keys. induction d as [|item rest IH]; simpl; intros Hnd.
  - constructor.
  - inversion Hnd as [|? ? Hnotin Hrest]; subst.
    constructor; [|now apply IH].
    rewrite map_map, in_map_iff. intros [item' [Hkey Hin]].
    rewrite !allocation_key_of in Hkey.
    apply append_suffix_inj in Hkey.
    apply Hnotin. rewrite <- Hkey. now apply in_map.
Qed.

Lemma ranked_keys_unique (self : Analyzer.t) (prices : Prices.t) :
  unique_subtypes (Analyzer.inventory self) ->
  NoDup (map allocation_key (ranked self prices)).
Proof.
  intros [Hm Hc].
  apply (Permutation_NoDup
           (l := map allocation_key
                   (efficiency_table (Analyzer.inventory self) prices))).
  { apply Permutation_map, Permutation_sym, sort_desc_perm. }
  unfold efficiency_table. rewrite map_app.
  apply NoDup_app; try now apply category_keys_unique.
  intros key H1 H2.
  rewrite map_map, in_map_iff in H1, H2.
  destruct H1 as [i1 [E1 _]], H2 as [i2 [E2 _]].
  rewrite allocation_key_of in E1, E2.
  apply (miner_key_not_inference_key (fst i1) (fst i2)). congruence.
Qed.

(** ** Power used *)

Lemma sum_power_used_app (d1 d2 : dict Entry.t) :
  sum_power_used (d1 ++ d2)%list
  = (sum_power_used d1 + sum_power_used d2)%Z.
Proof.
  unfold sum_power_used, values.
  induction d1 as [|[k e] rest IH]; simpl; [reflexivity|].
  rewrite IH. lia.
Qed.

(** C6: with positive power draws and a limit of at least zero the
    optimizer returns a plan whose [total_power_used] is at most the limit
    and is the sum of [power_used] over the entries of its allocation. *)
Theorem power_budget_respected (self : Analyzer.t) (w : World.t)
  (current_prices : option Prices.t) :
  positive_powers (Analyzer.inventory self) ->
  unique_subtypes (Analyzer.inventory self) ->
  (0 <= Analyzer.site_power_limit self)%Z ->
  exists plan,
    find_optimal_allocation self w current_prices = Return plan
    /\ (Plan.total_power_used plan <= Analyzer.site_power_limit self)%Z
    /\ Plan.total_power_used plan = sum_power_used (Plan.allocation plan).
Proof.
  intros Hpos Huniq Hlimit. set (prices := resolve_prices w current_prices).
  pose proof (ranked_keys_unique self prices Huniq) as Hnd.
  destruct (find_optimal_allocation_invariant self w current_prices
              (fun pre st =>
                 (0 <= Greedy.remaining_power st)%Z
                 /\ (Analyzer.site_power_limit self
                     - Greedy.remaining_power st)%Z
                    = sum_power_used (Greedy.allocation st)
                 /\ incl (keys (Greedy.allocation st))
                      (map allocation_key pre)))
    as [st [Hrun [Hrem [Hsum _]]]].
  - now apply positive_no_zero.
  - simpl. split; [assumption|]. split; [unfold sum_power_used; simpl; lia|].
    intros k [].
  - fold prices. intros pre m post st st' Heq [Hrem [Hsum Hkeys]] Hstep.
    assert (Hin : In m (ranked self prices)).
    { rewrite Heq. apply in_or_app. right. now left. }
    pose proof (ranked_power_positive self _ m Hpos Hin) as Hp.
    assert (Hgrow : incl (map allocation_key pre)
                      (map allocation_key (pre ++ [m])%list)).
    { rewrite map_app. apply incl_appl, incl_refl. }
    destruct Hstep
      as [Hle|Hppw Hroom|max_units entry Hppw Hmax Hunits Hentry]; simpl.
    + repeat split; auto. eapply incl_tran; eauto.
    + repeat split; auto. eapply incl_tran; eauto.
    + assert (Hfresh : ~ In (allocation_key m) (keys (Greedy.allocation st))).
      { intros Hk. apply Hkeys in Hk.
        rewrite Heq, map_app in Hnd. simpl in Hnd.
        apply NoDup_remove_2 in Hnd. apply Hnd.
        apply in_or_app. now left. }
      rewrite (dict_set_fresh _ _ _ Hfresh).
      pose proof (floordiv_rest (Greedy.remaining_power st) _ Hp) as Hrest.
      rewrite Hentry at 1 2. simpl. rewrite Hmax.
      split; [lia|]. split.
      * rewrite sum_power_used_app, <- Hsum.
        unfold sum_power_used. simpl. rewrite Hentry. simpl. lia.
      * unfold keys. rewrite !map_app. simpl.
        apply incl_app; [now apply incl_appl|].
        apply incl_appr, incl_refl.
  - exists (plan_of self w prices st). simpl. split; [assumption|].
    split; [lia|assumption].
Qed.

Lemma power_budget_respected_witness :
  exists plan,
    find_optimal_allocation default_analyzer sample_world None = Return plan
    /\ (Plan.total_power_used plan <= 1000000)%Z
    /\ Plan.total_power_used plan = sum_power_used (Plan.allocation plan).
Proof.
  apply (power_budget_respected default_analyzer sample_world None).
  - split; simpl; repeat constructor.
  - split; simpl; repeat constructor; simpl; intuition discriminate.
  - simpl. lia.
Defined.

(** ** The first maximum of a list *)

Section FirstMax.
Context {A : Type} (key : A -> Q).

Lemma first_max_none (l : list A) : first_max key l = None <-> l = [].
Proof.
  destruct l as [|x rest]; simpl; [tauto|].
  split; [|discriminate].
  destruct (first_max key rest) as [m|]; [|discriminate].
  destruct (Qgt_bool (key m) (key x)); discriminate.
Qed.

Lemma first_max_is_max (l : list A) (m : A) :
  first_max key l = Some m ->
  In m l /\ forall y, In y l -> key y <= key m.
Proof.
  revert m. induction l as [|x rest IH]; simpl; intros m; [discriminate|].
  destruct (first_max key rest) as [m'|] eqn:E.
  - destruct (IH m' eq_refl) as [Hin Hmax].
    destruct (Qgt_bool (key m') (key x)) eqn:G; intros [= <-]; qbool.
    + split; [now right|]. intros y [<-|Hy]; [lra|now apply Hmax].
    + split; [now left|]. intros y [<-|Hy]; [lra|].
      specialize (Hmax y Hy). lra.
  - apply first_max_none in E. subst rest. intros [= <-].
    split; [now left|]. intros y [<-|[]]. lra.
Qed.

Lemma first_max_app_l (l1 l2 : list A) (m : A) :
  first_max key l1 = Some m ->
  (forall y, In y l2 -> key y <= key m) ->
  first_max key (l1 ++ l2) = Some m.
Proof.
  revert m. induction l1 as [|x rest IH]; simpl; intros m; [discriminate|].
  intros Hm Hl2.
  destruct (first_max key rest) as [m'|] eqn:E.
  - destruct (first_max_is_max rest m' E) as [_ Hmax'].
    destruct (Qgt_bool (key m') (key x)) eqn:G; injection Hm as <-.
    + rewrite (IH m' eq_refl Hl2). now rewrite G.
    + qbool.
      destruct (first_max key (rest ++ l2)) as [m2|] eqn:E2;
        [|reflexivity].
      destruct (first_max_is_max _ _ E2) as [Hin2 _].
      assert (Hle : key m2 <= key x).
      { apply in_app_or in Hin2. destruct Hin2 as [H|H].
        - specialize (Hmax' m2 H). lra.
        - now apply Hl2. }
      apply Qgt_bool_false in Hle. now rewrite Hle.
  - apply first_max_none in E. subst rest. injection Hm as <-. simpl.
    destruct (first_max key l2) as [m2|] eqn:E2; [|reflexivity].
    destruct (first_max_is_max _ _ E2) as [Hin2 _].
    specialize (Hl2 m2 Hin2). apply Qgt_bool_false in Hl2.
    now rewrite Hl2.
Qed.

Lemma first_max_app_r (l1 l2 : list A) (m : A) :
  first_max key l2 = Some m ->
  (forall y, In y l1 -> key y < key m) ->
  first_max key (l1 ++ l2) = Some m.
Proof.
  intros Hm. induction l1 as [|x rest IH]; simpl; intros Hl1;
    [assumption|].
  rewrite IH by (intros y Hy; apply Hl1; now right).
  assert (G : key x < key m) by (apply Hl1; now left).
  apply Qgt_bool_true in G. now rewrite G.
Qed.
End FirstMax.

(** The first maximum splits the list: strictly smaller keys before it, no
    greater key after it.  Only one element of a list does. *)
Lemma first_max_split {A : Type} (key : A -> Q) (l : list A) (m : A) :
  first_max key l = Some m ->
  exists before after,
    l = (before ++ m :: after)%list
    /\ (forall y, In y before -> key y < key m)
    /\ (forall y, In y after -> key y <= key m).
Proof.
  revert m. induction l as [|x rest IH]; simpl; intros m; [discriminate|].
  destruct (first_max key rest) as [m'|] eqn:E.
  - destruct (IH m' eq_refl) as [before [after [Heq [Hb Ha]]]].
    destruct (first_max_is_max key rest m' E) as [_ Hmax].
    destruct (Qgt_bool (key m') (key x)) eqn:G; intros [= <-]; qbool.
    + exists (x :: before), after. rewrite Heq. split; [reflexivity|].
      split; [|exact Ha]. intros y [<-|Hy]; [exact G|now apply Hb].
    + exists [], rest. split; [reflexivity|]. split; [intros y []|].
      intros y Hy. specialize (Hmax y Hy). lra.
  - apply first_max_none in E. subst rest. intros [= <-].
    exists [], []. split; [reflexivity|]. split; intros y [].
Qed.

Lemma first_max_map {A B : Type} (key : B -> Q) (f : A -> B) (l : list A) :
  first_max key (map f l) = option_map f (first_max (fun x => key (f x)) l).
Proof.
  induction l as [|x rest IH]; simpl; [reflexivity|].
  rewrite IH. destruct (first_max (fun x => key (f x)) rest) as [m|]; simpl;
    [|reflexivity].
  destruct (Qgt_bool (key (f m)) (key (f x))); reflexivity.
Qed.

(** The stable descending sort puts the first maximum in front. *)
Lemma sort_desc_head (l : list Machine.t) :
  hd_error (sort_desc l) = first_max Machine.profit_per_watt l.
Proof.
  induction l as [|x rest IH]; simpl; [reflexivity|].
  rewrite <- IH. destruct (sort_desc rest) as [|y tl]; simpl; [reflexivity|].
  destruct (Qgt_bool _ _); reflexivity.
Qed.

(** ** The single-category strategies *)

Lemma best_step_returns (price : Q) (prices : Prices.t) (st : Best)
  (item : string * Specs.t) :
  Specs.power (snd item) <> 0%Z ->
  best_step price prices st item
  = Return (if gt_best (strategy_key price prices item) (snd st)
            then (Some item, Some (strategy_key price prices item))
            else st).
Proof.
  intros Hp. destruct item as [name specs]. unfold best_step, py_truediv.
  simpl in Hp. apply Z.eqb_neq in Hp. rewrite Hp. simpl.
  unfold strategy_key. simpl. destruct (gt_best _ _); reflexivity.
Qed.

Lemma best_loop_from (price : Q) (prices : Prices.t) (d : dict Specs.t) :
  has_zero_power d = false ->
  forall b,
    for_loop (best_step price prices) d
      (Some b, Some (strategy_key price prices b))
    = Return
        (match first_max (strategy_key price prices) d with
         | Some m =>
             if Qgt_bool (strategy_key price prices m)
                  (strategy_key price prices b)
             then (Some m, Some (strategy_key price prices m))
             else (Some b, Some (strategy_key price prices b))
         | None => (Some b, Some (strategy_key price prices b))
         end).
Proof.
  set (key := strategy_key price prices).
  induction d as [|y rest IH]; intros Hz b; simpl; [reflexivity|].
  simpl in Hz. apply orb_false_iff in Hz. destruct Hz as [Hy Hrest].
  apply Z.eqb_neq in Hy. rewrite (best_step_returns _ _ _ _ Hy). simpl.
  fold key.
  destruct (Qgt_bool (key y) (key b)) eqn:Gyb; rewrite (IH Hrest);
    destruct (first_max key rest) as [m|]; try rewrite Gyb; try reflexivity.
  - destruct (Qgt_bool (key m) (key y)) eqn:Gmy.
    + assert (G : Qgt_bool (key m) (key b) = true)
        by (qbool; apply Qgt_bool_true; lra).
      now rewrite G.
    + now rewrite Gyb.
  - destruct (Qgt_bool (key m) (key b)) eqn:Gmb.
    + assert (G : Qgt_bool (key m) (key y) = true)
        by (qbool; apply Qgt_bool_true; lra).
      now rewrite G, Gmb.
    + destruct (Qgt_bool (key m) (key y)); [now rewrite Gmb|now rewrite Gyb].
Qed.

Lemma best_loop (price : Q) (prices : Prices.t) (d : dict Specs.t) :
  has_zero_power d = false ->
  for_loop (best_step price prices) d (None, None)
  = Return
      (match first_max (strategy_key price prices) d with
       | Some m => (Some m, Some (strategy_key price prices m))
       | None => (None, None)
       end).
Proof.
  destruct d as [|y rest]; intros Hz; simpl; [reflexivity|].
  simpl in Hz. apply orb_false_iff in Hz. destruct Hz as [Hy Hrest].
  apply Z.eqb_neq in Hy. rewrite (best_step_returns _ _ _ _ Hy). simpl.
  rewrite (best_loop_from _ _ _ Hrest).
  destruct (first_max _ rest) as [m|]; [|reflexivity].
  destruct (Qgt_bool _ _); reflexivity.
Qed.

Lemma single_strategy_cases (limit : Z) (price : Q) (prices : Prices.t)
  (d : dict Specs.t) :
  has_zero_power d = false ->
  single_strategy limit price prices d
  = Return
      (match first_max (strategy_key price prices) d with
       | Some best => summary_for limit price prices (snd best)
       | None => zero_summary
       end).
Proof.
  intros Hz. unfold single_strategy. rewrite (best_loop _ _ _ Hz).
  destruct (first_max _ d) as [best|] eqn:E; simpl; [|reflexivity].
  destruct (first_max_is_max _ _ _ E) as [Hin _].
  pose proof (has_zero_power_false _ _ Hz Hin) as Hp.
  unfold py_floordiv. apply Z.eqb_neq in Hp. rewrite Hp. simpl.
  rewrite roi_returns. reflexivity.
Qed.

Lemma strategy_for_unfold (t : MachineType) (self : Analyzer.t)
  (prices : Prices.t) :
  strategy_for t self prices
  = single_strategy (Analyzer.site_power_limit self) (price_for t prices)
      prices (category t (Analyzer.inventory self)).
Proof. destruct t; reflexivity. Qed.

Lemma inject_Z_nonzero (z : Z) : z <> 0%Z -> ~ inject_Z z == 0.
Proof.
  intros Hz H. apply Hz. now apply (inject_Z_injective z 0).
Qed.

(** Revenue minus cost of the chosen entry is its power times its profit
    per watt. *)
Lemma summary_for_profit (limit : Z) (t : MachineType) (prices : Prices.t)
  (specs : Specs.t) :
  Specs.power specs <> 0%Z ->
  Summary.total_profit (summary_for limit (price_for t prices) prices specs)
  == inject_Z (limit / Specs.power specs * Specs.power specs)
     * profit_per_watt t prices specs.
Proof.
  intros Hp. simpl. unfold profit_per_watt, revenue_per_watt.
  rewrite inject_Z_mult. field. now apply inject_Z_nonzero.
Qed.

(** C4, as stated, fails: with a hash price of zero every miner of the
    default inventory has a negative profit per watt, and the mining-only
    strategy still fills the site with the first of them, at a loss. *)
Lemma unprofitable_miner_allocated :
  (forall item,
      In item (Inventory.miners default_inventory) ->
      profit_per_watt miner worthless_hash_prices (snd item) <= 0)
  /\ exists s,
      _mining_only_strategy default_analyzer worthless_hash_prices = Return s
      /\ Summary.total_profit s < 0
      /\ 0 < Summary.total_cost s
      /\ Summary.roi_percentage s < 0.
Proof.
  split.
  - intros item [<-|[<-|[<-|[]]]]; vm_compute; discriminate.
  - eexists. split; [vm_compute; reflexivity|].
    repeat split; reflexivity.
Qed.

(** C4, amended: a strategy whose category is empty returns the zero
    plan.  A category that is not empty is never left unallocated: with
    positive power draws the strategy takes the first entry of highest
    profit per watt, the one with only smaller rates before it and no larger
    rate after it, whatever the sign of its rate, and returns the totals of
    [limit // power] units of it; its [total_profit] is that power times the
    profit per watt, hence at most zero, not necessarily zero, when the
    profit per watt is at most zero and the limit is not negative. *)
Theorem single_category_result (t : MachineType) (self : Analyzer.t)
  (prices : Prices.t) :
  let d := category t (Analyzer.inventory self) in
  let limit := Analyzer.site_power_limit self in
  (d = [] -> strategy_for t self prices = Return zero_summary)
  /\ (d <> [] ->
      Forall (fun item => (0 < Specs.power (snd item))%Z) d ->
      exists before best after,
        d = (before ++ best :: after)%list
        /\ (forall item, In item before ->
                         profit_per_watt t prices (snd item)
                         < profit_per_watt t prices (snd best))
        /\ (forall item, In item after ->
                         profit_per_watt t prices (snd item)
                         <= profit_per_watt t prices (snd best))
        /\ strategy_for t self prices
           = Return (summary_for limit (price_for t prices) prices (snd best))
        /\ Summary.total_profit
             (summary_for limit (price_for t prices) prices (snd best))
           == inject_Z (limit / Specs.power (snd best)
                        * Specs.power (snd best))
              * profit_per_watt t prices (snd best)
        /\ ((0 <= limit)%Z ->
            profit_per_watt t prices (snd best) <= 0 ->
            Summary.total_profit
              (summary_for limit (price_for t prices) prices (snd best))
            <= 0)).
Proof.
  intros d limit. rewrite strategy_for_unfold. fold d limit. split.
  - intros ->. reflexivity.
  - intros Hne Hpos.
    pose proof (positive_no_zero_dict d Hpos) as Hz.
    rewrite (single_strategy_cases _ _ _ _ Hz).
    destruct (first_max (strategy_key (price_for t prices) prices) d)
      as [best|] eqn:E.
    2:{ apply first_max_none in E. contradiction. }
    destruct (first_max_is_max _ _ _ E) as [Hin _].
    destruct (first_max_split _ _ _ E) as [before [after [Heq [Hb Ha]]]].
    assert (Hp : (0 < Specs.power (snd best))%Z).
    { rewrite Forall_forall in Hpos. now apply Hpos. }
    exists before, best, after. split; [exact Heq|].
    split; [exact Hb|]. split; [exact Ha|].
    split; [reflexivity|].
    assert (Hprofit := summary_for_profit limit t prices (snd best)
                         ltac:(lia)).
    split; [exact Hprofit|].
    intros Hlimit Hle. rewrite Hprofit.
    assert (Hw : 0 <= inject_Z (limit / Specs.power (snd best)
                                * Specs.power (snd best))).
    { apply inject_Z_nonneg.
      pose proof (Z.div_pos limit (Specs.power (snd best)) Hlimit Hp). nia. }
    set (watts := inject_Z _) in *.
    set (ppw := profit_per_watt t prices (snd best)) in *.
    nra.
Qed.

(** Two miners of equal rate: the 4 W one comes first. *)
Lemma single_category_result_witness :
  _mining_only_strategy tied_analyzer unit_prices
  = Return (summary_for 9 1 unit_prices (Specs.make 4 8))
  /\ Summary.total_profit (summary_for 9 1 unit_prices (Specs.make 4 8)) == 8.
Proof.
  destruct (proj2 (single_category_result miner tied_analyzer unit_prices))
    as [before [best [after [Heq [Hb [Ha [Hrun [Hprofit _]]]]]]]].
  - simpl. discriminate.
  - simpl. repeat constructor.
  - assert (Hbest : best = ("a", Specs.make 4 8)).
    { simpl in Heq. destruct before as [|x [|y before]].
      - now injection Heq as <-.
      - injection Heq as <- <-.
        specialize (Hb ("a", Specs.make 4 8) (or_introl eq_refl)).
        vm_compute in Hb. discriminate Hb.
      - injection Heq as _ _ Heq. now destruct before. }
    subst best. split; [exact Hrun|]. reflexivity.
Defined.

(** ** The simulator *)

Lemma run_strategy_returns (self : Analyzer.t) (w : World.t)
  (strategy : string) (prices : Prices.t) :
  inventory_has_zero_power (Analyzer.inventory self) = false ->
  In strategy strategies ->
  exists result, run_strategy self w strategy prices = Return result.
Proof.
  intros Hz Hin. pose proof Hz as Hz'.
  unfold inventory_has_zero_power in Hz'. apply orb_false_iff in Hz'.
  destruct Hz' as [Hm Hc].
  destruct Hin as [<-|[<-|[<-|[]]]]; unfold run_strategy; simpl.
  - destruct (find_optimal_allocation_returns self w (Some prices) Hz)
      as [st ->].
    simpl. eauto.
  - unfold _mining_only_strategy.
    rewrite (single_strategy_cases _ _ _ _ Hm). eauto.
  - unfold _inference_only_strategy.
    rewrite (single_strategy_cases _ _ _ _ Hc). eauto.
Qed.

Lemma simulate_rows_records (self : Analyzer.t) (worlds : nat -> World.t)
  (strategy : string) (rows : list Row.t) :
  inventory_has_zero_power (Analyzer.inventory self) = false ->
  In strategy strategies ->
  forall i,
  exists records,
    simulate_rows self worlds strategy i rows = Return records
    /\ map RunRecord.timestamp records = map Row.timestamp rows
    /\ forall k row,
        nth_error rows k = Some row ->
        exists result,
          run_strategy self (worlds (i + k)%nat) strategy (prices_of_row row)
          = Return result
          /\ nth_error records k = Some (record_of row result).
Proof.
  intros Hz Hin. induction rows as [|row rest IH]; intros i; simpl.
  - exists []. repeat split. intros [|k] row; discriminate.
  - destruct (run_strategy_returns self (worlds i) strategy
                (prices_of_row row) Hz Hin) as [result Hrun].
    destruct (IH (S i)) as [records [Hrest [Hstamps Hnth]]].
    rewrite Hrun, Hrest. simpl.
    exists (record_of row result :: records).
    split; [reflexivity|]. split; [simpl; now rewrite Hstamps|].
    intros [|k] row' Hk; simpl in *.
    + injection Hk as <-. exists result. rewrite Nat.add_0_r. auto.
    + destruct (Hnth k row' Hk) as [result' [H1 H2]].
      exists result'. rewrite Nat.add_succ_r. auto.
Qed.

(** C5, as stated, fails: for an empty price history the simulator returns
    [None], the null value, and not an empty sequence. *)
Lemma empty_history_gives_none :
  simulate_strategy default_analyzer (fun _ => sample_world) "optimal"
    (Rows [])
  = Return None
  /\ simulate_strategy default_analyzer (fun _ => sample_world) "optimal"
       (Rows [])
     <> Return (Some []).
Proof.
  split; [reflexivity|discriminate].
Qed.

(** C5, amended: for an empty price history the simulator returns [None].
    For a history with at least one row, an inventory without a zero power
    draw and one of the three strategy names, it returns one record per
    row, in the order of the rows: the [k]-th record carries the timestamp
    of the [k]-th row and the totals of the strategy run on that row's
    prices. *)
Theorem simulate_strategy_records (self : Analyzer.t)
  (worlds : nat -> World.t) (strategy : string) (df : list Row.t) :
  simulate_strategy self worlds strategy (Rows []) = Return None
  /\ (inventory_has_zero_power (Analyzer.inventory self) = false ->
      In strategy strategies ->
      df <> [] ->
      exists records,
        simulate_strategy self worlds strategy (Rows df)
        = Return (Some records)
        /\ List.length records = List.length df
        /\ map RunRecord.timestamp records = map Row.timestamp df
        /\ forall k row,
            nth_error df k = Some row ->
            exists result,
              run_strategy self (worlds k) strategy (prices_of_row row)
              = Return result
              /\ nth_error records k = Some (record_of row result)).
Proof.
  split; [reflexivity|].
  intros Hz Hin Hne.
  destruct (simulate_rows_records self worlds strategy df Hz Hin 0%nat)
    as [records [Hrun [Hstamps Hnth]]].
  exists records. split; [|split; [|split]].
  - destruct df as [|row rest]; [contradiction|].
    unfold simulate_strategy. rewrite Hrun. reflexivity.
  - rewrite <- (length_map RunRecord.timestamp), Hstamps.
    apply length_map.
  - exact Hstamps.
  - exact Hnth.
Qed.

Lemma simulate_strategy_records_witness :
  exists records,
    simulate_strategy default_analyzer (fun _ => sample_world) "mining_only"
      (Rows sample_history)
    = Return (Some records)
    /\ List.length records = 2%nat
    /\ map RunRecord.timestamp records
       = ["2025-06-21T10:00:00"; "2025-06-21T10:05:00"].
Proof.
  destruct (proj2 (simulate_strategy_records default_analyzer
                     (fun _ => sample_world) "mining_only" sample_history))
    as [records [Hrun [Hlen [Hstamps _]]]].
  - reflexivity.
  - simpl. right. left. reflexivity.
  - discriminate.
  - exists records. repeat split; assumption.
Defined.

(** ** The optimizer against the single-category strategies *)

(** The first unit count of the greedy loop already earns the profit of
    the top-ranked machine, and later iterations only add to it. *)
Lemma head_profit_bound (self : Analyzer.t) (w : World.t)
  (current_prices : option Prices.t) :
  let prices := resolve_prices w current_prices in
  let limit := Analyzer.site_power_limit self in
  positive_powers (Analyzer.inventory self) ->
  (0 <= limit)%Z ->
  exists st,
    find_optimal_allocation self w current_prices
    = Return (plan_of self w prices st)
    /\ 0 <= Greedy.total_profit st
    /\ forall h,
        hd_error (ranked self prices) = Some h ->
        0 < Machine.profit_per_watt h ->
        inject_Z (limit / Machine.power h * Machine.power h)
        * Machine.profit_per_watt h
        <= Greedy.total_profit st.
Proof.
  intros prices limit Hpos Hlimit.
  destruct (find_optimal_allocation_invariant self w current_prices
              (fun pre st =>
                 0 <= Greedy.total_profit st
                 /\ (pre = [] -> st = greedy_init self)
                 /\ forall h,
                     hd_error pre = Some h ->
                     0 < Machine.profit_per_watt h ->
                     inject_Z (limit / Machine.power h * Machine.power h)
                     * Machine.profit_per_watt h
                     <= Greedy.total_profit st))
    as [st [Hrun [Hnonneg [_ Hhead]]]].
  - now apply positive_no_zero.
  - simpl. split; [apply Qle_refl|]. split; [reflexivity|]. discriminate.
  - fold prices. intros pre m post st st' Heq [Hnonneg [Hinit Hhead]] Hstep.
    assert (Hin : In m (ranked self prices)).
    { rewrite Heq. apply in_or_app. right. now left. }
    pose proof (ranked_power_positive self _ m Hpos Hin) as Hp.
    assert (Hmono : Greedy.total_profit st <= Greedy.total_profit st').
    { destruct Hstep
        as [Hle|Hppw Hroom|max_units entry Hppw Hmax Hunits Hentry]; simpl;
        try apply Qle_refl.
      pose proof (entry_profit_nonneg prices m _ Hp Hunits Hppw) as He.
      rewrite <- Hentry in He. lra. }
    split; [lra|]. split; [intros E; now destruct pre|].
    intros h Hh Hppwh. destruct pre as [|h' tl].
    + simpl in Hh. injection Hh as <-.
      rewrite (Hinit eq_refl) in Hstep.
      destruct Hstep
        as [Hle|Hppw Hroom|max_units entry Hppw Hmax Hunits Hentry]; simpl.
      * lra.
      * simpl in Hroom. fold limit in Hroom.
        pose proof (Z.div_pos limit (Machine.power m) Hlimit Hp).
        replace (limit / Machine.power m)%Z with 0%Z by lia.
        simpl. change (inject_Z 0) with 0. lra.
      * rewrite Hentry, Hmax. simpl. fold limit. lra.
    + simpl in Hh. specialize (Hhead h Hh Hppwh). lra.
  - exists st. split; [exact Hrun|]. split; assumption.
Qed.

(** When the best entry of category [t] is ranked first, the strategy
    restricted to [t] earns no more than the optimizer. *)
Lemma leading_summary_bound (self : Analyzer.t) (prices : Prices.t)
  (t : MachineType) (best : string * Specs.t) (total : Q) :
  let limit := Analyzer.site_power_limit self in
  (0 < Specs.power (snd best))%Z ->
  (0 <= limit)%Z ->
  0 <= total ->
  (0 < Machine.profit_per_watt (machine_of t prices best) ->
   inject_Z (limit / Machine.power (machine_of t prices best)
             * Machine.power (machine_of t prices best))
   * Machine.profit_per_watt (machine_of t prices best)
   <= total) ->
  Summary.total_profit
    (summary_for limit (price_for t prices) prices (snd best))
  <= total.
Proof.
  intros limit Hp Hlimit Htotal Hhead.
  rewrite (summary_for_profit limit t prices (snd best)) by lia.
  simpl in Hhead.
  assert (Hw : 0 <= inject_Z (limit / Specs.power (snd best)
                              * Specs.power (snd best))).
  { apply inject_Z_nonneg.
    pose proof (Z.div_pos limit (Specs.power (snd best)) Hlimit Hp). nia. }
  destruct (Qlt_le_dec 0 (profit_per_watt t prices (snd best))) as [Hgt|Hle].
  - now apply Hhead.
  - set (watts := inject_Z _) in *.
    set (ppw := profit_per_watt t prices (snd best)) in *.
    nra.
Qed.

Lemma ranked_head_miner (self : Analyzer.t) (prices : Prices.t)
  (best : string * Specs.t) :
  first_max (strategy_key (Prices.hash_price prices) prices)
    (Inventory.miners (Analyzer.inventory self)) = Some best ->
  (forall c, In c (Inventory.inference (Analyzer.inventory self)) ->
             profit_per_watt inference prices (snd c)
             <= profit_per_watt miner prices (snd best)) ->
  hd_error (ranked self prices) = Some (machine_of miner prices best).
Proof.
  intros Hbest Hdom. unfold ranked, efficiency_table.
  rewrite sort_desc_head. apply first_max_app_l.
  - rewrite first_max_map.
    change (fun x => Machine.profit_per_watt (machine_of miner prices x))
      with (strategy_key (Prices.hash_price prices) prices).
    now rewrite Hbest.
  - intros y Hy. apply in_map_iff in Hy. destruct Hy as [c [<- Hc]].
    simpl. now apply Hdom.
Qed.

Lemma ranked_head_inference (self : Analyzer.t) (prices : Prices.t)
  (best : string * Specs.t) :
  first_max (strategy_key (Prices.token_price prices) prices)
    (Inventory.inference (Analyzer.inventory self)) = Some best ->
  (forall x, In x (Inventory.miners (Analyzer.inventory self)) ->
             profit_per_watt miner prices (snd x)
             < profit_per_watt inference prices (snd best)) ->
  hd_error (ranked self prices) = Some (machine_of inference prices best).
Proof.
  intros Hbest Hdom. unfold ranked, efficiency_table.
  rewrite sort_desc_head. apply first_max_app_r.
  - rewrite first_max_map.
    change (fun x => Machine.profit_per_watt (machine_of inference prices x))
      with (strategy_key (Prices.token_price prices) prices).
    now rewrite Hbest.
  - intros y Hy. apply in_map_iff in Hy. destruct Hy as [x [<- Hx]].
    simpl. now apply Hdom.
Qed.

Section Dominance.
Variables (self : Analyzer.t) (prices : Prices.t) (total : Q).

Let inv := Analyzer.inventory self.
Let limit := Analyzer.site_power_limit self.

Hypothesis Hpos : positive_powers inv.
Hypothesis Hlimit : (0 <= limit)%Z.
Hypothesis Htotal : 0 <= total.
Hypothesis Hhead :
  forall h,
    hd_error (ranked self prices) = Some h ->
    0 < Machine.profit_per_watt h ->
    inject_Z (limit / Machine.power h * Machine.power h)
    * Machine.profit_per_watt h
    <= total.

Lemma category_power_positive (t : MachineType) (item : string * Specs.t) :
  In item (category t inv) -> (0 < Specs.power (snd item))%Z.
Proof.
  destruct Hpos as [Hm Hc]. rewrite Forall_forall in Hm, Hc.
  destruct t; simpl; auto.
Qed.

Lemma leading_strategy_bound (t : MachineType) :
  (forall best,
      first_max (strategy_key (price_for t prices) prices)
        (category t inv) = Some best ->
      hd_error (ranked self prices) = Some (machine_of t prices best)) ->
  Summary.total_profit (strategy_summary t self prices) <= total.
Proof.
  intros Hrank. unfold strategy_summary. fold inv limit.
  destruct (first_max _ (category t inv)) as [best|] eqn:E;
    [|exact Htotal].
  destruct (first_max_is_max _ _ _ E) as [Hin _].
  apply leading_summary_bound.
  - now apply (category_power_positive t).
  - exact Hlimit.
  - exact Htotal.
  - intros Hppw. apply Hhead; [now apply Hrank|exact Hppw].
Qed.

Lemma mining_bound :
  miners_lead inv prices ->
  Summary.total_profit (strategy_summary miner self prices) <= total.
Proof.
  intros Hlead. apply leading_strategy_bound. intros best Hbest.
  apply ranked_head_miner; [exact Hbest|].
  intros c Hc. destruct (Hlead c Hc) as [x [Hx Hle]].
  destruct (first_max_is_max _ _ _ Hbest) as [_ Hmax].
  specialize (Hmax x Hx). unfold strategy_key in Hmax.
  unfold profit_per_watt, revenue_per_watt in *. simpl in *. lra.
Qed.

Lemma inference_bound :
  inference_leads inv prices ->
  Summary.total_profit (strategy_summary inference self prices) <= total.
Proof.
  intros Hlead. apply leading_strategy_bound. intros best Hbest.
  apply ranked_head_inference; [exact Hbest|].
  intros x Hx. destruct (Hlead x Hx) as [c [Hc Hlt]].
  destruct (first_max_is_max _ _ _ Hbest) as [_ Hmax].
  specialize (Hmax c Hc). unfold strategy_key in Hmax.
  unfold profit_per_watt, revenue_per_watt in *. simpl in *. lra.
Qed.

(** One of the two categories holds the top-ranked entry. *)
Lemma some_category_leads :
  miners_lead inv prices \/ inference_leads inv prices.
Proof.
  destruct (first_max (strategy_key (Prices.hash_price prices) prices)
              (Inventory.miners inv)) as [bm|] eqn:Em.
  2:{ right. apply first_max_none in Em. intros x Hx.
      rewrite Em in Hx. contradiction. }
  destruct (first_max (strategy_key (Prices.token_price prices) prices)
              (Inventory.inference inv)) as [bc|] eqn:Ec.
  2:{ left. apply first_max_none in Ec. intros c Hc.
      rewrite Ec in Hc. contradiction. }
  destruct (first_max_is_max _ _ _ Em) as [Hbm Hmaxm].
  destruct (first_max_is_max _ _ _ Ec) as [Hbc Hmaxc].
  unfold strategy_key in Hmaxm, Hmaxc.
  destruct (Qlt_le_dec (profit_per_watt miner prices (snd bm))
              (profit_per_watt inference prices (snd bc))) as [Hlt|Hle].
  - right. intros x Hx. exists bc. split; [exact Hbc|].
    specialize (Hmaxm x Hx).
    unfold profit_per_watt, revenue_per_watt in *. simpl in *. lra.
  - left. intros c Hc. exists bm. split; [exact Hbm|].
    specialize (Hmaxc c Hc).
    unfold profit_per_watt, revenue_per_watt in *. simpl in *. lra.
Qed.
End Dominance.

Lemma strategy_for_summary (t : MachineType) (self : Analyzer.t)
  (prices : Prices.t) :
  positive_powers (Analyzer.inventory self) ->
  strategy_for t self prices = Return (strategy_summary t self prices).
Proof.
  intros [Hm Hc]. rewrite strategy_for_unfold.
  apply single_strategy_cases.
  destruct t; simpl; now apply positive_no_zero_dict.
Qed.

(** C1, as stated, fails: with a limit of 10 W, a 6 W inference device
    earning 10 per watt and a 5 W miner earning 9 per watt, the optimizer
    places one inference device and strands 4 W for a profit of 60, while
    the mining-only strategy places two miners for a profit of 90. *)
Lemma baseline_beats_optimizer :
  positive_powers (Analyzer.inventory stranded_analyzer)
  /\ (0 <= Analyzer.site_power_limit stranded_analyzer)%Z
  /\ (0 <= Prices.energy_price unit_prices
      /\ 0 <= Prices.hash_price unit_prices
      /\ 0 <= Prices.token_price unit_prices)
  /\ exists plan m i,
      find_optimal_allocation stranded_analyzer sample_world
        (Some unit_prices) = Return plan
      /\ _mining_only_strategy stranded_analyzer unit_prices = Return m
      /\ _inference_only_strategy stranded_analyzer unit_prices = Return i
      /\ Plan.total_profit plan == 60
      /\ Summary.total_profit m == 90
      /\ ~ (Qmax (Summary.total_profit m) (Summary.total_profit i)
            <= Plan.total_profit plan).
Proof.
  split; [split; simpl; repeat constructor|].
  split; [simpl; lia|].
  split; [repeat split; discriminate|].
  do 3 eexists.
  split; [vm_compute; reflexivity|].
  split; [vm_compute; reflexivity|].
  split; [vm_compute; reflexivity|].
  split; [reflexivity|]. split; [reflexivity|].
  apply Qlt_not_le, Q.max_lt_iff. left. reflexivity.
Qed.

(** C1, amended: with positive power draws and a limit of at least zero,
    in exact arithmetic, the optimizer's [total_profit] is at least that of
    the mining-only strategy when no inference entry earns more per watt
    than every miner, and at least that of the inference-only strategy
    when every miner earns less per watt than some inference entry; one of
    the two always holds, so the optimizer earns at least the smaller of
    the two baseline profits.  The larger one it may miss. *)
Theorem optimizer_dominates_leading_baseline (self : Analyzer.t)
  (w : World.t) (current_prices : option Prices.t) :
  let inv := Analyzer.inventory self in
  let prices := resolve_prices w current_prices in
  positive_powers inv ->
  (0 <= Analyzer.site_power_limit self)%Z ->
  exists plan m i,
    find_optimal_allocation self w current_prices = Return plan
    /\ _mining_only_strategy self prices = Return m
    /\ _inference_only_strategy self prices = Return i
    /\ (miners_lead inv prices ->
        Summary.total_profit m <= Plan.total_profit plan)
    /\ (inference_leads inv prices ->
        Summary.total_profit i <= Plan.total_profit plan)
    /\ Qmin (Summary.total_profit m) (Summary.total_profit i)
       <= Plan.total_profit plan.
Proof.
  intros inv prices Hpos Hlimit.
  destruct (head_profit_bound self w current_prices Hpos Hlimit)
    as [st [Hrun [Hnonneg Hhead]]].
  fold prices in Hrun, Hhead.
  exists (plan_of self w prices st), (strategy_summary miner self prices),
    (strategy_summary inference self prices).
  pose proof (mining_bound self prices (Greedy.total_profit st)
                Hpos Hlimit Hnonneg Hhead) as Hm.
  pose proof (inference_bound self prices (Greedy.total_profit st)
                Hpos Hlimit Hnonneg Hhead) as Hi.
  split; [exact Hrun|].
  split; [exact (strategy_for_summary miner self prices Hpos)|].
  split; [exact (strategy_for_summary inference self prices Hpos)|].
  split; [exact Hm|]. split; [exact Hi|].
  apply Q.min_le_iff.
  destruct (some_category_leads self prices) as [Hlead|Hlead];
    [left; now apply Hm|right; now apply Hi].
Qed.

Lemma optimizer_dominates_leading_baseline_witness :
  exists plan m i,
    find_optimal_allocation default_analyzer sample_world None = Return plan
    /\ _mining_only_strategy default_analyzer default_prices = Return m
    /\ _inference_only_strategy default_analyzer default_prices = Return i
    /\ Summary.total_profit i <= Plan.total_profit plan
    /\ Qmin (Summary.total_profit m) (Summary.total_profit i)
       <= Plan.total_profit plan.
Proof.
  destruct (optimizer_dominates_leading_baseline default_analyzer
              sample_world None)
    as [plan [m [i [Hp [Hm [Hi [_ [Hlead Hmin]]]]]]]].
  - split; simpl; repeat constructor.
  - simpl. lia.
  - exists plan, m, i. repeat split; try assumption.
    apply Hlead. intros x Hx. exists ("asic", Specs.make 15000 50000).
    split; [simpl; right; left; reflexivity|].
    simpl in Hx. destruct Hx as [<-|[<-|[<-|[]]]]; vm_compute; reflexivity.
Defined.

(** * Properties of the further functions *)

(** ** Dictionary lookup *)

Lemma dict_get_none {V : Type} (k : string) (d : dict V) :
  dict_get k d = None <-> ~ In k (keys d).
Proof.
  induction d as [|[k' v] rest IH]; simpl.
  - tauto.
  - destruct (String.eqb k k') eqn:E.
    + apply String.eqb_eq in E. split; [discriminate|].
      intros H. exfalso. apply H. left. now symmetry.
    + apply String.eqb_neq in E. rewrite IH. split.
      * intros H [H1|H1]; [now apply E|now apply H].
      * intros H H1. apply H. now right.
Qed.

Lemma dict_get_some_in {V : Type} (k : string) (v : V) (d : dict V) :
  dict_get k d = Some v -> In (k, v) d.
Proof.
  induction d as [|[k' v'] rest IH]; simpl; [discriminate|].
  destruct (String.eqb k k') eqn:E.
  - apply String.eqb_eq in E. intros [= ->]. left. now rewrite E.
  - intros H. right. now apply IH.
Qed.

Lemma dict_get_in {V : Type} (k : string) (v : V) (d : dict V) :
  NoDup (keys d) -> In (k, v) d -> dict_get k d = Some v.
Proof.
  intros Hnd Hin. destruct (dict_get k d) as [v'|] eqn:E.
  - apply dict_get_some_in in E. f_equal.
    now apply (unique_key_value d k v' v).
  - apply dict_get_none in E. exfalso. apply E.
    unfold keys. change k with (fst (k, v)). now apply in_map.
Qed.

(** ** [calculate_roi] *)

(** The inventory dictionary [calculate_roi] reads: the miners for the
    type ['miner'], the inference devices for every other type. *)
Lemma calculate_roi_lookup (self : Analyzer.t) (machine_type : string)
  (machine_subtype : string) (quantity : Z) (prices : Prices.t) :
  let d :=
    if String.eqb machine_type "miner"
    then Inventory.miners (Analyzer.inventory self)
    else Inventory.inference (Analyzer.inventory self) in
  let price :=
    if String.eqb machine_type "miner"
    then Prices.hash_price prices else Prices.token_price prices in
  calculate_roi self machine_type machine_subtype quantity prices
  = match dict_get machine_subtype d with
    | None => Fail (KeyError machine_subtype)
    | Some specs =>
        let revenue_per_unit := Specs.capability specs * price in
        let cost_per_unit :=
          inject_Z (Specs.power specs) * Prices.energy_price prices in
        Done (Roi.make (revenue_per_unit * inject_Z quantity)
                (cost_per_unit * inject_Z quantity)
                ((revenue_per_unit - cost_per_unit) * inject_Z quantity)
                (roi_value (revenue_per_unit - cost_per_unit) cost_per_unit)
                (Specs.power specs * quantity)%Z)
    end.
Proof.
  unfold calculate_roi, dict_getitem.
  destruct (String.eqb machine_type "miner"); simpl;
    destruct (dict_get machine_subtype _) as [specs|]; simpl;
    try reflexivity; rewrite roi_returns; reflexivity.
Qed.

(** X1: [calculate_roi] raises [KeyError] for the subtype exactly when the
    subtype is no key of the dictionary it reads, the miners for the type
    ['miner'] and the inference devices for any other type; in every other
    case it returns, also for a power draw or an energy price of zero. *)
Theorem calculate_roi_key_error (self : Analyzer.t) (machine_type : string)
  (machine_subtype : string) (quantity : Z) (prices : Prices.t) :
  let d :=
    if String.eqb machine_type "miner"
    then Inventory.miners (Analyzer.inventory self)
    else Inventory.inference (Analyzer.inventory self) in
  (~ In machine_subtype (keys d)
   /\ calculate_roi self machine_type machine_subtype quantity prices
      = Fail (KeyError machine_subtype))
  \/ (In machine_subtype (keys d)
      /\ exists r,
          calculate_roi self machine_type machine_subtype quantity prices
          = Done r).
Proof.
  intros d. rewrite calculate_roi_lookup. fold d.
  destruct (dict_get machine_subtype d) as [specs|] eqn:E.
  - right. split; [|eauto].
    apply dict_get_some_in in E. unfold keys.
    change machine_subtype with (fst (machine_subtype, specs)).
    now apply in_map.
  - left. split; [|reflexivity]. now apply dict_get_none.
Qed.

Lemma inject_Z_pos_lt (z : Z) : (0 < z)%Z -> 0 < inject_Z z.
Proof.
  intros H. unfold Qlt. simpl. lia.
Qed.

(** X2: in a result of [calculate_roi], profit is revenue minus cost, and
    for a positive quantity [roi_percentage] is profit over cost times 100
    when the cost is positive and zero when the cost is at most zero. *)
Theorem calculate_roi_consistent (self : Analyzer.t) (machine_type : string)
  (machine_subtype : string) (quantity : Z) (prices : Prices.t) (r : Roi.t) :
  calculate_roi self machine_type machine_subtype quantity prices = Done r ->
  Roi.profit r == Roi.revenue r - Roi.cost r
  /\ ((0 < quantity)%Z ->
      (0 < Roi.cost r ->
       Roi.roi_percentage r == Roi.profit r / Roi.cost r * 100)
      /\ (Roi.cost r <= 0 -> Roi.roi_percentage r == 0)).
Proof.
  rewrite calculate_roi_lookup.
  destruct (dict_get machine_subtype _) as [specs|]; [|discriminate].
  intros [= <-]. simpl.
  set (rpu := Specs.capability specs * _).
  set (cpu := inject_Z (Specs.power specs) * _).
  split; [ring|].
  intros Hq. apply inject_Z_pos_lt in Hq.
  set (q := inject_Z quantity) in *.
  destruct (roi_value_cases (rpu - cpu) cpu) as [Hpos Hzero].
  split.
  - intros Hcost. assert (Hcpu : 0 < cpu) by nra.
    rewrite (Hpos Hcpu). field. split; lra.
  - intros Hcost. assert (Hcpu : cpu <= 0) by nra.
    rewrite (Hzero Hcpu). reflexivity.
Qed.

Lemma calculate_roi_consistent_witness :
  exists r,
    calculate_roi default_analyzer "miner" "hydro" 2 default_prices = Done r
    /\ Roi.profit r == Roi.revenue r - Roi.cost r
    /\ Roi.roi_percentage r == Roi.profit r / Roi.cost r * 100.
Proof.
  eexists. split; [vm_compute; reflexivity|].
  destruct (calculate_roi_consistent default_analyzer "miner" "hydro" 2
              default_prices _ ltac:(vm_compute; reflexivity))
    as [Hprofit Hroi].
  split; [exact Hprofit|].
  apply (proj1 (Hroi ltac:(lia))). reflexivity.
Defined.

(** ** Where the entries of a plan come from *)

(** Every entry of a returned plan was written for an inventory entry with
    a positive profit per watt and a positive number of units. *)
Lemma plan_entry_origin (self : Analyzer.t) (w : World.t)
  (current_prices : option Prices.t) (plan : Plan.t) :
  find_optimal_allocation self w current_prices = Return plan ->
  let prices := resolve_prices w current_prices in
  forall key entry,
    In (key, entry) (Plan.allocation plan) ->
    exists t item units,
      In item (category t (Analyzer.inventory self))
      /\ Specs.power (snd item) <> 0%Z
      /\ 0 < profit_per_watt t prices (snd item)
      /\ (0 < units)%Z
      /\ key = allocation_key (machine_of t prices item)
      /\ entry = entry_for prices (machine_of t prices item) units.
Proof.
  intros Hrun prices.
  pose proof (returned_no_zero_power _ _ _ _ Hrun) as Hz.
  destruct (find_optimal_allocation_invariant self w current_prices
              (fun pre st =>
                 forall key entry,
                   In (key, entry) (Greedy.allocation st) ->
                   exists m units,
                     In m pre /\ 0 < Machine.profit_per_watt m
                     /\ (0 < units)%Z
                     /\ key = allocation_key m
                     /\ entry = entry_for prices m units))
    as [st [Hst Hinv]]; [assumption| | |].
  - intros key entry [].
  - fold prices. intros pre m post st st' Heq Hold Hstep key entry Hin.
    assert (Hkeep : forall m0, In m0 pre -> In m0 (pre ++ [m])%list)
      by (intros; apply in_or_app; now left).
    destruct Hstep
      as [Hle|Hppw Hroom|max_units entry' Hppw Hmax Hunits Hentry].
    + destruct (Hold key entry Hin) as [m0 [u [H0 H1]]]. exists m0, u. auto.
    + destruct (Hold key entry Hin) as [m0 [u [H0 H1]]]. exists m0, u. auto.
    + simpl in Hin. apply In_dict_set in Hin.
      destruct Hin as [[= -> ->]|Hin].
      * exists m, max_units. repeat split; auto.
        apply in_or_app. right. now left.
      * destruct (Hold key entry Hin) as [m0 [u [H0 H1]]].
        exists m0, u. auto.
  - rewrite Hst in Hrun. injection Hrun as <-. simpl.
    intros key entry Hin.
    destruct (Hinv key entry Hin) as [m [units [Hm [Hppw [Hu [Hk He]]]]]].
    pose proof (ranked_power_nonzero self _ m Hz Hm) as Hp.
    apply In_ranked_category in Hm.
    destruct Hm as [t [item [Hitem ->]]].
    exists t, item, units. repeat split; auto.
Qed.

Lemma type_name_is_miner (t : MachineType) :
  String.eqb (type_name t) "miner"
  = match t with miner => true | inference => false end.
Proof. destruct t; reflexivity. Qed.

(** X3: for every entry of a plan the optimizer returns, [calculate_roi]
    called with the entry's type, subtype and units and the same prices
    returns the entry's [power_used] and, in exact arithmetic, its revenue,
    cost and profit. *)
Theorem calculate_roi_agrees_with_plan (self : Analyzer.t) (w : World.t)
  (current_prices : option Prices.t) (plan : Plan.t) :
  find_optimal_allocation self w current_prices = Return plan ->
  unique_subtypes (Analyzer.inventory self) ->
  forall key entry,
    In (key, entry) (Plan.allocation plan) ->
    exists r,
      calculate_roi self (type_name (Entry.type entry))
        (Entry.subtype entry) (Entry.units entry)
        (resolve_prices w current_prices)
      = Done r
      /\ Roi.power_used r = Entry.power_used entry
      /\ Roi.revenue r == Entry.revenue entry
      /\ Roi.cost r == Entry.cost entry
      /\ Roi.profit r == Entry.profit entry.
Proof.
  intros Hrun [Hum Huc] key entry Hin.
  destruct (plan_entry_origin _ _ _ _ Hrun key entry Hin)
    as [t [[name specs] [units [Hitem [Hp [_ [_ [_ ->]]]]]]]].
  simpl in Hp. simpl Entry.type. simpl Entry.subtype. simpl Entry.units.
  rewrite calculate_roi_lookup, type_name_is_miner.
  assert (Hget : dict_get name
                   (if match t with miner => true | inference => false end
                    then Inventory.miners (Analyzer.inventory self)
                    else Inventory.inference (Analyzer.inventory self))
                 = Some specs).
  { destruct t; simpl in Hitem; now apply dict_get_in. }
  rewrite Hget. eexists. split; [reflexivity|]. simpl.
  pose proof (inject_Z_nonzero _ Hp) as Hq.
  unfold profit_per_watt, revenue_per_watt.
  rewrite inject_Z_mult.
  split; [lia|].
  destruct t; simpl; repeat split; field; exact Hq.
Qed.

Lemma calculate_roi_agrees_with_plan_witness :
  exists plan,
    find_optimal_allocation default_analyzer sample_world None = Return plan
    /\ forall key entry,
        In (key, entry) (Plan.allocation plan) ->
        exists r,
          calculate_roi default_analyzer (type_name (Entry.type entry))
            (Entry.subtype entry) (Entry.units entry) default_prices
          = Done r
          /\ Roi.power_used r = Entry.power_used entry
          /\ Roi.revenue r == Entry.revenue entry
          /\ Roi.cost r == Entry.cost entry
          /\ Roi.profit r == Entry.profit entry.
Proof.
  eexists. split; [vm_compute; reflexivity|].
  apply (calculate_roi_agrees_with_plan default_analyzer sample_world None).
  - vm_compute. reflexivity.
  - split; simpl; repeat constructor; simpl; intuition discriminate.
Defined.

(** X4: when at least one unit of the chosen device fits under the limit,
    the [roi_percentage] a single-category strategy returns is, in exact
    arithmetic, the [roi_percentage] [calculate_roi] gives for that device,
    whatever the quantity asked. *)
Theorem strategy_roi_is_unit_roi (t : MachineType) (self : Analyzer.t)
  (prices : Prices.t) :
  let d := category t (Analyzer.inventory self) in
  let limit := Analyzer.site_power_limit self in
  d <> [] ->
  Forall (fun item => (0 < Specs.power (snd item))%Z) d ->
  NoDup (keys d) ->
  exists best s,
    In best d
    /\ strategy_for t self prices = Return s
    /\ s = summary_for limit (price_for t prices) prices (snd best)
    /\ ((0 < limit / Specs.power (snd best))%Z ->
        forall quantity,
        exists r,
          calculate_roi self (type_name t) (fst best) quantity prices = Done r
          /\ Summary.roi_percentage s == Roi.roi_percentage r).
Proof.
  intros d limit Hne Hpos Hnd.
  pose proof (positive_no_zero_dict d Hpos) as Hz.
  rewrite strategy_for_unfold. fold d limit.
  rewrite (single_strategy_cases _ _ _ _ Hz).
  destruct (first_max (strategy_key (price_for t prices) prices) d)
    as [[name specs]|] eqn:E.
  2:{ apply first_max_none in E. contradiction. }
  destruct (first_max_is_max _ _ _ E) as [Hin _].
  assert (Hp : (0 < Specs.power specs)%Z).
  { rewrite Forall_forall in Hpos. now apply (Hpos (name, specs)). }
  exists (name, specs). eexists. split; [exact Hin|].
  split; [reflexivity|]. split; [reflexivity|].
  intros Hunits quantity. simpl fst. simpl snd.
  rewrite calculate_roi_lookup, type_name_is_miner.
  assert (Hget : dict_get name
                   (if match t with miner => true | inference => false end
                    then Inventory.miners (Analyzer.inventory self)
                    else Inventory.inference (Analyzer.inventory self))
                 = Some specs).
  { destruct t; simpl in Hin; now apply dict_get_in. }
  rewrite Hget. eexists. split; [reflexivity|]. simpl.
  replace (if match t with miner => true | inference => false end
           then Prices.hash_price prices else Prices.token_price prices)
    with (price_for t prices) by (destruct t; reflexivity).
  rewrite inject_Z_mult.
  simpl snd in Hunits. apply inject_Z_pos_lt in Hunits, Hp.
  set (u := inject_Z (limit / Specs.power specs)) in *.
  set (p := inject_Z (Specs.power specs)) in *.
  set (e := Prices.energy_price prices).
  generalize (Specs.capability specs) (price_for t prices). intros c q.
  clearbody u p e.
  assert (Hup : 0 < u * p) by now apply Qmult_lt_0_compat.
  destruct (Qlt_le_dec 0 e) as [He|He].
  - assert (H1 : 0 < u * p * e) by now apply Qmult_lt_0_compat.
    assert (H2 : 0 < p * e) by now apply Qmult_lt_0_compat.
    rewrite (proj1 (roi_value_cases _ _) H1).
    rewrite (proj1 (roi_value_cases _ _) H2).
    field. repeat split; lra.
  - assert (H1 : u * p * e <= 0) by nra.
    assert (H2 : p * e <= 0) by nra.
    rewrite (proj2 (roi_value_cases _ _) H1).
    rewrite (proj2 (roi_value_cases _ _) H2).
    reflexivity.
Qed.

Lemma strategy_roi_is_unit_roi_witness :
  exists best s r,
    In best (Inventory.miners default_inventory)
    /\ _mining_only_strategy default_analyzer default_prices = Return s
    /\ calculate_roi default_analyzer "miner" (fst best) 7 default_prices
       = Done r
    /\ Summary.roi_percentage s == Roi.roi_percentage r.
Proof.
  destruct (strategy_roi_is_unit_roi miner default_analyzer default_prices)
    as [best [s [Hin [Hrun [Hs Hroi]]]]].
  - simpl. discriminate.
  - simpl. repeat constructor.
  - simpl. repeat constructor; simpl; intuition discriminate.
  - assert (Hu : (0 < 1000000 / Specs.power (snd best))%Z).
    { simpl in Hin. destruct Hin as [<-|[<-|[<-|[]]]]; reflexivity. }
    destruct (Hroi Hu 7%Z) as [r [Hr Heq]].
    exists best, s, r. repeat split; assumption.
Defined.

(** ** Substring test *)

Lemma prefix_append (needle rest : string) :
  String.prefix needle (needle ++ rest) = true.
Proof.
  induction needle as [|c needle IH]; simpl.
  - now destruct rest.
  - destruct (ascii_dec c c) as [_|Hne]; [exact IH|now elim Hne].
Qed.

Lemma prefix_split (needle hay : string) :
  String.prefix needle hay = true -> exists rest, hay = needle ++ rest.
Proof.
  revert hay. induction needle as [|c needle IH]; intros hay; simpl.
  - intros _. now exists hay.
  - destruct hay as [|c' hay]; simpl; [intros H; discriminate H|].
    destruct (ascii_dec c c') as [<-|_]; [|intros H; discriminate H].
    intros H. destruct (IH hay H) as [rest ->]. now exists rest.
Qed.

Lemma contains_prefix (needle hay : string) :
  String.prefix needle hay = true -> contains needle hay = true.
Proof.
  intros H. destruct hay; cbn [contains]; now rewrite H.
Qed.

(** [contains] is the substring test of [in]: it holds exactly of the
    strings that have [needle] somewhere inside. *)
Lemma contains_iff (needle hay : string) :
  contains needle hay = true <->
  exists before after, hay = before ++ needle ++ after.
Proof.
  split.
  - induction hay as [|c hay IH]; cbn [contains]; intros H;
      apply orb_true_iff in H; destruct H as [H|H].
    + apply prefix_split in H. destruct H as [rest ->]. now exists "", rest.
    + discriminate.
    + apply prefix_split in H. destruct H as [rest ->]. now exists "", rest.
    + destruct (IH H) as [before [after ->]].
      now exists (String c before), after.
  - intros [before [after ->]].
    induction before as [|c before IH]; cbn [append].
    + apply contains_prefix, prefix_append.
    + cbn [contains]. rewrite IH. apply orb_true_r.
Qed.

(** ** [apply_allocation] *)

(** X5: the test is by substring, not by key: an allocation with one entry
    whose name has [air_miner] anywhere inside, whatever stands before and
    after it, is sent as that many [air_miners], and nothing else. *)
Theorem apply_allocation_substring {Response : Type}
  (put : ApiAllocation.t -> Response) (before after : string)
  (details : Entry.t) :
  apply_allocation put [(before ++ "air_miner" ++ after, details)]
  = put (ApiAllocation.make (Entry.units details) 0 0 0 0).
Proof.
  unfold apply_allocation. f_equal.
  assert (H : contains "air_miner" (before ++ "air_miner" ++ after) = true)
    by (apply contains_iff; eauto).
  unfold api_allocation. cbn [fold_left]. unfold api_allocation_step.
  rewrite H. reflexivity.
Qed.

Lemma api_allocation_from (allocation : dict Entry.t) :
  NoDup (keys allocation) ->
  Forall (fun name => In name known_names) (keys allocation) ->
  forall acc,
    fold_left api_allocation_step allocation acc
    = ApiAllocation.make
        (match dict_get "air_miner" allocation with
         | Some e => Entry.units e
         | None => ApiAllocation.air_miners acc
         end)
        (match dict_get "hydro_miner" allocation with
         | Some e => Entry.units e
         | None => ApiAllocation.hydro_miners acc
         end)
        (match dict_get "immersion_miner" allocation with
         | Some e => Entry.units e
         | None => ApiAllocation.immersion_miners acc
         end)
        (match dict_get "gpu_inference" allocation with
         | Some e => Entry.units e
         | None => ApiAllocation.gpu_compute acc
         end)
        (match dict_get "asic_inference" allocation with
         | Some e => Entry.units e
         | None => ApiAllocation.asic_compute acc
         end).
Proof.
  induction allocation as [|[name details] rest IH];
    intros Hnd Hknown acc.
  - now destruct acc.
  - inversion Hnd as [|? ? Hfresh Hrest]; subst.
    inversion Hknown as [|? ? Hname Hothers]; subst.
    apply dict_get_none in Hfresh.
    simpl fold_left. rewrite (IH Hrest Hothers).
    simpl in Hname.
    destruct Hname as [<-|[<-|[<-|[<-|[<-|[]]]]]];
      simpl; rewrite Hfresh; reflexivity.
Qed.

(** X6: for an allocation whose names are pairwise different and all
    among the five names the function is written for, each field of the
    request body is the [units] of the entry of that name, and zero when
    there is no such entry. *)
Theorem apply_allocation_known_names {Response : Type}
  (put : ApiAllocation.t -> Response) (allocation : dict Entry.t) :
  NoDup (keys allocation) ->
  Forall (fun name => In name known_names) (keys allocation) ->
  apply_allocation put allocation
  = put (ApiAllocation.make
           (units_of "air_miner" allocation)
           (units_of "hydro_miner" allocation)
           (units_of "immersion_miner" allocation)
           (units_of "gpu_inference" allocation)
           (units_of "asic_inference" allocation)).
Proof.
  intros Hnd Hknown. unfold apply_allocation, api_allocation, units_of.
  rewrite (api_allocation_from allocation Hnd Hknown). reflexivity.
Qed.

Lemma apply_allocation_known_names_witness :
  apply_allocation (fun body => body)
    [("asic_inference", Entry.make 66 inference "asic" 990000 0 0 0);
     ("hydro_miner", Entry.make 2 miner "hydro" 10000 0 0 0)]
  = ApiAllocation.make 0 2 0 0 66.
Proof.
  rewrite apply_allocation_known_names.
  - reflexivity.
  - simpl. repeat constructor; simpl; intuition discriminate.
  - simpl. apply Forall_cons; [simpl; tauto|].
    apply Forall_cons; [simpl; tauto|]. apply Forall_nil.
Defined.

(** ** Subsequences *)

Lemma subsequence_app_skip {A : Type} (l1 l2 : list A) (x : A) :
  subsequence l1 l2 -> subsequence l1 (l2 ++ [x]).
Proof.
  induction 1; simpl.
  - apply subsequence_skip, subsequence_nil.
  - now apply subsequence_skip.
  - now apply subsequence_take.
Qed.

Lemma subsequence_app_take {A : Type} (l1 l2 : list A) (x : A) :
  subsequence l1 l2 -> subsequence (l1 ++ [x]) (l2 ++ [x]).
Proof.
  induction 1; simpl.
  - apply subsequence_take, subsequence_nil.
  - now apply subsequence_skip.
  - now apply subsequence_take.
Qed.

Lemma subsequence_in {A : Type} (l1 l2 : list A) (x : A) :
  subsequence l1 l2 -> In x l1 -> In x l2.
Proof.
  induction 1; simpl; intuition.
Qed.

Lemma subsequence_map {A B : Type} (f : A -> B) (l1 l2 : list A) :
  subsequence l1 l2 -> subsequence (map f l1) (map f l2).
Proof.
  induction 1; simpl;
    [apply subsequence_nil|now apply subsequence_skip
    |now apply subsequence_take].
Qed.

Lemma subsequence_nodup {A : Type} (l1 l2 : list A) :
  subsequence l1 l2 -> NoDup l2 -> NoDup l1.
Proof.
  induction 1; intros Hnd.
  - constructor.
  - inversion Hnd; subst. auto.
  - inversion Hnd as [|? ? Hnotin Hrest]; subst. constructor; [|auto].
    intros Hin. apply Hnotin. eapply subsequence_in; eauto.
Qed.

Lemma subsequence_sorted {A : Type} (R : A -> A -> Prop) (l1 l2 : list A) :
  subsequence l1 l2 -> StronglySorted R l2 -> StronglySorted R l1.
Proof.
  induction 1; intros Hs.
  - constructor.
  - inversion Hs; subst. auto.
  - inversion Hs as [|? ? Hrest Hall]; subst. constructor; [auto|].
    rewrite Forall_forall in *. intros y Hy. apply Hall.
    eapply subsequence_in; eauto.
Qed.

(** ** The shape of a plan *)

Lemma sum_entries_app (field : Entry.t -> Q) (d1 d2 : dict Entry.t) :
  sum_entries field (d1 ++ d2)%list
  == sum_entries field d1 + sum_entries field d2.
Proof.
  unfold sum_entries, values.
  induction d1 as [|[k e] rest IH]; simpl; [ring|].
  rewrite IH. ring.
Qed.

Lemma keys_allocation_items (prices : Prices.t)
  (chosen : list (Machine.t * Z)) :
  keys (map (allocation_item prices) chosen)
  = map allocation_key (map fst chosen).
Proof.
  unfold keys. rewrite !map_map. reflexivity.
Qed.

(** With pairwise different subtypes no entry is ever overwritten: the
    allocation lists, in the order of the sorted table, the machines that
    were given units, and the totals are the sums over its entries. *)
Lemma plan_structure (self : Analyzer.t) (w : World.t)
  (current_prices : option Prices.t) (plan : Plan.t) :
  let prices := resolve_prices w current_prices in
  find_optimal_allocation self w current_prices = Return plan ->
  unique_subtypes (Analyzer.inventory self) ->
  exists chosen,
    Plan.allocation plan = map (allocation_item prices) chosen
    /\ subsequence (map fst chosen) (ranked self prices)
    /\ Forall (fun mu => 0 < Machine.profit_per_watt (fst mu)
                         /\ (0 < snd mu)%Z) chosen
    /\ Plan.total_profit plan
       == sum_entries Entry.profit (Plan.allocation plan)
    /\ Plan.total_revenue plan
       == sum_entries Entry.revenue (Plan.allocation plan)
    /\ Plan.total_cost plan
       == sum_entries Entry.cost (Plan.allocation plan).
Proof.
  intros prices Hrun Huniq.
  pose proof (returned_no_zero_power _ _ _ _ Hrun) as Hz.
  pose proof (ranked_keys_unique self prices Huniq) as Hnd.
  destruct (find_optimal_allocation_invariant self w current_prices
              (fun pre st =>
                 exists chosen,
                   Greedy.allocation st = map (allocation_item prices) chosen
                   /\ subsequence (map fst chosen) pre
                   /\ Forall (fun mu => 0 < Machine.profit_per_watt (fst mu)
                                        /\ (0 < snd mu)%Z) chosen
                   /\ Greedy.total_profit st
                      == sum_entries Entry.profit (Greedy.allocation st)
                   /\ Greedy.total_revenue st
                      == sum_entries Entry.revenue (Greedy.allocation st)
                   /\ Greedy.total_cost st
                      == sum_entries Entry.cost (Greedy.allocation st)))
    as [st [Hst Hinv]]; [assumption| | |].
  - exists []. simpl. repeat split; try reflexivity;
      [apply subsequence_nil|constructor].
  - fold prices.
    intros pre m post st st' Heq
      [chosen [Halloc [Hsub [Hall [Hp [Hr Hc]]]]]] Hstep.
    destruct Hstep
      as [Hle|Hppw Hroom|max_units entry Hppw Hmax Hunits Hentry].
    + exists chosen. repeat split; auto. now apply subsequence_app_skip.
    + exists chosen. repeat split; auto. now apply subsequence_app_skip.
    + assert (Hfresh : ~ In (allocation_key m) (keys (Greedy.allocation st))).
      { rewrite Halloc, keys_allocation_items. intros Hk.
        rewrite Heq, map_app in Hnd. simpl in Hnd.
        apply NoDup_remove_2 in Hnd. apply Hnd.
        apply in_or_app. left.
        eapply subsequence_in; [|exact Hk].
        now apply subsequence_map. }
      exists (chosen ++ [(m, max_units)])%list. simpl.
      rewrite (dict_set_fresh _ _ _ Hfresh), !sum_entries_app.
      rewrite map_app, Halloc, Hentry. simpl.
      split; [reflexivity|]. split.
      { rewrite map_app. simpl. now apply subsequence_app_take. }
      split.
      { apply Forall_app. split; [assumption|]. repeat constructor; auto. }
      rewrite <- Halloc, Hp, Hr, Hc.
      unfold sum_entries, values. simpl.
      repeat split; ring.
  - rewrite Hst in Hrun. injection Hrun as <-. simpl. exact Hinv.
Qed.

(** X7: with pairwise different subtypes, the entries of a returned plan
    stand in the order of the sorted table, so in non-increasing profit per
    watt: the allocation lists, one entry each, machines picked from the
    sorted table in its order, tied ones included, each given a positive
    number of units and with a positive profit per watt, none with more
    than the one before it. *)
Theorem plan_in_rank_order (self : Analyzer.t) (w : World.t)
  (current_prices : option Prices.t) (plan : Plan.t) :
  let prices := resolve_prices w current_prices in
  find_optimal_allocation self w current_prices = Return plan ->
  unique_subtypes (Analyzer.inventory self) ->
  exists chosen,
    Plan.allocation plan = map (allocation_item prices) chosen
    /\ subsequence (map fst chosen)
         (sort_desc (efficiency_table (Analyzer.inventory self) prices))
    /\ StronglySorted
         (fun a b => Machine.profit_per_watt b <= Machine.profit_per_watt a)
         (map fst chosen)
    /\ Forall
         (fun mu =>
            (exists t item,
                In item (category t (Analyzer.inventory self))
                /\ fst mu = machine_of t prices item)
            /\ 0 < Machine.profit_per_watt (fst mu)
            /\ (0 < snd mu)%Z)
         chosen.
Proof.
  intros prices Hrun Huniq.
  destruct (plan_structure self w current_prices plan Hrun Huniq)
    as [chosen [Halloc [Hsub [Hall _]]]].
  fold prices in Halloc, Hsub.
  exists chosen. split; [exact Halloc|]. split; [exact Hsub|]. split.
  - eapply subsequence_sorted; [exact Hsub|]. apply sort_desc_sorted.
  - rewrite Forall_forall in *. intros mu Hmu.
    split; [|now apply Hall].
    apply In_ranked_category.
    eapply subsequence_in; [exact Hsub|]. now apply in_map.
Qed.

Lemma plan_in_rank_order_witness :
  exists plan chosen,
    find_optimal_allocation default_analyzer sample_world None = Return plan
    /\ Plan.allocation plan = map (allocation_item default_prices) chosen
    /\ subsequence (map fst chosen)
         (sort_desc (efficiency_table default_inventory default_prices)).
Proof.
  eexists.
  destruct (plan_in_rank_order default_analyzer sample_world None _
              ltac:(vm_compute; reflexivity)
              ltac:(split; simpl; repeat constructor; simpl;
                    intuition discriminate))
    as [chosen [Halloc [Hsub _]]].
  exists chosen. split; [vm_compute; reflexivity|]. split; assumption.
Defined.

(** X8: with pairwise different subtypes, the three money totals of a
    returned plan are, in exact arithmetic, the sums of profit, revenue and
    cost over the entries of its allocation. *)
Theorem plan_totals_are_sums (self : Analyzer.t) (w : World.t)
  (current_prices : option Prices.t) (plan : Plan.t) :
  find_optimal_allocation self w current_prices = Return plan ->
  unique_subtypes (Analyzer.inventory self) ->
  Plan.total_profit plan == sum_entries Entry.profit (Plan.allocation plan)
  /\ Plan.total_revenue plan
     == sum_entries Entry.revenue (Plan.allocation plan)
  /\ Plan.total_cost plan == sum_entries Entry.cost (Plan.allocation plan).
Proof.
  intros Hrun Huniq.
  destruct (plan_structure self w current_prices plan Hrun Huniq)
    as [chosen [_ [_ [_ Hsums]]]].
  exact Hsums.
Qed.

Lemma plan_totals_are_sums_witness :
  exists plan,
    find_optimal_allocation default_analyzer sample_world None = Return plan
    /\ Plan.total_profit plan
       == sum_entries Entry.profit (Plan.allocation plan)
    /\ Plan.total_revenue plan
       == sum_entries Entry.revenue (Plan.allocation plan)
    /\ Plan.total_cost plan == sum_entries Entry.cost (Plan.allocation plan).
Proof.
  eexists. split; [vm_compute; reflexivity|].
  apply (plan_totals_are_sums default_analyzer sample_world None).
  - vm_compute. reflexivity.
  - split; simpl; repeat constructor; simpl; intuition discriminate.
Defined.

(** The accumulators of the greedy loop move together. *)
Lemma returned_plan_totals (self : Analyzer.t) (w : World.t)
  (current_prices : option Prices.t) (plan : Plan.t) :
  find_optimal_allocation self w current_prices = Return plan ->
  Plan.total_profit plan == Plan.total_revenue plan - Plan.total_cost plan
  /\ Plan.total_cost plan
     == inject_Z (Plan.total_power_used plan)
        * Prices.energy_price (resolve_prices w current_prices).
Proof.
  intros Hrun. set (prices := resolve_prices w current_prices).
  pose proof (returned_no_zero_power _ _ _ _ Hrun) as Hz.
  destruct (find_optimal_allocation_invariant self w current_prices
              (fun _ st =>
                 Greedy.total_profit st
                 == Greedy.total_revenue st - Greedy.total_cost st
                 /\ Greedy.total_cost st
                    == inject_Z (Analyzer.site_power_limit self
                                 - Greedy.remaining_power st)
                       * Prices.energy_price prices))
    as [st [Hst Hinv]]; [assumption| | |].
  - simpl. rewrite Z.sub_diag. split; ring.
  - fold prices. intros pre m post st st' Heq [Hp Hc] Hstep.
    assert (Hin : In m (ranked self prices)).
    { rewrite Heq. apply in_or_app. right. now left. }
    apply In_ranked_category in Hin. destruct Hin as [t [item [_ ->]]].
    destruct Hstep
      as [Hle|Hppw Hroom|max_units entry Hppw Hmax Hunits Hentry];
      [split; assumption|split; assumption|].
    rewrite Hentry. simpl. rewrite Hp, Hc.
    replace (Analyzer.site_power_limit self
             - (Greedy.remaining_power st
                - max_units * Specs.power (snd item)))%Z
      with ((Analyzer.site_power_limit self - Greedy.remaining_power st)
            + max_units * Specs.power (snd item))%Z by lia.
    rewrite inject_Z_plus. unfold profit_per_watt. split; ring.
  - rewrite Hst in Hrun. injection Hrun as <-. simpl. exact Hinv.
Qed.

(** With positive power draws the accumulated profit never goes down. *)
Lemma returned_plan_profit (self : Analyzer.t) (w : World.t)
  (current_prices : option Prices.t) (plan : Plan.t) :
  find_optimal_allocation self w current_prices = Return plan ->
  positive_powers (Analyzer.inventory self) ->
  0 <= Plan.total_profit plan.
Proof.
  intros Hrun Hpos.
  destruct (find_optimal_allocation_invariant self w current_prices
              (fun _ st => 0 <= Greedy.total_profit st))
    as [st [Hst Hinv]].
  - now apply positive_no_zero.
  - simpl. apply Qle_refl.
  - intros pre m post st st' Heq Hold Hstep.
    assert (Hin : In m (ranked self (resolve_prices w current_prices))).
    { rewrite Heq. apply in_or_app. right. now left. }
    pose proof (ranked_power_positive self _ m Hpos Hin) as Hp.
    destruct Hstep
      as [Hle|Hppw Hroom|max_units entry Hppw Hmax Hunits Hentry];
      simpl; try assumption.
    pose proof (entry_profit_nonneg (resolve_prices w current_prices) m _
                  Hp Hunits Hppw) as He.
    rewrite <- Hentry in He. lra.
  - rewrite Hst in Hrun. injection Hrun as <-. exact Hinv.
Qed.

(** X9: in a returned plan, in exact arithmetic, the total profit is the
    total revenue minus the total cost, and the total cost is the power
    used times the energy price. *)
Theorem plan_totals_consistent (self : Analyzer.t) (w : World.t)
  (current_prices : option Prices.t) (plan : Plan.t) :
  find_optimal_allocation self w current_prices = Return plan ->
  Plan.total_profit plan == Plan.total_revenue plan - Plan.total_cost plan
  /\ Plan.total_cost plan
     == inject_Z (Plan.total_power_used plan)
        * Prices.energy_price (resolve_prices w current_prices).
Proof.
  intros Hrun.
  exact (returned_plan_totals self w current_prices plan Hrun).
Qed.

Lemma plan_totals_consistent_witness :
  exists plan,
    find_optimal_allocation default_analyzer sample_world None = Return plan
    /\ Plan.total_profit plan == Plan.total_revenue plan - Plan.total_cost plan
    /\ Plan.total_cost plan
       == inject_Z (Plan.total_power_used plan) * 0.65.
Proof.
  eexists. split; [vm_compute; reflexivity|].
  apply (plan_totals_consistent default_analyzer sample_world None).
  vm_compute. reflexivity.
Defined.

(** ** The plan sent to the machines endpoint *)

Lemma plan_keys (self : Analyzer.t) (w : World.t)
  (current_prices : option Prices.t) (plan : Plan.t) :
  find_optimal_allocation self w current_prices = Return plan ->
  unique_subtypes (Analyzer.inventory self) ->
  NoDup (keys (Plan.allocation plan))
  /\ forall key,
      In key (keys (Plan.allocation plan)) ->
      exists t item,
        In item (category t (Analyzer.inventory self))
        /\ key = (fst item ++ "_" ++ type_name t)%string.
Proof.
  intros Hrun Huniq. set (prices := resolve_prices w current_prices).
  destruct (plan_structure self w current_prices plan Hrun Huniq)
    as [chosen [Halloc [Hsub _]]].
  fold prices in Halloc, Hsub.
  rewrite Halloc, keys_allocation_items.
  apply (subsequence_map allocation_key) in Hsub.
  split.
  - eapply subsequence_nodup; [exact Hsub|].
    now apply ranked_keys_unique.
  - intros key Hkey.
    apply (subsequence_in _ _ key Hsub) in Hkey.
    apply in_map_iff in Hkey. destruct Hkey as [m [<- Hm]].
    apply In_ranked_category in Hm. destruct Hm as [t [item [Hitem ->]]].
    exists t, item. split; [exact Hitem|reflexivity].
Qed.

(** X10: for an inventory whose subtypes are pairwise different and among
    air, hydro and immersion for the miners and gpu and asic for the
    inference devices, the request body built from a plan of the optimizer
    carries the units of every entry of the plan under its own field, and
    zero for the devices the plan leaves out. *)
Theorem optimizer_plan_is_sent_whole {Response : Type}
  (put : ApiAllocation.t -> Response) (self : Analyzer.t) (w : World.t)
  (current_prices : option Prices.t) (plan : Plan.t) :
  find_optimal_allocation self w current_prices = Return plan ->
  unique_subtypes (Analyzer.inventory self) ->
  known_subtypes (Analyzer.inventory self) ->
  let allocation := Plan.allocation plan in
  apply_allocation put allocation
  = put (ApiAllocation.make
           (units_of "air_miner" allocation)
           (units_of "hydro_miner" allocation)
           (units_of "immersion_miner" allocation)
           (units_of "gpu_inference" allocation)
           (units_of "asic_inference" allocation))
  /\ forall key entry,
      In (key, entry) allocation ->
      In key known_names /\ units_of key allocation = Entry.units entry.
Proof.
  intros Hrun Huniq [Hkm Hki] allocation.
  destruct (plan_keys self w current_prices plan Hrun Huniq) as [Hnd Hkeys].
  fold allocation in Hnd, Hkeys.
  assert (Hknown : forall key, In key (keys allocation) ->
                               In key known_names).
  { intros key Hkey. destruct (Hkeys key Hkey) as [t [item [Hitem ->]]].
    rewrite Forall_forall in Hkm, Hki.
    assert (Hfst : In (fst item) (keys (category t (Analyzer.inventory self))))
      by (unfold keys; now apply in_map).
    destruct t; simpl in Hfst.
    - specialize (Hkm _ Hfst). simpl in Hkm.
      destruct Hkm as [<-|[<-|[<-|[]]]]; simpl; tauto.
    - specialize (Hki _ Hfst). simpl in Hki.
      destruct Hki as [<-|[<-|[]]]; simpl; tauto. }
  split.
  - unfold apply_allocation, api_allocation, units_of.
    rewrite (api_allocation_from allocation Hnd); [reflexivity|].
    apply Forall_forall. exact Hknown.
  - intros key entry Hin. split.
    + apply Hknown. unfold keys. change key with (fst (key, entry)).
      now apply in_map.
    + unfold units_of. now rewrite (dict_get_in key entry allocation Hnd Hin).
Qed.

Lemma optimizer_plan_is_sent_whole_witness :
  exists plan,
    find_optimal_allocation default_analyzer sample_world None = Return plan
    /\ apply_allocation (fun body => body) (Plan.allocation plan)
       = ApiAllocation.make 0 2 0 0 66.
Proof.
  eexists. split; [vm_compute; reflexivity|].
  rewrite (proj1 (optimizer_plan_is_sent_whole (fun body => body)
                    default_analyzer sample_world
                    None _ ltac:(vm_compute; reflexivity)
                    ltac:(split; simpl; repeat constructor; simpl;
                          intuition discriminate)
                    ltac:(split; simpl;
                          repeat (apply Forall_cons; [simpl; tauto|]);
                          apply Forall_nil))).
  reflexivity.
Defined.

(** ** When the plan is empty *)

Lemma dict_set_not_nil {V : Type} (k : string) (v : V) (d : dict V) :
  dict_set k v d <> [].
Proof.
  destruct d as [|[k' v'] rest]; simpl; [discriminate|].
  destruct (String.eqb k k'); discriminate.
Qed.

Lemma floordiv_fits (a d : Z) : (0 < d)%Z -> (0 < a / d)%Z -> (d <= a)%Z.
Proof.
  intros Hd Hq.
  pose proof (Z.div_mod a d ltac:(lia)).
  pose proof (Z.mod_pos_bound a d Hd). nia.
Qed.

(** X11: with positive power draws the optimizer returns a plan whose
    allocation is empty exactly when no inventory entry with a positive
    profit per watt has a power draw within the site power limit. *)
Theorem empty_plan_iff (self : Analyzer.t) (w : World.t)
  (current_prices : option Prices.t) :
  let prices := resolve_prices w current_prices in
  positive_powers (Analyzer.inventory self) ->
  exists plan,
    find_optimal_allocation self w current_prices = Return plan
    /\ (Plan.allocation plan = [] <->
        forall t item,
          In item (category t (Analyzer.inventory self)) ->
          0 < profit_per_watt t prices (snd item) ->
          (Analyzer.site_power_limit self < Specs.power (snd item))%Z).
Proof.
  intros prices Hpos. set (limit := Analyzer.site_power_limit self).
  destruct (find_optimal_allocation_invariant self w current_prices
              (fun pre st =>
                 (Greedy.allocation st = []
                  /\ Greedy.remaining_power st = limit
                  /\ forall m, In m pre -> 0 < Machine.profit_per_watt m ->
                               (limit < Machine.power m)%Z)
                 \/ (Greedy.allocation st <> []
                     /\ exists m, In m pre /\ 0 < Machine.profit_per_watt m
                                  /\ (Machine.power m <= limit)%Z)))
    as [st [Hrun Hinv]].
  - now apply positive_no_zero.
  - left. simpl. repeat split. intros m [].
  - fold prices. intros pre m post st st' Heq Hold Hstep.
    assert (Hin : In m (ranked self prices)).
    { rewrite Heq. apply in_or_app. right. now left. }
    pose proof (ranked_power_positive self _ m Hpos Hin) as Hp.
    destruct Hold as [[Hnil [Hrem Hnone]]|[Hsome [m0 [Hm0 Hfit]]]].
    + destruct Hstep
        as [Hle|Hppw Hroom|max_units entry Hppw Hmax Hunits Hentry].
      * left. repeat split; auto. intros m' Hm' Hppw'.
        apply in_app_or in Hm'. destruct Hm' as [Hm'|[<-|[]]]; [auto|].
        exfalso. apply (Qlt_not_le _ _ Hppw' Hle).
      * left. repeat split; auto. intros m' Hm' Hppw'.
        apply in_app_or in Hm'. destruct Hm' as [Hm'|[<-|[]]]; [auto|].
        rewrite Hrem in Hroom. now apply floordiv_no_room.
      * right. simpl. split; [apply dict_set_not_nil|].
        exists m. split; [apply in_or_app; right; now left|].
        split; [assumption|].
        rewrite Hrem in Hmax. subst max_units. now apply floordiv_fits.
    + right. split.
      * destruct Hstep
          as [Hle|Hppw Hroom|max_units entry Hppw Hmax Hunits Hentry];
          auto. simpl. apply dict_set_not_nil.
      * exists m0. split; [apply in_or_app; now left|assumption].
  - exists (plan_of self w prices st). split; [exact Hrun|]. simpl.
    destruct Hinv as [[Hnil [_ Hnone]]|[Hsome [m0 [Hm0 [Hppw Hfit]]]]].
    + split; [|intros _; exact Hnil].
      intros _ t item Hitem Hppw.
      apply (Hnone (machine_of t prices item)); [|exact Hppw].
      apply In_ranked_category. eauto.
    + split; [intros Hnil; contradiction|].
      intros Hnone. exfalso.
      apply In_ranked_category in Hm0.
      destruct Hm0 as [t [item [Hitem ->]]]. simpl in Hppw, Hfit.
      specialize (Hnone t item Hitem Hppw). fold limit in Hnone. lia.
Qed.

Lemma empty_plan_iff_witness :
  exists plan,
    find_optimal_allocation
      (Analyzer.make default_inventory 4999) sample_world None = Return plan
    /\ Plan.allocation plan <> [].
Proof.
  destruct (empty_plan_iff (Analyzer.make default_inventory 4999)
              sample_world None)
    as [plan [Hrun Hiff]].
  - split; simpl; repeat constructor.
  - exists plan. split; [exact Hrun|]. intros Hnil.
    apply (proj1 Hiff) with (t := miner)
                            (item := ("air", Specs.make 3500 1000)) in Hnil.
    + simpl in Hnil. lia.
    + simpl. left. reflexivity.
    + vm_compute. reflexivity.
Defined.

(** ** How much a plan can earn *)

(** X12: with positive power draws, if no inventory entry earns more than
    [bound] per watt, the total profit of the plan is at most the power
    used times [bound]; and at most the site power limit times [bound] when
    neither is negative. *)
Theorem total_profit_bounded (self : Analyzer.t) (w : World.t)
  (current_prices : option Prices.t) (bound : Q) :
  let prices := resolve_prices w current_prices in
  positive_powers (Analyzer.inventory self) ->
  (forall t item,
      In item (category t (Analyzer.inventory self)) ->
      profit_per_watt t prices (snd item) <= bound) ->
  exists plan,
    find_optimal_allocation self w current_prices = Return plan
    /\ Plan.total_profit plan
       <= inject_Z (Plan.total_power_used plan) * bound
    /\ ((0 <= Analyzer.site_power_limit self)%Z -> 0 <= bound ->
        Plan.total_profit plan
        <= inject_Z (Analyzer.site_power_limit self) * bound).
Proof.
  intros prices Hpos Hbound. set (limit := Analyzer.site_power_limit self).
  destruct (find_optimal_allocation_invariant self w current_prices
              (fun _ st =>
                 Greedy.total_profit st
                 <= inject_Z (limit - Greedy.remaining_power st) * bound
                 /\ ((0 <= limit)%Z -> (0 <= Greedy.remaining_power st)%Z)))
    as [st [Hrun [Hle Hrem]]].
  - now apply positive_no_zero.
  - simpl. rewrite Z.sub_diag. split; [|auto].
    change (inject_Z 0) with 0. lra.
  - fold prices. intros pre m post st st' Heq [Hle Hrem] Hstep.
    assert (Hin : In m (ranked self prices)).
    { rewrite Heq. apply in_or_app. right. now left. }
    pose proof (ranked_power_positive self _ m Hpos Hin) as Hp.
    assert (Hm : Machine.profit_per_watt m <= bound).
    { apply In_ranked_category in Hin.
      destruct Hin as [t [item [Hitem ->]]]. simpl. now apply Hbound. }
    destruct Hstep
      as [Hle'|Hppw Hroom|max_units entry Hppw Hmax Hunits Hentry];
      [split; assumption|split; assumption|].
    rewrite Hentry. simpl.
    pose proof (floordiv_rest (Greedy.remaining_power st) _ Hp) as Hrest.
    split; [|intros Hl; specialize (Hrem Hl); rewrite Hmax; lia].
    replace (limit - (Greedy.remaining_power st
                      - max_units * Machine.power m))%Z
      with ((limit - Greedy.remaining_power st)
            + max_units * Machine.power m)%Z by lia.
    rewrite inject_Z_plus.
    assert (Hw : 0 < inject_Z (max_units * Machine.power m))
      by (apply inject_Z_pos_lt; nia).
    set (watts := inject_Z (max_units * Machine.power m)) in *.
    set (used := inject_Z (limit - Greedy.remaining_power st)) in *.
    set (ppw := Machine.profit_per_watt m) in *.
    nra.
  - exists (plan_of self w prices st). split; [exact Hrun|]. simpl.
    fold limit. split; [exact Hle|].
    intros Hlimit Hb. specialize (Hrem Hlimit).
    assert (Hused : inject_Z (limit - Greedy.remaining_power st)
                    <= inject_Z limit)
      by (rewrite <- Zle_Qle; lia).
    set (used := inject_Z (limit - Greedy.remaining_power st)) in *.
    set (lim := inject_Z limit) in *.
    nra.
Qed.

Lemma total_profit_bounded_witness :
  exists plan,
    find_optimal_allocation default_analyzer sample_world None = Return plan
    /\ Plan.total_profit plan <= inject_Z 1000000 * 9.35.
Proof.
  destruct (total_profit_bounded default_analyzer sample_world None 9.35)
    as [plan [Hrun [_ Hle]]].
  - split; simpl; repeat constructor.
  - intros t item Hin.
    destruct t; simpl in Hin;
      [destruct Hin as [<-|[<-|[<-|[]]]]|destruct Hin as [<-|[<-|[]]]];
      vm_compute; discriminate.
  - exists plan. split; [exact Hrun|].
    apply Hle; [simpl; lia|discriminate].
Defined.

(** X13: with positive power draws and a limit of at least zero, if the
    machine ranked first has a positive profit per watt and its power draw
    divides the site power limit, the plan uses the whole limit and earns,
    in exact arithmetic, the limit times that profit per watt, which no
    inventory entry exceeds: the bound of X12 is met. *)
Theorem greedy_exact_when_divisible (self : Analyzer.t) (w : World.t)
  (current_prices : option Prices.t) (h : Machine.t) :
  let prices := resolve_prices w current_prices in
  let limit := Analyzer.site_power_limit self in
  positive_powers (Analyzer.inventory self) ->
  (0 <= limit)%Z ->
  hd_error (ranked self prices) = Some h ->
  0 < Machine.profit_per_watt h ->
  (Machine.power h | limit)%Z ->
  exists plan,
    find_optimal_allocation self w current_prices = Return plan
    /\ Plan.total_power_used plan = limit
    /\ Plan.total_profit plan == inject_Z limit * Machine.profit_per_watt h
    /\ forall t item,
        In item (category t (Analyzer.inventory self)) ->
        profit_per_watt t prices (snd item) <= Machine.profit_per_watt h.
Proof.
  intros prices limit Hpos Hlimit Hhead Hppwh [k Hk].
  assert (Hh : In h (ranked self prices)).
  { destruct (ranked self prices); [discriminate|].
    injection Hhead as ->. now left. }
  pose proof (ranked_power_positive self _ h Hpos Hh) as Hph.
  destruct (find_optimal_allocation_invariant self w current_prices
              (fun pre st =>
                 (pre = [] /\ st = greedy_init self)
                 \/ (pre <> []
                     /\ Greedy.remaining_power st = 0%Z
                     /\ Greedy.total_profit st
                        == inject_Z limit * Machine.profit_per_watt h)))
    as [st [Hrun Hinv]].
  - now apply positive_no_zero.
  - left. split; reflexivity.
  - fold prices. intros pre m post st st' Heq Hold Hstep. right.
    split; [now destruct pre|].
    destruct Hold as [[-> ->]|[_ [Hrem Htotal]]].
    + rewrite Heq in Hhead. simpl in Hhead. injection Hhead as ->.
      destruct Hstep
        as [Hle|Hppw Hroom|max_units entry Hppw Hmax Hunits Hentry].
      * exfalso. apply (Qlt_not_le _ _ Hppwh Hle).
      * simpl in Hroom. fold limit in Hroom. simpl.
        assert (Hzero : limit = 0%Z).
        { rewrite Hk, Z.div_mul in Hroom by lia. nia. }
        fold limit. split; [exact Hzero|]. rewrite Hzero.
        change (inject_Z 0) with 0. ring.
      * simpl in Hmax. fold limit in Hmax.
        rewrite Hentry. simpl. fold limit.
        assert (Hw : (max_units * Machine.power h)%Z = limit).
        { rewrite Hmax, Hk, Z.div_mul by lia. reflexivity. }
        rewrite Hw. split; [lia|ring].
    + destruct Hstep
        as [Hle|Hppw Hroom|max_units entry Hppw Hmax Hunits Hentry];
        [split; assumption|split; assumption|].
      exfalso. rewrite Hrem, Zdiv_0_l in Hmax. lia.
  - fold prices in Hinv, Hrun.
    destruct Hinv as [[Hnil _]|[_ [Hrem Htotal]]].
    { rewrite Hnil in Hhead. discriminate. }
    exists (plan_of self w prices st). split; [exact Hrun|]. simpl.
    fold limit. split; [lia|]. split; [exact Htotal|].
    intros t item Hitem.
    unfold ranked in Hhead. rewrite sort_desc_head in Hhead.
    destruct (first_max_is_max _ _ _ Hhead) as [_ Hmax].
    apply (Hmax (machine_of t prices item)).
    apply In_efficiency_table. destruct t; [left|right]; eauto.
Qed.

Lemma greedy_exact_when_divisible_witness :
  exists plan,
    find_optimal_allocation (Analyzer.make default_inventory 60000)
      sample_world None = Return plan
    /\ Plan.total_power_used plan = 60000%Z
    /\ Plan.total_profit plan == inject_Z 60000 * 9.35.
Proof.
  destruct (greedy_exact_when_divisible
              (Analyzer.make default_inventory 60000) sample_world None
              (machine_of inference default_prices
                 ("asic", Specs.make 15000 50000)))
    as [plan [Hrun [Hused [Hprofit _]]]].
  - split; simpl; repeat constructor.
  - simpl. lia.
  - vm_compute. reflexivity.
  - vm_compute. reflexivity.
  - exists 4%Z. reflexivity.
  - exists plan. split; [exact Hrun|]. split; [exact Hused|].
    rewrite Hprofit. reflexivity.
Defined.

(** ** Errors of the single-category strategies and of the simulator *)

Lemma for_loop_raise {A S : Type} (body : S -> A -> Exc S) (e : Exception)
  (items : list A) :
  (forall st x, In x items ->
                (exists st', body st x = Return st') \/ body st x = Raise e) ->
  (exists x, In x items /\ forall st, body st x = Raise e) ->
  forall st, for_loop body items st = Raise e.
Proof.
  induction items as [|x rest IH]; intros Hbody [y [Hy Hraise]] st.
  - contradiction.
  - simpl. destruct (Hbody st x (or_introl eq_refl)) as [[st' Hst]|Hst];
      rewrite Hst; simpl; [|reflexivity].
    destruct Hy as [->|Hy].
    + rewrite Hraise in Hst. discriminate.
    + apply IH; [|eauto]. intros st0 z Hz. apply Hbody. now right.
Qed.

Lemma best_step_cases (price : Q) (prices : Prices.t) (st : Best)
  (item : string * Specs.t) :
  (Specs.power (snd item) = 0%Z
   /\ best_step price prices st item = Raise ZeroDivisionError)
  \/ (Specs.power (snd item) <> 0%Z
      /\ exists st', best_step price prices st item = Return st').
Proof.
  destruct (Z.eq_dec (Specs.power (snd item)) 0) as [Hz|Hz].
  - left. split; [exact Hz|]. destruct item as [name specs].
    unfold best_step, py_truediv. simpl in Hz. rewrite Hz. reflexivity.
  - right. split; [exact Hz|]. rewrite (best_step_returns _ _ _ _ Hz). eauto.
Qed.

Lemma single_strategy_raises (limit : Z) (price : Q) (prices : Prices.t)
  (d : dict Specs.t) :
  has_zero_power d = true ->
  single_strategy limit price prices d = Raise ZeroDivisionError.
Proof.
  intros Hz. unfold single_strategy.
  rewrite (for_loop_raise (best_step price prices) ZeroDivisionError d);
    [reflexivity| |].
  - intros st x _.
    destruct (best_step_cases price prices st x) as [[_ H]|[_ H]]; auto.
  - apply has_zero_power_true in Hz. destruct Hz as [item [Hin Hp]].
    exists item. split; [exact Hin|]. intros st.
    destruct (best_step_cases price prices st item) as [[_ H]|[Hne _]];
      [exact H|contradiction].
Qed.

(** X14: a single-category strategy raises exactly when an entry of its
    own category has a power draw of zero, and then [ZeroDivisionError];
    otherwise it returns, whatever the other category holds. *)
Theorem single_category_error_cases (t : MachineType) (self : Analyzer.t)
  (prices : Prices.t) :
  let d := category t (Analyzer.inventory self) in
  ((exists item, In item d /\ Specs.power (snd item) = 0%Z)
   /\ strategy_for t self prices = Raise ZeroDivisionError)
  \/ ((forall item, In item d -> Specs.power (snd item) <> 0%Z)
      /\ exists s, strategy_for t self prices = Return s).
Proof.
  intros d. rewrite strategy_for_unfold. fold d.
  destruct (has_zero_power d) eqn:Hz.
  - left. split; [now apply has_zero_power_true|].
    now apply single_strategy_raises.
  - right. split.
    + intros item Hin. now apply (has_zero_power_false d).
    + rewrite (single_strategy_cases _ _ _ _ Hz). eauto.
Qed.

Lemma run_strategy_unknown (self : Analyzer.t) (w : World.t)
  (strategy : string) (prices : Prices.t) :
  ~ In strategy strategies ->
  run_strategy self w strategy prices = Raise UnboundLocalError.
Proof.
  intros Hnot. unfold run_strategy.
  destruct (String.eqb strategy "optimal") eqn:E1.
  { apply String.eqb_eq in E1. exfalso. apply Hnot. simpl. auto. }
  destruct (String.eqb strategy "mining_only") eqn:E2.
  { apply String.eqb_eq in E2. exfalso. apply Hnot. simpl. auto. }
  destruct (String.eqb strategy "inference_only") eqn:E3.
  { apply String.eqb_eq in E3. exfalso. apply Hnot. simpl. auto. }
  reflexivity.
Qed.

(** X15: with a strategy name other than the three known ones the
    simulator raises [UnboundLocalError] as soon as the history has a row,
    and still returns [None] when it has none. *)
Theorem simulate_unknown_strategy (self : Analyzer.t)
  (worlds : nat -> World.t) (strategy : string) (df : list Row.t) :
  ~ In strategy strategies ->
  simulate_strategy self worlds strategy (Rows []) = Return None
  /\ (df <> [] ->
      simulate_strategy self worlds strategy (Rows df)
      = Raise UnboundLocalError).
Proof.
  intros Hnot. split; [reflexivity|].
  destruct df as [|row rest]; [contradiction|]. intros _.
  unfold simulate_strategy. simpl.
  now rewrite (run_strategy_unknown self (worlds 0%nat) strategy _ Hnot).
Qed.

Lemma simulate_unknown_strategy_witness :
  simulate_strategy default_analyzer (fun _ => sample_world) "greedy"
    (Rows sample_history)
  = Raise UnboundLocalError.
Proof.
  apply (simulate_unknown_strategy default_analyzer (fun _ => sample_world)
           "greedy" sample_history).
  - simpl. intuition discriminate.
  - discriminate.
Defined.

(** X16: when the inventory has a power draw of zero, simulating the
    optimal strategy over a history with at least one row raises
    [ZeroDivisionError]: no record is returned, whatever the prices. *)
Theorem simulate_zero_power (self : Analyzer.t) (worlds : nat -> World.t)
  (df : list Row.t) :
  inventory_has_zero_power (Analyzer.inventory self) = true ->
  df <> [] ->
  simulate_strategy self worlds "optimal" (Rows df)
  = Raise ZeroDivisionError.
Proof.
  intros Hz Hne. destruct df as [|row rest]; [contradiction|].
  unfold simulate_strategy. simpl. unfold run_strategy. simpl.
  now rewrite find_optimal_allocation_raises.
Qed.

Lemma simulate_zero_power_witness :
  simulate_strategy zero_power_analyzer (fun _ => sample_world) "optimal"
    (Rows sample_history)
  = Raise ZeroDivisionError.
Proof.
  apply (simulate_zero_power zero_power_analyzer (fun _ => sample_world)
           sample_history).
  - reflexivity.
  - discriminate.
Defined.

(** ** Replaying a history *)

(** The totals of a strategy do not depend on the outside world. *)
Lemma run_strategy_world (self : Analyzer.t) (w w' : World.t)
  (strategy : string) (prices : Prices.t) :
  run_strategy self w strategy prices = run_strategy self w' strategy prices.
Proof.
  unfold run_strategy.
  destruct (String.eqb strategy "optimal"); [|reflexivity].
  unfold find_optimal_allocation.
  destruct (machine_efficiency _ _); simpl; [|reflexivity].
  destruct (for_loop _ _ _); simpl; [|reflexivity].
  destruct (roi _ _); reflexivity.
Qed.

Lemma simulate_rows_world (self : Analyzer.t) (worlds worlds' : nat -> World.t)
  (strategy : string) (rows : list Row.t) :
  forall i j,
    simulate_rows self worlds strategy i rows
    = simulate_rows self worlds' strategy j rows.
Proof.
  induction rows as [|row rest IH]; intros i j; simpl; [reflexivity|].
  rewrite (run_strategy_world self (worlds i) (worlds' j)).
  now rewrite (IH (S i) (S j)).
Qed.

Lemma simulate_rows_app (self : Analyzer.t) (worlds : nat -> World.t)
  (strategy : string) (rows1 rows2 : list Row.t) :
  forall i,
    simulate_rows self worlds strategy i (rows1 ++ rows2)%list
    = (r1 <- simulate_rows self worlds strategy i rows1 ;;
       r2 <- simulate_rows self worlds strategy i rows2 ;;
       Return (r1 ++ r2)%list).
Proof.
  induction rows1 as [|row rest IH]; intros i; simpl.
  - destruct (simulate_rows self worlds strategy i rows2); reflexivity.
  - destruct (run_strategy self (worlds i) strategy (prices_of_row row));
      simpl; [|reflexivity].
    rewrite (IH (S i)).
    rewrite (simulate_rows_world self worlds worlds strategy rows2 (S i) i).
    destruct (simulate_rows self worlds strategy (S i) rest); simpl;
      [|reflexivity].
    destruct (simulate_rows self worlds strategy i rows2); reflexivity.
Qed.

Lemma simulate_strategy_rows (self : Analyzer.t) (worlds : nat -> World.t)
  (strategy : string) (df : list Row.t) (records : list RunRecord.t) :
  simulate_strategy self worlds strategy (Rows df) = Return (Some records) ->
  df <> [] /\ simulate_rows self worlds strategy 0 df = Return records.
Proof.
  destruct df as [|row rest]; [discriminate|].
  unfold simulate_strategy.
  destruct (simulate_rows self worlds strategy 0 (row :: rest));
    simpl; [|discriminate].
  intros [= <-]. split; [discriminate|reflexivity].
Qed.

(** X17: every snapshot is replayed on its own: when the simulator returns
    records for one history and for another, whatever the clock was during
    the two runs, then for the first history followed by the second it
    returns the first records followed by the second. *)
Theorem simulate_strategy_app (self : Analyzer.t)
  (worlds1 worlds2 worlds : nat -> World.t) (strategy : string)
  (df1 df2 : list Row.t) (records1 records2 : list RunRecord.t) :
  simulate_strategy self worlds1 strategy (Rows df1)
  = Return (Some records1) ->
  simulate_strategy self worlds2 strategy (Rows df2)
  = Return (Some records2) ->
  simulate_strategy self worlds strategy (Rows (df1 ++ df2))
  = Return (Some (records1 ++ records2)%list).
Proof.
  intros H1 H2.
  apply simulate_strategy_rows in H1, H2.
  destruct H1 as [Hne1 H1], H2 as [_ H2].
  rewrite (simulate_rows_world self worlds1 worlds strategy df1 0 0) in H1.
  rewrite (simulate_rows_world self worlds2 worlds strategy df2 0 0) in H2.
  unfold simulate_strategy.
  destruct (df1 ++ df2)%list as [|row rest] eqn:E.
  { apply app_eq_nil in E. destruct E as [E _]. contradiction. }
  rewrite <- E, simulate_rows_app, H1, H2. reflexivity.
Qed.

Lemma simulate_strategy_app_witness :
  exists records,
    simulate_strategy default_analyzer (fun _ => sample_world) "optimal"
      (Rows sample_history) = Return (Some records)
    /\ simulate_strategy default_analyzer (fun _ => later_world) "optimal"
         (Rows (sample_history ++ sample_history))
       = Return (Some (records ++ records)%list).
Proof.
  eexists. split; [vm_compute; reflexivity|].
  apply (simulate_strategy_app default_analyzer (fun _ => sample_world)
           (fun _ => sample_world) (fun _ => later_world) "optimal"
           sample_history sample_history);
    vm_compute; reflexivity.
Defined.

Lemma simulate_rows_origin (self : Analyzer.t) (worlds : nat -> World.t)
  (strategy : string) (rows : list Row.t) :
  forall i records,
    simulate_rows self worlds strategy i rows = Return records ->
    Forall (fun record =>
              exists w row result,
                In row rows
                /\ run_strategy self w strategy (prices_of_row row)
                   = Return result
                /\ record = record_of row result) records.
Proof.
  induction rows as [|row rest IH]; intros i records; simpl.
  - intros [= <-]. constructor.
  - destruct (run_strategy self (worlds i) strategy (prices_of_row row))
      as [result|] eqn:Hrun; simpl; [|discriminate].
    destruct (simulate_rows self worlds strategy (S i) rest)
      as [results|] eqn:Hrest; simpl; [|discriminate].
    intros [= <-]. constructor.
    + exists (worlds i), row, result. auto.
    + specialize (IH (S i) results Hrest).
      rewrite Forall_forall in *. intros r Hr.
      destruct (IH r Hr) as [w [row' [res [Hin H]]]].
      exists w, row', res. split; [now right|exact H].
Qed.

Lemma run_strategy_consistent (self : Analyzer.t) (w : World.t)
  (strategy : string) (prices : Prices.t) (result : Summary.t) :
  run_strategy self w strategy prices = Return result ->
  Summary.total_profit result
  == Summary.total_revenue result - Summary.total_cost result.
Proof.
  unfold run_strategy.
  assert (Hsingle : forall limit price d,
             single_strategy limit price prices d = Return result ->
             Summary.total_profit result
             == Summary.total_revenue result - Summary.total_cost result).
  { intros limit price d. unfold single_strategy.
    destruct (for_loop _ _ _) as [[[best|] bp]|]; simpl;
      [| intros [= <-]; reflexivity | discriminate].
    destruct (py_floordiv _ _); simpl; [|discriminate].
    rewrite roi_returns. simpl. intros [= <-]. reflexivity. }
  destruct (String.eqb strategy "optimal").
  - destruct (find_optimal_allocation self w (Some prices)) as [plan|] eqn:E;
      simpl; [|discriminate].
    intros [= <-]. simpl.
    exact (proj1 (returned_plan_totals self w (Some prices) plan E)).
  - destruct (String.eqb strategy "mining_only"); [apply Hsingle|].
    destruct (String.eqb strategy "inference_only");
      [apply Hsingle|discriminate].
Qed.

(** X18: in every record the simulator returns, for any strategy, the
    profit is, in exact arithmetic, the revenue minus the cost; and for
    the optimal strategy on an inventory with positive power draws no
    record has a negative profit or a negative ROI. *)
Theorem simulate_records_consistent (self : Analyzer.t)
  (worlds : nat -> World.t) (strategy : string) (df : list Row.t)
  (records : list RunRecord.t) :
  simulate_strategy self worlds strategy (Rows df) = Return (Some records) ->
  Forall (fun record =>
            RunRecord.profit record
            == RunRecord.revenue record - RunRecord.cost record) records
  /\ (strategy = "optimal" ->
      positive_powers (Analyzer.inventory self) ->
      Forall (fun record =>
                0 <= RunRecord.profit record /\ 0 <= RunRecord.roi record)
        records).
Proof.
  intros Hrun. apply simulate_strategy_rows in Hrun.
  destruct Hrun as [_ Hrun].
  pose proof (simulate_rows_origin self worlds strategy df 0 records Hrun)
    as Horigin.
  rewrite Forall_forall in Horigin. split.
  - apply Forall_forall. intros record Hrec.
    destruct (Horigin record Hrec) as [w [row [result [_ [Hres ->]]]]].
    simpl. exact (run_strategy_consistent self w strategy _ result Hres).
  - intros -> Hpos. apply Forall_forall. intros record Hrec.
    destruct (Horigin record Hrec) as [w [row [result [_ [Hres ->]]]]].
    unfold run_strategy in Hres. simpl in Hres.
    destruct (find_optimal_allocation self w (Some (prices_of_row row)))
      as [plan|] eqn:E; simpl in Hres; [|discriminate].
    injection Hres as <-. simpl.
    pose proof (returned_plan_profit self w _ plan E Hpos) as Hprofit.
    split; [exact Hprofit|].
    pose proof (returned_no_zero_power _ _ _ _ E) as Hz.
    destruct (find_optimal_allocation_returns self w
                (Some (prices_of_row row)) Hz) as [st Hst].
    rewrite Hst in E. injection E as <-. simpl in *.
    destruct (Qlt_le_dec 0 (Greedy.total_cost st)) as [Hc|Hc].
    + rewrite (proj1 (roi_value_cases _ _) Hc).
      apply Qmult_le_0_compat; [|discriminate].
      apply Qle_shift_div_l; [exact Hc|]. lra.
    + rewrite (proj2 (roi_value_cases _ _) Hc). apply Qle_refl.
Qed.

Lemma simulate_records_consistent_witness :
  exists records,
    simulate_strategy default_analyzer (fun _ => sample_world) "optimal"
      (Rows sample_history) = Return (Some records)
    /\ Forall (fun record =>
                 RunRecord.profit record
                 == RunRecord.revenue record - RunRecord.cost record)
         records
    /\ Forall (fun record =>
                 0 <= RunRecord.profit record /\ 0 <= RunRecord.roi record)
         records.
Proof.
  eexists. split; [vm_compute; reflexivity|].
  destruct (simulate_records_consistent default_analyzer
              (fun _ => sample_world) "optimal" sample_history _
              ltac:(vm_compute; reflexivity)) as [Hcons Hpos].
  split; [exact Hcons|].
  apply Hpos; [reflexivity|]. split; simpl; repeat constructor.
Defined.

(** ** The inventory table *)

Lemma specs_eta (specs : Specs.t) :
  Specs.make (Specs.power specs) (Specs.capability specs) = specs.
Proof. now destruct specs. Qed.

Lemma add_miner_rows (ms : dict Specs.t) :
  forall m0 c0,
    NoDup (keys (m0 ++ ms)%list) ->
    fold_left inventory_add_row (map miner_row ms) (Inventory.make m0 c0)
    = Inventory.make (m0 ++ ms)%list c0.
Proof.
  induction ms as [|[k v] rest IH]; intros m0 c0 Hnd; simpl.
  - now rewrite app_nil_r.
  - unfold inventory_add_row at 2. simpl. rewrite specs_eta.
    assert (Hfresh : ~ In k (keys m0)).
    { unfold keys in *. rewrite map_app in Hnd. simpl in Hnd.
      apply NoDup_remove_2 in Hnd. intros H. apply Hnd.
      apply in_or_app. now left. }
    rewrite (dict_set_fresh _ _ _ Hfresh), IH.
    + now rewrite <- app_assoc.
    + now rewrite <- app_assoc.
Qed.

Lemma add_inference_rows (cs : dict Specs.t) :
  forall m0 c0,
    NoDup (keys (c0 ++ cs)%list) ->
    fold_left inventory_add_row (map inference_row cs) (Inventory.make m0 c0)
    = Inventory.make m0 (c0 ++ cs)%list.
Proof.
  induction cs as [|[k v] rest IH]; intros m0 c0 Hnd; simpl.
  - now rewrite app_nil_r.
  - unfold inventory_add_row at 2. simpl. rewrite specs_eta.
    assert (Hfresh : ~ In k (keys c0)).
    { unfold keys in *. rewrite map_app in Hnd. simpl in Hnd.
      apply NoDup_remove_2 in Hnd. intros H. apply Hnd.
      apply in_or_app. now left. }
    rewrite (dict_set_fresh _ _ _ Hfresh), IH.
    + now rewrite <- app_assoc.
    + now rewrite <- app_assoc.
Qed.

(** X19: what [store_inventory] writes, [load_inventory] reads back: after
    storing an inventory with at least one entry, pairwise different
    subtypes and numbers the table columns hold, loading returns that
    inventory, entries in the same order, without a request to the service,
    whatever the table held before.  When an entry has an integer beyond
    64 bits the store raises [OverflowError] and the table keeps the rows
    it had; storing [None] leaves the table as it was. *)
Theorem store_then_load_inventory (inv : Inventory.t)
  (table : list InventoryRow.t) (api : nat -> Response Inventory.t) :
  let items := (Inventory.miners inv ++ Inventory.inference inv)%list in
  (unique_subtypes inv ->
   items <> [] ->
   (forall item, In item items -> row_fits item = true) ->
   exists stored,
     store_inventory (Some inv) table = (stored, Done tt)
     /\ load_inventory (Table stored) api = Done inv)
  /\ ((exists item, In item items /\ row_fits item = false) ->
      store_inventory (Some inv) table = (table, Fail OverflowError))
  /\ store_inventory None table = (table, Done tt).
Proof.
  intros items. split; [|split; [|reflexivity]].
  - intros [Hm Hc] Hne Hfits. unfold store_inventory. fold items.
    assert (Hall : forallb row_fits items = true)
      by (apply forallb_forall; exact Hfits).
    rewrite Hall. eexists. split; [reflexivity|].
    unfold load_inventory.
    destruct (map miner_row (Inventory.miners inv)
              ++ map inference_row (Inventory.inference inv))%list
      as [|row rows] eqn:E.
    { apply app_eq_nil in E. destruct E as [E1 E2].
      apply map_eq_nil in E1, E2. exfalso. apply Hne. unfold items.
      now rewrite E1, E2. }
    rewrite <- E. unfold inventory_of_rows.
    rewrite fold_left_app, add_miner_rows, add_inference_rows by assumption.
    simpl. now destruct inv.
  - intros [item [Hin Hno]]. unfold store_inventory. fold items.
    destruct (forallb row_fits items) eqn:Hall; [|reflexivity].
    rewrite forallb_forall in Hall. rewrite (Hall item Hin) in Hno.
    discriminate.
Qed.

Lemma store_then_load_inventory_witness :
  (exists stored,
      store_inventory (Some default_inventory) [] = (stored, Done tt)
      /\ load_inventory (Table stored) (fun _ => Unreachable)
         = Done default_inventory)
  /\ store_inventory (Some oversized_inventory)
       [InventoryRow.make "miner" "air" 3500 1000]
     = ([InventoryRow.make "miner" "air" 3500 1000], Fail OverflowError).
Proof.
  split.
  - apply (proj1 (store_then_load_inventory default_inventory []
                    (fun _ => Unreachable))).
    + split; simpl; repeat constructor; simpl; intuition discriminate.
    + discriminate.
    + intros item Hin. simpl in Hin.
      destruct Hin as [<-|[<-|[<-|[<-|[<-|[]]]]]]; reflexivity.
  - apply (proj1 (proj2 (store_then_load_inventory oversized_inventory
                           [InventoryRow.make "miner" "air" 3500 1000]
                           (fun _ => Unreachable)))).
    exists ("big", Specs.make (2 ^ 63) 1000).
    split; [simpl; left; reflexivity|reflexivity].
Defined.

Lemma keys_dict_set {V : Type} (k : string) (v : V) (d : dict V)
  (k' : string) :
  In k' (keys (dict_set k v d)) <-> k' = k \/ In k' (keys d).
Proof.
  induction d as [|[k0 v0] rest IH]; simpl.
  - intuition.
  - destruct (String.eqb k k0) eqn:E; simpl.
    + apply String.eqb_eq in E. subst k0. intuition.
    + rewrite IH. intuition.
Qed.

Lemma dict_set_unique {V : Type} (k : string) (v : V) (d : dict V) :
  NoDup (keys d) -> NoDup (keys (dict_set k v d)).
Proof.
  induction d as [|[k0 v0] rest IH]; simpl; intros Hnd.
  - repeat constructor. intros [].
  - inversion Hnd as [|? ? Hnotin Hrest]; subst.
    destruct (String.eqb k k0) eqn:E; simpl.
    + apply String.eqb_eq in E. subst k0. now constructor.
    + apply String.eqb_neq in E. constructor; [|now apply IH].
      intros Hin. apply keys_dict_set in Hin.
      destruct Hin as [->|Hin]; [now apply E|contradiction].
Qed.

(** The category a row is filed under. *)
Lemma inventory_add_row_keys (inv : Inventory.t) (row : InventoryRow.t)
  (t : MachineType) (k : string) :
  In k (keys (category t (inventory_add_row inv row))) <->
  In k (keys (category t inv))
  \/ (k = InventoryRow.subtype row
      /\ (InventoryRow.type row = "miner" <-> t = miner)).
Proof.
  unfold inventory_add_row.
  destruct (String.eqb (InventoryRow.type row) "miner") eqn:E.
  - apply String.eqb_eq in E. destruct t; simpl.
    + rewrite keys_dict_set. intuition.
    + intuition discriminate.
  - apply String.eqb_neq in E. destruct t; simpl.
    + intuition.
    + rewrite keys_dict_set. intuition discriminate.
Qed.

Lemma inventory_rows_keys (rows : list InventoryRow.t) :
  forall inv,
    unique_subtypes inv ->
    unique_subtypes (fold_left inventory_add_row rows inv)
    /\ forall t k,
        In k (keys (category t (fold_left inventory_add_row rows inv))) <->
        In k (keys (category t inv))
        \/ exists row,
            In row rows /\ InventoryRow.subtype row = k
            /\ (InventoryRow.type row = "miner" <-> t = miner).
Proof.
  induction rows as [|row rest IH]; intros inv Huniq; simpl.
  - split; [exact Huniq|]. intros t k. split; [auto|].
    intros [H|[row [[] _]]]. exact H.
  - assert (Huniq' : unique_subtypes (inventory_add_row inv row)).
    { destruct Huniq as [Hm Hc]. unfold inventory_add_row, unique_subtypes.
      destruct (String.eqb _ _); simpl; split; auto;
        now apply dict_set_unique. }
    destruct (IH _ Huniq') as [Hu Hkeys]. split; [exact Hu|].
    intros t k. rewrite Hkeys, inventory_add_row_keys. split.
    + intros [[H|[-> Ht]]|[r [Hr H]]]; [now left| |].
      * right. exists row. split; [now left|]. split; [reflexivity|exact Ht].
      * right. exists r. split; [now right|exact H].
    + intros [H|[r [[<-|Hr] [Hk Ht]]]].
      * left. now left.
      * left. right. split; [now symmetry|exact Ht].
      * right. exists r. auto.
Qed.

(** X20: whatever rows the inventory table holds, also repeated ones, the
    inventory built from them has pairwise different subtypes in each
    category, and its miners are exactly the subtypes of the rows of type
    ['miner'], its inference devices those of all other rows. *)
Theorem loaded_inventory_is_a_dictionary (rows : list InventoryRow.t) :
  unique_subtypes (inventory_of_rows rows)
  /\ forall t k,
      In k (keys (category t (inventory_of_rows rows))) <->
      exists row,
        In row rows /\ InventoryRow.subtype row = k
        /\ (InventoryRow.type row = "miner" <-> t = miner).
Proof.
  destruct (inventory_rows_keys rows (Inventory.make [] [])) as [Hu Hkeys].
  { split; constructor. }
  split; [exact Hu|]. intros t k. unfold inventory_of_rows.
  rewrite Hkeys. split; [|auto].
  intros [H|H]; [|exact H]. destruct t; contradiction.
Qed.

(** X21: when the inventory table gives no row, because of a database
    error, a missing table or an empty table, and the service answers every
    request with a status other than 200, [load_inventory] returns the
    hard-coded default inventory; and whenever every request is answered
    with a JSON body, [load_inventory] returns an inventory and does not
    raise. *)
Theorem load_inventory_fallback (db : TableQuery InventoryRow.t)
  (api : nat -> Response Inventory.t) :
  ((db = DbError \/ db = NoTable \/ db = Table []) ->
   (forall n, exists code json,
       api n = Answered code json /\ code <> 200%Z) ->
   load_inventory db api = Done default_inventory)
  /\ ((forall n, exists code inventory,
          api n = Answered code (Some inventory)) ->
      exists inventory, load_inventory db api = Done inventory).
Proof.
  split.
  - intros Hdb Hapi.
    assert (Hfallback : forall n,
               inventory_fallback (api n) = Done default_inventory).
    { intros n. destruct (Hapi n) as [code [json [-> Hcode]]]. simpl.
      apply Z.eqb_neq in Hcode. now rewrite Hcode. }
    assert (Hfetch : inventory_fetch api = Done default_inventory).
    { unfold inventory_fetch.
      destruct (Hapi 0%nat) as [code [json [E Hcode]]]. rewrite E.
      apply Z.eqb_neq in Hcode. rewrite Hcode.
      destruct json; apply Hfallback. }
    destruct Hdb as [-> | [-> | ->]]; simpl; auto.
  - intros Hapi.
    assert (Hfallback : forall n,
               exists inventory, inventory_fallback (api n) = Done inventory).
    { intros n. destruct (Hapi n) as [code [inventory ->]]. simpl.
      destruct (code =? 200)%Z; eauto. }
    assert (Hfetch : exists inventory, inventory_fetch api = Done inventory).
    { unfold inventory_fetch.
      destruct (Hapi 0%nat) as [code [inventory ->]].
      destruct (code =? 200)%Z; [eauto|apply Hfallback]. }
    destruct db as [| |[|row rows]]; simpl; eauto.
Qed.

Lemma load_inventory_fallback_witness :
  load_inventory NoTable (fun _ => Answered 503 None) = Done default_inventory.
Proof.
  apply (proj1 (load_inventory_fallback NoTable
                  (fun _ => Answered 503 None))).
  - right. left. reflexivity.
  - intros n. exists 503%Z, None. split; [reflexivity|lia].
Defined.

(** ** The latest prices *)

(** X22: [get_latest_prices] ends without a value, returning [None],
    exactly when the pricing table exists and is empty and the first
    request is answered either with a status other than 200 or with an
    empty list: in no other case, and never by the [except] branch. *)
Theorem get_latest_prices_none (db : TableQuery Row.t)
  (api : nat -> Response (list Row.t)) (now : string) :
  get_latest_prices db api now = Done None <->
  db = Table []
  /\ exists code json,
      api 0%nat = Answered code json
      /\ (code <> 200%Z \/ json = Some []).
Proof.
  assert (Hfallback : forall r, prices_fallback r now <> Done None).
  { intros [|code [[|first rest]|]]; simpl;
      try destruct (code =? 200)%Z; discriminate. }
  split.
  - destruct db as [| |[|row rows]]; simpl.
    + intros H. now apply Hfallback in H.
    + destruct (api 0%nat) as [|code [[|first rest]|]];
        try (intros H; now apply Hfallback in H).
      destruct (code =? 200)%Z; [discriminate|].
      intros H. now apply Hfallback in H.
    + destruct (api 0%nat) as [|code json] eqn:E.
      * intros H. now apply Hfallback in H.
      * destruct (code =? 200)%Z eqn:Hcode.
        -- destruct json as [[|first rest]|]; try discriminate.
           ++ intros _. split; [reflexivity|]. exists code, (Some []). auto.
           ++ intros H. now apply Hfallback in H.
        -- intros _. split; [reflexivity|]. exists code, json.
           split; [reflexivity|]. left. now apply Z.eqb_neq.
    + discriminate.
  - intros [-> [code [json [E Hcase]]]]. simpl. rewrite E.
    destruct Hcase as [Hcode | ->].
    + apply Z.eqb_neq in Hcode. now rewrite Hcode.
    + destruct (code =? 200)%Z; reflexivity.
Qed.

(** ** Leftover budget *)

(** C10, as stated, fails: the optimizer also returns for an inventory with
    a negative power draw, and there a device with a positive profit per
    watt has a power draw below the power left unused. *)
Lemma negative_power_leaves_room :
  exists plan,
    find_optimal_allocation reversed_analyzer sample_world (Some unit_prices)
    = Return plan
    /\ In ("x", Specs.make (-3) (-30))
         (category miner (Analyzer.inventory reversed_analyzer))
    /\ 0 < profit_per_watt miner unit_prices (Specs.make (-3) (-30))
    /\ ~ (Analyzer.site_power_limit reversed_analyzer
          - Plan.total_power_used plan < -3)%Z.
Proof.
  eexists. split; [vm_compute; reflexivity|].
  split; [simpl; left; reflexivity|].
  split; [reflexivity|]. simpl. lia.
Qed.

(** C10, amended: for an inventory with positive power draws, and
    pairwise different subtypes in each category, the optimizer returns a
    plan whose [total_power_used] is the sum of [power_used] over its
    entries, each entry being a positive number of whole units of its
    device; and the site power limit minus that sum is smaller than the
    power draw of every inventory entry whose profit per watt is positive:
    no further unit of a profitable device fits. *)
Theorem no_profitable_unit_fits (self : Analyzer.t) (w : World.t)
  (current_prices : option Prices.t) :
  let inv := Analyzer.inventory self in
  let prices := resolve_prices w current_prices in
  positive_powers inv ->
  unique_subtypes inv ->
  exists plan,
    find_optimal_allocation self w current_prices = Return plan
    /\ Plan.total_power_used plan = sum_power_used (Plan.allocation plan)
    /\ (forall key entry,
           In (key, entry) (Plan.allocation plan) ->
           exists item,
             In item (category (Entry.type entry) inv)
             /\ fst item = Entry.subtype entry
             /\ (0 < Entry.units entry)%Z
             /\ Entry.power_used entry
                = (Entry.units entry * Specs.power (snd item))%Z)
    /\ forall t item,
        In item (category t inv) ->
        0 < profit_per_watt t prices (snd item) ->
        (Analyzer.site_power_limit self
         - sum_power_used (Plan.allocation plan)
         < Specs.power (snd item))%Z.
Proof.
  intros inv prices Hpos Huniq.
  pose proof (ranked_keys_unique self prices Huniq) as Hnd.
  destruct (find_optimal_allocation_invariant self w current_prices
              (fun pre st =>
                 (forall m, In m pre -> 0 < Machine.profit_per_watt m ->
                            (Greedy.remaining_power st < Machine.power m)%Z)
                 /\ (Analyzer.site_power_limit self
                     - Greedy.remaining_power st)%Z
                    = sum_power_used (Greedy.allocation st)
                 /\ incl (keys (Greedy.allocation st))
                      (map allocation_key pre)))
    as [st [Hrun [Hroom [Hsum _]]]].
  - now apply positive_no_zero.
  - simpl. split; [intros m []|].
    split; [unfold sum_power_used; simpl; lia|intros k []].
  - fold prices. intros pre m post st st' Heq [Hold [Hsum Hkeys]] Hstep.
    assert (Hin : In m (ranked self prices)).
    { rewrite Heq. apply in_or_app. right. now left. }
    pose proof (ranked_power_positive self _ m Hpos Hin) as Hp.
    assert (Hgrow : incl (map allocation_key pre)
                      (map allocation_key (pre ++ [m])%list)).
    { rewrite map_app. apply incl_appl, incl_refl. }
    destruct Hstep
      as [Hle|Hppw Hnone|max_units entry Hppw Hmax Hunits Hentry]; simpl.
    + split; [|split; [exact Hsum|eapply incl_tran; eauto]].
      intros m' Hm' Hppw'. apply in_app_or in Hm'.
      destruct Hm' as [Hm'|[<-|[]]]; [now apply Hold|].
      exfalso. apply (Qlt_not_le _ _ Hppw' Hle).
    + split; [|split; [exact Hsum|eapply incl_tran; eauto]].
      intros m' Hm' Hppw'. apply in_app_or in Hm'.
      destruct Hm' as [Hm'|[<-|[]]]; [now apply Hold|].
      now apply floordiv_no_room.
    + assert (Hfresh : ~ In (allocation_key m) (keys (Greedy.allocation st))).
      { intros Hk. apply Hkeys in Hk.
        rewrite Heq, map_app in Hnd. simpl in Hnd.
        apply NoDup_remove_2 in Hnd. apply Hnd.
        apply in_or_app. now left. }
      rewrite (dict_set_fresh _ _ _ Hfresh).
      pose proof (floordiv_rest (Greedy.remaining_power st) _ Hp) as Hrest.
      rewrite Hentry. simpl. rewrite Hmax. split; [|split].
      * intros m' Hm' Hppw'. apply in_app_or in Hm'.
        destruct Hm' as [Hm'|[<-|[]]]; [|lia].
        specialize (Hold m' Hm' Hppw'). nia.
      * rewrite sum_power_used_app, <- Hsum.
        unfold sum_power_used. simpl. lia.
      * unfold keys. rewrite !map_app. simpl.
        apply incl_app; [now apply incl_appl|].
        apply incl_appr, incl_refl.
  - exists (plan_of self w prices st). split; [exact Hrun|].
    split; [exact Hsum|]. split.
    + intros key entry Hentry.
      destruct (plan_entry_origin self w current_prices _ Hrun key entry
                  Hentry)
        as [t [item [units [Hitem [_ [_ [Hunits [_ ->]]]]]]]].
      exists item. simpl. auto.
    + intros t item Hitem Hppw. simpl. rewrite <- Hsum.
      replace (Analyzer.site_power_limit self
               - (Analyzer.site_power_limit self
                  - Greedy.remaining_power st))%Z
        with (Greedy.remaining_power st) by lia.
      apply (Hroom (machine_of t prices item)); [|exact Hppw].
      apply In_ranked_category. eauto.
Qed.

(** On a site of 1003000 W the default inventory leaves 3000 W, less than
    any profitable device draws. *)
Lemma no_profitable_unit_fits_witness :
  exists plan,
    find_optimal_allocation roomy_analyzer sample_world None = Return plan
    /\ Plan.total_power_used plan = 1000000%Z
    /\ sum_power_used (Plan.allocation plan) = 1000000%Z
    /\ forall t item,
        In item (category t default_inventory) ->
        0 < profit_per_watt t default_prices (snd item) ->
        (3000 < Specs.power (snd item))%Z.
Proof.
  destruct (no_profitable_unit_fits roomy_analyzer sample_world None)
    as [plan [Hrun [Hsum [_ Hroom]]]].
  - split; simpl; repeat constructor.
  - split; simpl; repeat constructor; simpl; intuition discriminate.
  - exists plan. split; [exact Hrun|].
    assert (Hused : Plan.total_power_used plan = 1000000%Z).
    { vm_compute in Hrun. injection Hrun as <-. reflexivity. }
    split; [exact Hused|]. rewrite <- Hsum. split; [exact Hused|].
    intros t item Hitem Hppw.
    specialize (Hroom t item Hitem Hppw).
    rewrite <- Hsum, Hused in Hroom. simpl in Hroom. lia.
Defined.
